(** * Multi-instance Hailo detection scripts: supervisor and telemetry

    A shallow embedding of the three scripts under [scripts/python]:

    - [multi_instance_detection.py]      (module [Detection])
    - [multi_instance_yolo11l.py]        (module [Yolo11l])
    - [multi_instance_detection_old.py]  (module [DetectionOld])

    Wall-clock readings ([time.time()]) are rationals, Python integers are
    [Z], instance ids (always drawn from [range(num_instances)]) are [nat].
    Every read of the clock is an explicit argument of the function that
    performs it.

    Float arithmetic is modelled without rounding: a difference or a
    quotient here is the exact rational of which the program holds the
    nearest double.  A rate given below is thus the quotient the code
    evaluates, before that last rounding; signs, bounds and comparisons
    with 0 are the same in both. *)

From Stdlib Require Import QArith ZArith Lia List Sorted String Ascii.
From Stdlib Require Import DecimalString DecimalNat Decimal.
From stdpp Require Import base list gmap sets strings sorting pretty.

Import ListNotations.

(** ** Python values shared by the three scripts *)

Module Py.

(** [x > y] on floats. *)
Definition gt (x y : Q) : bool := negb (Qle_bool x y).

(** [int] to [float] conversion performed by [/]. *)
Definition float_of_int (z : Z) : Q := inject_Z z.

(** [len(l)] as a Python integer. *)
Definition len {A} (l : list A) : Z := Z.of_nat (length l).

(** The exceptions the modelled code can meet.  [SystemExit] and
    [KeyboardInterrupt] derive from [BaseException] only; the others
    derive from [Exception]. *)
Inductive exn : Type :=
| ZeroDivisionError
| KeyError
| IndexError
| ValueError
| RuntimeError
| SystemExit
| KeyboardInterrupt.

Definition isinstance_Exception (e : exn) : bool :=
  match e with
  | SystemExit | KeyboardInterrupt => false
  | _ => true
  end.

(** Outcome of running a statement that may raise. *)
Inductive result (A : Type) : Type :=
| Ok (a : A)
| Raise (e : exn).
Arguments Ok {A} a.
Arguments Raise {A} e.

Definition bind {A B} (m : result A) (k : A -> result B) : result B :=
  match m with
  | Ok a => k a
  | Raise e => Raise e
  end.

(** Sequencing inside a function that mutates an object [s]: when [m]
    raises, the exception leaves the function and the object stays as
    it is at that point. *)
Definition attempt {S A B} (s : S) (m : result A)
    (k : A -> S * result B) : S * result B :=
  match m with
  | Ok a => k a
  | Raise e => (s, Raise e)
  end.

(** [x / y]: true division raises on a zero divisor.  The quotient is
    the exact one; the program holds it rounded to a double. *)
Definition truediv (x y : Q) : result Q :=
  if Qeq_bool y 0 then Raise ZeroDivisionError else Ok (x / y)%Q.

(** [l[0]], [l[-1]] and [l.pop(0)] raise [IndexError] on an empty list. *)
Definition first {A} (l : list A) : result A :=
  match l with
  | [] => Raise IndexError
  | x :: _ => Ok x
  end.

Definition final {A} (l : list A) : result A :=
  match rev l with
  | [] => Raise IndexError
  | x :: _ => Ok x
  end.

Definition pop0 {A} (l : list A) : result (list A) :=
  match l with
  | [] => Raise IndexError
  | _ :: l' => Ok l'
  end.

End Py.

#[global] Instance result_bind : MBind Py.result :=
  fun A B (k : A -> Py.result B) (m : Py.result A) => Py.bind m k.
#[global] Instance result_ret : MRet Py.result := @Py.Ok.

(** ** Python strings: [in] and [str.replace] *)

Module PyStr.

(** [s.startswith(p)], returning what follows the prefix. *)
Fixpoint strip_prefix (p s : string) : option string :=
  match p with
  | EmptyString => Some s
  | String a p' =>
      match s with
      | EmptyString => None
      | String b s' => if Ascii.eqb a b then strip_prefix p' s' else None
      end
  end.

Definition startswith (p s : string) : bool :=
  match strip_prefix p s with Some _ => true | None => false end.

(** [p in s] *)
Fixpoint contains (p s : string) : bool :=
  startswith p s ||
  match s with
  | EmptyString => false
  | String _ s' => contains p s'
  end.

(** Left-to-right scan of [s.replace(old, new)] for a non-empty [old]:
    at each position either a whole occurrence of [old] is consumed and
    [new] is emitted, or one character is copied.  Every step consumes
    at least one character, so [String.length s] steps are enough. *)
Fixpoint replace_scan (fuel : nat) (old new s : string) : string :=
  match fuel with
  | O => s
  | S fuel' =>
      match strip_prefix old s with
      | Some rest => new +:+ replace_scan fuel' old new rest
      | None =>
          match s with
          | EmptyString => EmptyString
          | String c s' => String c (replace_scan fuel' old new s')
          end
      end
  end.

(** With an empty [old], Python inserts [new] before every character
    and at the end. *)
Fixpoint intersperse (new s : string) : string :=
  match s with
  | EmptyString => new
  | String c s' => new +:+ String c (intersperse new s')
  end.

(** [s.replace(old, new)] *)
Definition replace (s old new : string) : string :=
  match old with
  | EmptyString => intersperse new s
  | String _ _ => replace_scan (String.length s) old new s
  end.

(** [c in s] for a single character. *)
Fixpoint has_char (c : ascii) (s : string) : bool :=
  match s with
  | EmptyString => false
  | String b s' => Ascii.eqb c b || has_char c s'
  end.

(** [p] and [x] agree on their common length: one is a prefix of the
    other. *)
Fixpoint compatible (p x : string) : bool :=
  match p, x with
  | String a p', String b x' => Ascii.eqb a b && compatible p' x'
  | _, _ => true
  end.

(** No suffix of [x] (from any position inside [x]) can be the start of
    an occurrence of [p]. *)
Fixpoint no_overlap (p x : string) : bool :=
  match x with
  | EmptyString => true
  | String _ x' => negb (compatible p x) && no_overlap p x'
  end.

(** Every character of [s] is a decimal digit. *)
Fixpoint all_digits (s : string) : bool :=
  match s with
  | EmptyString => true
  | String c s' =>
      match Ascii.is_nat c with Some _ => true | None => false end
      && all_digits s'
  end.

End PyStr.

(** ** The framework the scripts run on

    GStreamer and the Hailo application library are not part of the
    scripts; only what the scripts pass to them and get back is kept. *)

Module Hailo.

Record HailoDetection : Type := { label : string; confidence : Q }.

(** What the ROI query of a callback's [try] block does on one buffer:
    the detections it yields before it stops, and the exception that
    stops it, if any. *)
Record Buffer : Type := {
  objects : list HailoDetection;
  failure : option Py.exn
}.

(** [Gst.PadProbeReturn] *)
Inductive PadProbeReturn : Type := OK.

(** The keyword arguments of a call of [SOURCE_PIPELINE]. *)
Record SourceCall : Type := {
  video_source : string;
  video_width : Z;
  video_height : Z;
  frame_rate : Z;
  source_sync : bool;
  no_webcam_compression : bool;
  source_name : string
}.

(** The keyword arguments of a call of [INFERENCE_PIPELINE]. *)
Record InferenceCall : Type := {
  hef_path : string;
  post_process_so : option string;
  post_function_name : string;
  batch_size : Z;
  config_json : option string;
  additional_params : string;
  inference_name : string;
  vdevice_group_id : nat
}.

(** The two ways the scripts end a pipeline:
    [DISPLAY_PIPELINE(video_sink, sync, show_fps)], or
    [QUEUE(name) ! fakesink sync=false]. *)
Inductive Sink : Type :=
| DISPLAY_PIPELINE (video_sink : string) (sync show_fps : bool)
| QUEUE_fakesink (queue_name : string).

Definition displays (s : Sink) : bool :=
  match s with
  | DISPLAY_PIPELINE _ _ _ => true
  | QUEUE_fakesink _ => false
  end.

(** The string builders of the library. *)
Record Helpers : Type := {
  source_pipeline_str : SourceCall -> string;
  inference_pipeline_str : InferenceCall -> string;
  user_callback_pipeline_str : string;
  display_pipeline_str : string -> bool -> bool -> string;
  queue_str : string -> string
}.

Definition sink_str (h : Helpers) (s : Sink) : string :=
  match s with
  | DISPLAY_PIPELINE video_sink sync show_fps =>
      display_pipeline_str h video_sink sync show_fps
  | QUEUE_fakesink name => queue_str h name +:+ " ! fakesink sync=false"
  end.

(** One invocation of a probe callback by the pipeline: the clock read
    by [calculate_fps], the clock read for the status line, and
    [info.get_buffer()]. *)
Record Invocation : Type := {
  at_fps : Q;
  at_status : Q;
  probe_buffer : option Buffer
}.

(** The detections the callback reads from the buffer of an invocation. *)
Definition detections_in (c : Invocation) : Z :=
  match probe_buffer c with
  | None => 0
  | Some b => Py.len (objects b)
  end.

End Hailo.

(** ** [multi_instance_detection.py] *)

Module Detection.

(** [EnhancedInstanceCallback]; [frame_count] is the counter of the
    framework base class [app_callback_class] ([increment] adds one,
    [get_count] reads it). *)
Record EnhancedInstanceCallback : Type := {
  frame_count : Z;
  instance_id : nat;
  start_time : Q;
  last_fps_time : Q;
  fps_frame_count : Z;
  current_fps : Q;
  detection_count : Z;
  total_detections : Z;
  frame_times : list Q
}.

(** [__init__]: the clock is read once for [start_time] and once for
    [last_fps_time]. *)
Definition init (id : nat) (t0 t1 : Q) : EnhancedInstanceCallback :=
  {| frame_count := 0; instance_id := id; start_time := t0;
     last_fps_time := t1; fps_frame_count := 0; current_fps := 0;
     detection_count := 0; total_detections := 0; frame_times := [] |}.

Definition set_frame_count (v : Z) (s : EnhancedInstanceCallback) :=
  {| frame_count := v; instance_id := instance_id s;
     start_time := start_time s; last_fps_time := last_fps_time s;
     fps_frame_count := fps_frame_count s; current_fps := current_fps s;
     detection_count := detection_count s;
     total_detections := total_detections s;
     frame_times := frame_times s |}.

Definition set_current_fps (v : Q) (s : EnhancedInstanceCallback) :=
  {| frame_count := frame_count s; instance_id := instance_id s;
     start_time := start_time s; last_fps_time := last_fps_time s;
     fps_frame_count := fps_frame_count s; current_fps := v;
     detection_count := detection_count s;
     total_detections := total_detections s;
     frame_times := frame_times s |}.

Definition set_detection_count (v : Z) (s : EnhancedInstanceCallback) :=
  {| frame_count := frame_count s; instance_id := instance_id s;
     start_time := start_time s; last_fps_time := last_fps_time s;
     fps_frame_count := fps_frame_count s; current_fps := current_fps s;
     detection_count := v;
     total_detections := total_detections s;
     frame_times := frame_times s |}.

Definition set_total_detections (v : Z) (s : EnhancedInstanceCallback) :=
  {| frame_count := frame_count s; instance_id := instance_id s;
     start_time := start_time s; last_fps_time := last_fps_time s;
     fps_frame_count := fps_frame_count s; current_fps := current_fps s;
     detection_count := detection_count s;
     total_detections := v;
     frame_times := frame_times s |}.

Definition set_frame_times (v : list Q) (s : EnhancedInstanceCallback) :=
  {| frame_count := frame_count s; instance_id := instance_id s;
     start_time := start_time s; last_fps_time := last_fps_time s;
     fps_frame_count := fps_frame_count s; current_fps := current_fps s;
     detection_count := detection_count s;
     total_detections := total_detections s;
     frame_times := v |}.

Definition increment (s : EnhancedInstanceCallback) :=
  set_frame_count (frame_count s + 1) s.

Definition get_count (s : EnhancedInstanceCallback) : Z := frame_count s.

(** [calculate_fps]: returns the value of [self.current_fps] and the
    updated object. *)
Definition calculate_fps (current_time : Q) (self : EnhancedInstanceCallback)
  : Py.result (Q * EnhancedInstanceCallback) :=
  let self := set_frame_times (frame_times self ++ [current_time]) self in
  self ← (if (60 <? Py.len (frame_times self))%Z
          then l ← Py.pop0 (frame_times self);
               mret (set_frame_times l self)
          else mret self);
  self ← (if (2 <=? Py.len (frame_times self))%Z
          then t_last ← Py.final (frame_times self);
               t_first ← Py.first (frame_times self);
               let time_span := (t_last - t_first)%Q in
               if Py.gt time_span 0
               then fps ← Py.truediv
                            (Py.float_of_int (Py.len (frame_times self) - 1))
                            time_span;
                    mret (set_current_fps fps self)
               else mret self
          else mret self);
  mret (current_fps self, self).


(** *** The probe callback, [create_enhanced_callback] *)

Inductive Indicator : Type := Green | Yellow | Red.

(** The lines the script prints, by the values they are formatted from. *)
Inductive Printed : Type :=
| DetectionError (instance : nat) (e : Py.exn)
| FrameStatus (instance : nat) (frame : Z) (fps avg_fps : Q)
              (detections total : Z)
| Starting (instance : nat)
| UsingYolo11l (instance : nat) (path : string)
| Yolo11lNotFound (instance : nat) (default_hef : string)
| Configured (instance : nat)
| InstanceError (instance : nat) (e : Py.exn)
| Traceback
| OnlyRunning (alive total : Z)
| ShuttingDown
| WaitingForCleanup.

(** One pass of [for detection in ...] of the [try] block. *)
Definition collect_detection
    (acc : list (string * Q) * EnhancedInstanceCallback)
    (detection : Hailo.HailoDetection)
  : list (string * Q) * EnhancedInstanceCallback :=
  let '(detections_this_frame, user_data) := acc in
  (detections_this_frame ++ [(Hailo.label detection, Hailo.confidence detection)],
   set_total_detections (total_detections user_data + 1) user_data).

(** [enhanced_callback(pad, info, user_data)] of instance [instance];
    [buffer] is [info.get_buffer()], [t_fps] the clock read by
    [calculate_fps] and [t_status] the one read for the status line.
    The result is the object as the call leaves it, and what the call
    returns and prints, or the exception that leaves it. *)
Definition enhanced_callback (instance : nat) (t_fps t_status : Q)
    (buffer : option Hailo.Buffer) (user_data : EnhancedInstanceCallback)
  : EnhancedInstanceCallback
    * Py.result (Hailo.PadProbeReturn * list Printed) :=
  let user_data := increment user_data in
  Py.attempt user_data (calculate_fps t_fps user_data)
    (fun '(fps, user_data) =>
  match buffer with
  | None => (user_data, Py.Ok (Hailo.OK, []))
  | Some buffer =>
      let '(detections_this_frame, user_data) :=
        fold_left collect_detection (Hailo.objects buffer) ([], user_data) in
      Py.attempt user_data
        (match Hailo.failure buffer with
         | None => mret []
         | Some e =>
             if Py.isinstance_Exception e
             then mret (if (get_count user_data mod 100 =? 0)%Z
                        then [DetectionError instance e] else [])
             else Py.Raise e
         end)
        (fun errors =>
      let user_data :=
        set_detection_count (Py.len detections_this_frame) user_data in
      Py.attempt user_data
        (if (get_count user_data mod 90 =? 0)%Z
         then
           let runtime := (t_status - start_time user_data)%Q in
           avg_fps ← (if Py.gt runtime 0
                      then Py.truediv
                             (Py.float_of_int (get_count user_data)) runtime
                      else mret 0%Q);
           mret [FrameStatus instance (get_count user_data) fps
                   avg_fps (detection_count user_data)
                   (total_detections user_data)]
         else mret [])
        (fun status =>
      (user_data, Py.Ok (Hailo.OK, errors ++ status))))
  end).

(** *** [instance_callbacks] and [YOLOv11lDetectionApp] *)

(** The callback objects allocated so far, by address, and the
    module-level dictionary [instance_callbacks], which holds references
    to them. *)
Record Memory : Type := {
  heap : list EnhancedInstanceCallback;
  instance_callbacks : gmap nat nat
}.

Definition empty_memory : Memory :=
  {| heap := []; instance_callbacks := ∅ |}.

(** The object [instance_callbacks[instance]] refers to. *)
Definition entry (m : Memory) (instance : nat)
  : option EnhancedInstanceCallback :=
  instance_callbacks m !! instance ≫= fun a => heap m !! a.

(** The dictionary as the monitor reads it: every key with the current
    state of the object stored under it. *)
Definition snapshot (m : Memory) : gmap nat EnhancedInstanceCallback :=
  omap (fun a => heap m !! a) (instance_callbacks m).

Record YOLOv11lDetectionApp : Type := {
  app_instance_id : nat;
  user_data : nat;
  hef_path : string;
  batch_size : Z;
  thresholds_str : string
}.

Definition yolo11_path : string :=
  "/home/sam/rpi-5-halio-pwm/models/yolo11l.onnx".

(** [YOLOv11lDetectionApp.__init__].  [super_init] is the outcome of the
    framework constructor (the default [hef_path] when it succeeds) and
    [yolo11_exists] the answer of [os.path.exists(yolo11_path)]. *)
Definition app_init (instance : nat) (t0 t1 : Q)
    (super_init : Py.result string) (yolo11_exists : bool) (m : Memory)
  : Memory * Py.result YOLOv11lDetectionApp :=
  let address := length (heap m) in
  let m := {| heap := heap m ++ [init instance t0 t1];
              instance_callbacks :=
                <[instance := address]> (instance_callbacks m) |} in
  (m,
   default_hef ← super_init;
   mret {| app_instance_id := instance;
           user_data := address;
           hef_path := if yolo11_exists then yolo11_path else default_hef;
           batch_size := 1;
           thresholds_str :=
             "nms-score-threshold=0.25 nms-iou-threshold=0.45 " +:+
             "output-format-type=HAILO_FORMAT_TYPE_FLOAT32" |}).

(** The interpolated expression [self.instance_id + 1]. *)
Definition vdevice_group_id (self : YOLOv11lDetectionApp) : nat :=
  app_instance_id self + 1.

(** The text put in place of ["hailonet "]. *)
Definition hailonet_element (self : YOLOv11lDetectionApp) : string :=
  "hailonet vdevice-group-id=" +:+ pretty (vdevice_group_id self) +:+ " ".

(** [get_pipeline_string]; [base_pipeline] is the string returned by the
    framework's [get_pipeline_string]. *)
Definition get_pipeline_string (self : YOLOv11lDetectionApp)
    (base_pipeline : string) : string :=
  let modified_pipeline :=
    PyStr.replace base_pipeline "hailonet " (hailonet_element self) in
  if 0 <? app_instance_id self
  then PyStr.replace modified_pipeline "fpsdisplaysink" "fakesink sync=false"
  else modified_pipeline.

(** A pipeline string shows video when it has the display sink element
    of the framework. *)
Definition shows_video (pipeline : string) : bool :=
  PyStr.contains "fpsdisplaysink" pipeline.

(** *** [run_instance] *)

(** What the framework does for one instance: the clock, the parent
    constructor, the file system and [app.run()]. *)
Record Framework : Type := {
  clock0 : Q;
  clock1 : Q;
  super_init : Py.result string;
  yolo11_exists : bool;
  run : YOLOv11lDetectionApp -> Py.result unit
}.

(** What [YOLOv11lDetectionApp.__init__] itself prints: nothing when the
    parent constructor raises, else the line about the model and the
    line about the thresholds. *)
Definition app_init_output (instance : nat) (super_init : Py.result string)
    (yolo11_exists : bool) : list Printed :=
  match super_init with
  | Py.Raise _ => []
  | Py.Ok default_hef =>
      [if yolo11_exists then UsingYolo11l instance yolo11_path
       else Yolo11lNotFound instance default_hef;
       Configured instance]
  end.

(** [run_instance(instance_id)]: the [try] body, then the
    [except Exception] handler.  The list holds the lines printed by the
    statements of the script, in order; what the framework prints inside
    its own constructor and [run] is not part of it. *)
Definition run_instance (instance : nat) (fw : Framework) (m : Memory)
  : Memory * list Printed * Py.result unit :=
  let '(m, constructed) :=
    app_init instance (clock0 fw) (clock1 fw) (super_init fw)
      (yolo11_exists fw) m in
  let said :=
    Starting instance
    :: app_init_output instance (super_init fw) (yolo11_exists fw) in
  match constructed ≫= run fw with
  | Py.Ok _ => (m, said, Py.Ok tt)
  | Py.Raise e =>
      if Py.isinstance_Exception e
      then (m, said ++ [InstanceError instance e; Traceback], Py.Ok tt)
      else (m, said, Py.Raise e)
  end.

(** The pipeline of [app] invoking its probe: the callback runs on the
    object [app] was constructed with. *)
Definition probe (app : YOLOv11lDetectionApp) (t_fps t_status : Q)
    (buffer : option Hailo.Buffer) (m : Memory)
  : Memory * Py.result (Hailo.PadProbeReturn * list Printed) :=
  match heap m !! user_data app with
  | Some ud =>
      let '(ud', outcome) :=
        enhanced_callback (app_instance_id app) t_fps t_status buffer ud in
      ({| heap := <[user_data app := ud']> (heap m);
          instance_callbacks := instance_callbacks m |}, outcome)
  | None => (m, Py.Raise Py.IndexError)
  end.

(** Everything the script does to [Memory]. *)
Inductive Operation : Type :=
| Construct (instance : nat) (fw : Framework)
| Probe (app : YOLOv11lDetectionApp) (t_fps t_status : Q)
        (buffer : option Hailo.Buffer).

Definition perform (m : Memory) (op : Operation) : Memory :=
  match op with
  | Construct instance fw => (run_instance instance fw m).1.1
  | Probe app t_fps t_status buffer => (probe app t_fps t_status buffer m).1
  end.

(** *** [monitor_performance] *)

Record InstanceLine : Type := {
  line_instance : nat;
  perf_indicator : Indicator;
  line_frames : Z;
  line_current_fps : Q;
  line_average_fps : Q;
  line_detections : Z
}.

(** The loop variables of one pass of the dashboard. *)
Record Totals : Type := {
  total_fps : Q;
  total_frames : Z;
  total_detections_all : Z;
  lines : list InstanceLine
}.

Record Dashboard : Type := {
  instances : Z;
  combined_fps : Q;
  frames : Z;
  detections : Z;
  efficiency : Q;
  per_instance : list InstanceLine
}.

(** [instance_callbacks[instance_id]] *)
Definition getitem {V} (d : gmap nat V) (key : nat) : Py.result V :=
  match d !! key with
  | Some v => Py.Ok v
  | None => Py.Raise Py.KeyError
  end.

(** [sorted(instance_callbacks.keys())] *)
Definition sorted_keys {V} (d : gmap nat V) : list nat :=
  merge_sort Nat.le (elements (dom d)).

(** A [for] loop whose body may raise. *)
Fixpoint for_each {A S} (body : S -> A -> Py.result S) (l : list A)
    (acc : S) : Py.result S :=
  match l with
  | [] => Py.Ok acc
  | x :: l' => acc' ← body acc x; for_each body l' acc'
  end.

(** The body of [for instance_id in sorted(...)]; [now instance_id] is
    the clock read in that pass. *)
Definition dashboard_row (now : nat -> Q)
    (callbacks : gmap nat EnhancedInstanceCallback)
    (acc : Totals) (instance : nat) : Py.result Totals :=
  callback ← getitem callbacks instance;
  let runtime := (now instance - start_time callback)%Q in
  avg_fps ← (if Py.gt runtime 0
             then Py.truediv (Py.float_of_int (get_count callback)) runtime
             else mret 0%Q);
  let indicator :=
    if Py.gt avg_fps 20 then Green
    else if Py.gt avg_fps 10 then Yellow else Red in
  mret {| total_fps := (total_fps acc + avg_fps)%Q;
          total_frames := total_frames acc + get_count callback;
          total_detections_all :=
            total_detections_all acc + total_detections callback;
          lines := lines acc ++
            [{| line_instance := instance;
                perf_indicator := indicator;
                line_frames := get_count callback;
                line_current_fps := current_fps callback;
                line_average_fps := avg_fps;
                line_detections := total_detections callback |}] |}.

(** One pass of the [while True] loop of [monitoring_thread], after its
    sleep. *)
Definition dashboard_pass (now : nat -> Q)
    (callbacks : gmap nat EnhancedInstanceCallback) : Py.result Dashboard :=
  acc ← for_each (dashboard_row now callbacks) (sorted_keys callbacks)
        {| total_fps := 0; total_frames := 0; total_detections_all := 0;
           lines := [] |};
  let registered := Z.of_nat (size callbacks) in
  efficiency ← (if (0 <? registered)%Z
                then q ← Py.truediv (total_fps acc)
                           (Py.float_of_int (registered * 30));
                     mret (q * 100)%Q
                else mret 0%Q);
  mret {| instances := registered;
          combined_fps := total_fps acc;
          frames := total_frames acc;
          detections := total_detections_all acc;
          efficiency := efficiency;
          per_instance := lines acc |}.

(** *** [main] *)

Definition num_instances : nat := 4.

(** What the main thread does: print, sleep, start a thread. *)
Inductive Effect : Type :=
| Emit (line : Printed)
| Sleep (seconds : Q)
| ThreadStart (target_arg : nat).

(** The launch loop [for i in range(num_instances)]. *)
Definition launch (n : nat) : list Effect :=
  flat_map (fun i => [ThreadStart i; Sleep (1 # 2)]) (seq 0 n).

(** The instances started by the launch loop, in order. *)
Definition launched (n : nat) : list nat :=
  omap (fun e => match e with ThreadStart i => Some i | _ => None end)
       (launch n).

(** One pass of the [while True] loop of [main]; [threads] gives
    [t.is_alive()] for each element of the list [threads]. *)
Definition keep_alive_pass (n : nat) (threads : list bool) : list Effect :=
  let alive_threads := filter (fun t => t = true) threads in
  Sleep 1 ::
  (if (Py.len alive_threads <? Z.of_nat n)%Z
   then [Emit (OnlyRunning (Py.len alive_threads) (Z.of_nat n))]
   else []).

(** The main thread and its worker threads.  A worker thread is alive
    until its target [run_instance] returns or raises; the main thread
    leaves its loop on [KeyboardInterrupt] only. *)
Record Supervisor : Type := {
  threads : list bool;
  main_running : bool
}.

Inductive Event : Type :=
| TargetEnds (instance : nat) (outcome : Py.result unit)
| LoopPass
| CtrlC.

Definition started (n : nat) : Supervisor :=
  {| threads := replicate n true; main_running := true |}.

Definition step (s : Supervisor) (e : Event) : Supervisor * list Effect :=
  if main_running s then
    match e with
    | TargetEnds i _ =>
        ({| threads := <[i := false]> (threads s);
            main_running := true |}, [])
    | LoopPass => (s, keep_alive_pass (length (threads s)) (threads s))
    | CtrlC =>
        ({| threads := threads s; main_running := false |},
         [Emit ShuttingDown; Emit WaitingForCleanup; Sleep 2])
    end
  else (s, []).

Definition run_events (s : Supervisor) (es : list Event) : Supervisor :=
  fold_left (fun s e => fst (step s e)) es s.

(** What the main thread does over a sequence of events. *)
Fixpoint effects_of (s : Supervisor) (es : list Event) : list Effect :=
  match es with
  | [] => []
  | e :: es' => (step s e).2 ++ effects_of (step s e).1 es'
  end.


(** The callback of instance [instance] invoked once per element of
    [calls], on the same object. *)
Definition deliver (instance : nat) (calls : list Hailo.Invocation)
    (user_data : EnhancedInstanceCallback) : EnhancedInstanceCallback :=
  fold_left
    (fun ud c => (enhanced_callback instance (Hailo.at_fps c)
                    (Hailo.at_status c) (Hailo.probe_buffer c) ud).1)
    calls user_data.

End Detection.

(** ** [multi_instance_yolo11l.py] *)

Module Yolo11l.

(** [MultiInstanceCallback]; [frame_count] is the counter of the
    framework base class. *)
Record MultiInstanceCallback : Type := {
  frame_count : Z;
  instance_id : nat;
  start_time : Q;
  last_fps_time : Q;
  fps_frame_count : Z;
  current_fps : Q;
  detection_count : Z;
  total_detections : Z
}.

Definition init (id : nat) (t0 t1 : Q) : MultiInstanceCallback :=
  {| frame_count := 0; instance_id := id; start_time := t0;
     last_fps_time := t1; fps_frame_count := 0; current_fps := 0;
     detection_count := 0; total_detections := 0 |}.

Definition increment (s : MultiInstanceCallback) : MultiInstanceCallback :=
  {| frame_count := frame_count s + 1; instance_id := instance_id s;
     start_time := start_time s; last_fps_time := last_fps_time s;
     fps_frame_count := fps_frame_count s; current_fps := current_fps s;
     detection_count := detection_count s;
     total_detections := total_detections s |}.

Definition get_count (s : MultiInstanceCallback) : Z := frame_count s.

Definition set_fps_frame_count (v : Z) (s : MultiInstanceCallback) :=
  {| frame_count := frame_count s; instance_id := instance_id s;
     start_time := start_time s; last_fps_time := last_fps_time s;
     fps_frame_count := v; current_fps := current_fps s;
     detection_count := detection_count s;
     total_detections := total_detections s |}.

Definition set_current_fps (v : Q) (s : MultiInstanceCallback) :=
  {| frame_count := frame_count s; instance_id := instance_id s;
     start_time := start_time s; last_fps_time := last_fps_time s;
     fps_frame_count := fps_frame_count s; current_fps := v;
     detection_count := detection_count s;
     total_detections := total_detections s |}.

Definition set_last_fps_time (v : Q) (s : MultiInstanceCallback) :=
  {| frame_count := frame_count s; instance_id := instance_id s;
     start_time := start_time s; last_fps_time := v;
     fps_frame_count := fps_frame_count s; current_fps := current_fps s;
     detection_count := detection_count s;
     total_detections := total_detections s |}.

Definition set_detection_count (v : Z) (s : MultiInstanceCallback) :=
  {| frame_count := frame_count s; instance_id := instance_id s;
     start_time := start_time s; last_fps_time := last_fps_time s;
     fps_frame_count := fps_frame_count s; current_fps := current_fps s;
     detection_count := v;
     total_detections := total_detections s |}.

Definition set_total_detections (v : Z) (s : MultiInstanceCallback) :=
  {| frame_count := frame_count s; instance_id := instance_id s;
     start_time := start_time s; last_fps_time := last_fps_time s;
     fps_frame_count := fps_frame_count s; current_fps := current_fps s;
     detection_count := detection_count s;
     total_detections := v |}.

(** [calculate_fps]: a new rate every 30 frames, from the time the
    last 30 frames took. *)
Definition calculate_fps (current_time : Q) (self : MultiInstanceCallback)
  : Py.result (Q * MultiInstanceCallback) :=
  let self := set_fps_frame_count (fps_frame_count self + 1) self in
  self ← (if (30 <=? fps_frame_count self)%Z
          then
            let time_diff := (current_time - last_fps_time self)%Q in
            self ← (if Py.gt time_diff 0
                    then fps ← Py.truediv
                                 (Py.float_of_int (fps_frame_count self))
                                 time_diff;
                         mret (set_current_fps fps self)
                    else mret self);
            mret (set_last_fps_time current_time
                    (set_fps_frame_count 0 self))
          else mret self);
  mret (current_fps self, self).

Inductive Printed : Type :=
| ParsingError (instance : nat) (e : Py.exn)
| FrameStatus (instance : nat) (frame : Z) (fps avg_fps : Q)
              (detections total : Z)
| Starting (instance : nat)
| UsingYolo11l (path : string)
| UsingDefaultModel (path : string)
| AutoDetectedArch (arch : string)
| UsingWebcam (instance : nat)
| UsingTestVideo (instance : nat) (path : string)
| UsingInput (instance : nat) (input : string)
| NoPostProcess
| InstanceError (instance : nat) (e : Py.exn)
| Traceback
| ShuttingDown.

Definition collect_detection
    (acc : list (string * Q) * MultiInstanceCallback)
    (detection : Hailo.HailoDetection)
  : list (string * Q) * MultiInstanceCallback :=
  let '(detection_info, user_data) := acc in
  (detection_info ++
     [(Hailo.label detection, Hailo.confidence detection)],
   set_total_detections (total_detections user_data + 1) user_data).

(** [app_callback(pad, info, user_data)] of instance [instance]. *)
Definition app_callback (instance : nat) (t_fps t_status : Q)
    (buffer : option Hailo.Buffer) (user_data : MultiInstanceCallback)
  : MultiInstanceCallback
    * Py.result (Hailo.PadProbeReturn * list Printed) :=
  let user_data := increment user_data in
  Py.attempt user_data (calculate_fps t_fps user_data)
    (fun '(fps, user_data) =>
  match buffer with
  | None => (user_data, Py.Ok (Hailo.OK, []))
  | Some buffer =>
      let '(detection_info, user_data) :=
        fold_left collect_detection (Hailo.objects buffer) ([], user_data) in
      Py.attempt user_data
        (match Hailo.failure buffer with
         | None => mret []
         | Some e =>
             if Py.isinstance_Exception e
             then mret [ParsingError instance e]
             else Py.Raise e
         end)
        (fun errors =>
      let user_data :=
        set_detection_count (Py.len detection_info) user_data in
      Py.attempt user_data
        (if (get_count user_data mod 60 =? 0)%Z
         then
           let runtime := (t_status - start_time user_data)%Q in
           avg_fps ← (if Py.gt runtime 0
                      then Py.truediv
                             (Py.float_of_int (get_count user_data)) runtime
                      else mret 0%Q);
           mret [FrameStatus instance (get_count user_data) fps
                   avg_fps (detection_count user_data)
                   (total_detections user_data)]
         else mret [])
        (fun status =>
      (user_data, Py.Ok (Hailo.OK, errors ++ status))))
  end).

(** *** [MultiInstanceDetectionApp] *)

Record MultiInstanceDetectionApp : Type := {
  app_instance_id : nat;
  total_instances : nat;
  video_width : Z;
  video_height : Z;
  batch_size : Z;
  hef_path : string;
  arch : string;
  video_source : string;
  post_process_so : option string;
  post_function_name : string;
  labels_json : option string;
  thresholds_str : string;
  (* set by the framework constructor *)
  frame_rate : Z;
  sync : bool;
  video_sink : string;
  show_fps : bool
}.

(** What the constructor asks of its surroundings: the parsed command
    line, the file system, the resource lookups and the framework. *)
Record Environment : Type := {
  super_init : Py.result unit;
  opt_model_path : option string;
  opt_arch : option string;
  opt_input : option string;
  opt_labels_json : option string;
  yolo11_exists : bool;
  default_model : Py.result string;
  detected_arch : option string;
  video0_exists : bool;
  test_video : Py.result string;
  postprocess_so : Py.result string;
  postprocess_function : string;
  env_frame_rate : Z;
  env_sync : bool;
  env_video_sink : string;
  env_show_fps : bool;
  create_pipeline : Py.result unit;
  app_run : Py.result unit
}.

(** Truth value of an optional string: [None] and the empty string are
    false. *)
Definition truthy (o : option string) : option string :=
  match o with
  | Some EmptyString => None
  | _ => o
  end.

(** [MultiInstanceDetectionApp.__init__] *)
Definition app_init (instance total : nat) (env : Environment)
  : Py.result MultiInstanceDetectionApp :=
  _ ← super_init env;
  hef ← match truthy (opt_model_path env) with
        | Some path => mret path
        | None =>
            if yolo11_exists env then mret Detection.yolo11_path
            else match default_model env with
                 | Py.Ok path => mret path
                 | Py.Raise _ => Py.Raise Py.ValueError
                 end
        end;
  arch ← match opt_arch env with
         | None =>
             match detected_arch env with
             | None => Py.Raise Py.ValueError
             | Some detected => mret detected
             end
         | Some a => mret a
         end;
  source ← match opt_input env with
           | None =>
               if (instance =? 0) && video0_exists env
               then mret "/dev/video0"
               else test_video env
           | Some input => mret input
           end;
  let so := match postprocess_so env with
            | Py.Ok path => Some path
            | Py.Raise _ => None
            end in
  _ ← create_pipeline env;
  mret {| app_instance_id := instance;
          total_instances := total;
          video_width := 640;
          video_height := 640;
          batch_size := 1;
          hef_path := hef;
          arch := arch;
          video_source := source;
          post_process_so := so;
          post_function_name := postprocess_function env;
          labels_json := opt_labels_json env;
          thresholds_str :=
            "nms-score-threshold=0.3 nms-iou-threshold=0.45 " +:+
            "output-format-type=HAILO_FORMAT_TYPE_FLOAT32";
          frame_rate := env_frame_rate env;
          sync := env_sync env;
          video_sink := env_video_sink env;
          show_fps := env_show_fps env |}.

(** The three calls [get_pipeline_string] makes for its instance. *)
Record Pipeline : Type := {
  source_pipeline : Hailo.SourceCall;
  inference_pipeline : Hailo.InferenceCall;
  display_pipeline : Hailo.Sink
}.

Definition pipeline_parts (self : MultiInstanceDetectionApp) : Pipeline :=
  {| source_pipeline :=
       {| Hailo.video_source := video_source self;
          Hailo.video_width := video_width self;
          Hailo.video_height := video_height self;
          Hailo.frame_rate := frame_rate self;
          Hailo.source_sync := sync self;
          Hailo.no_webcam_compression := true;
          Hailo.source_name := "source_" +:+ pretty (app_instance_id self) |};
     inference_pipeline :=
       {| Hailo.hef_path := hef_path self;
          Hailo.post_process_so := post_process_so self;
          Hailo.post_function_name := post_function_name self;
          Hailo.batch_size := batch_size self;
          Hailo.config_json := labels_json self;
          Hailo.additional_params := thresholds_str self;
          Hailo.inference_name :=
            "inference_" +:+ pretty (app_instance_id self);
          Hailo.vdevice_group_id := app_instance_id self + 1 |};
     display_pipeline :=
       if app_instance_id self =? 0
       then Hailo.DISPLAY_PIPELINE (video_sink self) (sync self)
              (show_fps self)
       else Hailo.QUEUE_fakesink
              ("sink_queue_" +:+ pretty (app_instance_id self)) |}.

(** [get_pipeline_string] *)
Definition get_pipeline_string (h : Hailo.Helpers)
    (self : MultiInstanceDetectionApp) : string :=
  let parts := pipeline_parts self in
  Hailo.source_pipeline_str h (source_pipeline parts) +:+ " ! " +:+
  Hailo.inference_pipeline_str h (inference_pipeline parts) +:+ " ! " +:+
  Hailo.user_callback_pipeline_str h +:+ " ! " +:+
  Hailo.sink_str h (display_pipeline parts).

(** *** [run_single_instance] and [main] *)

(** What [MultiInstanceDetectionApp.__init__] itself prints, up to the
    statement at which it raises if it does: the model chosen (nothing
    for a [--model-path]), the detected architecture, the video source,
    and the warning about the post-processing library. *)
Definition app_init_output (instance : nat) (env : Environment)
  : list Printed :=
  match super_init env with
  | Py.Raise _ => []
  | Py.Ok _ =>
      let model :=
        match truthy (opt_model_path env) with
        | Some _ => Some []
        | None =>
            if yolo11_exists env
            then Some [UsingYolo11l Detection.yolo11_path]
            else match default_model env with
                 | Py.Ok path => Some [UsingDefaultModel path]
                 | Py.Raise _ => None
                 end
        end in
      let arch :=
        match opt_arch env with
        | None =>
            match detected_arch env with
            | None => None
            | Some detected => Some [AutoDetectedArch detected]
            end
        | Some _ => Some []
        end in
      let source :=
        match opt_input env with
        | None =>
            if (instance =? 0) && video0_exists env
            then Some [UsingWebcam instance]
            else match test_video env with
                 | Py.Ok path => Some [UsingTestVideo instance path]
                 | Py.Raise _ => None
                 end
        | Some input => Some [UsingInput instance input]
        end in
      let post_process :=
        match postprocess_so env with
        | Py.Ok _ => []
        | Py.Raise _ => [NoPostProcess]
        end in
      match model with
      | None => []
      | Some said_model =>
          said_model ++
          match arch with
          | None => []
          | Some said_arch =>
              said_arch ++
              match source with
              | None => []
              | Some said_source => said_source ++ post_process
              end
          end
      end
  end.

(** [run_single_instance]; [gst_init] is the outcome of
    [Gst.init(None)].  The list holds the lines printed by the
    statements of the script, in order; what the framework prints inside
    its own constructor, [create_pipeline] and [run] is not part of
    it. *)
Definition run_single_instance (instance total : nat)
    (gst_init : Py.result unit) (env : Environment)
  : list Printed * Py.result unit :=
  let said :=
    Starting instance
    :: match gst_init with
       | Py.Ok _ => app_init_output instance env
       | Py.Raise _ => []
       end in
  match (_ ← gst_init; _ ← app_init instance total env; app_run env) with
  | Py.Ok _ => (said, Py.Ok tt)
  | Py.Raise e =>
      if Py.isinstance_Exception e
      then (said ++ [InstanceError instance e; Traceback], Py.Ok tt)
      else (said, Py.Raise e)
  end.

Definition num_instances : nat := 4.

(** The instances for which [main] starts a process, in order. *)
Definition launched (n : nat) : list nat := seq 0 n.

(** The main process and its worker processes.  [main] joins every
    process in turn, so it returns once all of them have ended; a
    [KeyboardInterrupt] makes it terminate those still alive and
    return. *)
Record Supervisor : Type := {
  processes : list bool;
  main_running : bool
}.

Inductive Event : Type :=
| TargetEnds (instance : nat) (outcome : Py.result unit)
| CtrlC.

Definition started (n : nat) : Supervisor :=
  {| processes := replicate n true; main_running := true |}.

Definition all_joined (processes : list bool) : bool :=
  forallb negb processes.

Definition step (s : Supervisor) (e : Event) : Supervisor :=
  if main_running s then
    match e with
    | TargetEnds i _ =>
        let processes := <[i := false]> (processes s) in
        {| processes := processes;
           main_running := negb (all_joined processes) |}
    | CtrlC =>
        {| processes := replicate (length (processes s)) false;
           main_running := false |}
    end
  else s.

Definition run_events (s : Supervisor) (es : list Event) : Supervisor :=
  fold_left step es s.


(** The callback of instance [instance] invoked once per element of
    [calls], on the same object. *)
Definition deliver (instance : nat) (calls : list Hailo.Invocation)
    (user_data : MultiInstanceCallback) : MultiInstanceCallback :=
  fold_left
    (fun ud c => (app_callback instance (Hailo.at_fps c)
                    (Hailo.at_status c) (Hailo.probe_buffer c) ud).1)
    calls user_data.

(** *** The [KeyboardInterrupt] handler of [main] *)






End Yolo11l.

(** ** [multi_instance_detection_old.py] *)

Module DetectionOld.

(** [MultiInstanceCallback] *)
Record MultiInstanceCallback : Type := {
  frame_count : Z;
  instance_id : nat;
  last_time : Q;
  frame_times : list Q;
  fps : Q;
  detection_count : Z
}.

Definition init (id : nat) (t0 : Q) : MultiInstanceCallback :=
  {| frame_count := 0; instance_id := id; last_time := t0;
     frame_times := []; fps := 0; detection_count := 0 |}.

Definition set_frame_times (v : list Q) (s : MultiInstanceCallback) :=
  {| frame_count := frame_count s; instance_id := instance_id s;
     last_time := last_time s; frame_times := v;
     fps := fps s; detection_count := detection_count s |}.

Definition set_fps (v : Q) (s : MultiInstanceCallback) :=
  {| frame_count := frame_count s; instance_id := instance_id s;
     last_time := last_time s; frame_times := frame_times s;
     fps := v; detection_count := detection_count s |}.

(** [calculate_fps] *)
Definition calculate_fps (current_time : Q) (self : MultiInstanceCallback)
  : Py.result (Q * MultiInstanceCallback) :=
  let self := set_frame_times (frame_times self ++ [current_time]) self in
  self ← (if (30 <? Py.len (frame_times self))%Z
          then l ← Py.pop0 (frame_times self);
               mret (set_frame_times l self)
          else mret self);
  self ← (if (2 <=? Py.len (frame_times self))%Z
          then t_last ← Py.final (frame_times self);
               t_first ← Py.first (frame_times self);
               let time_diff := (t_last - t_first)%Q in
               if Py.gt time_diff 0
               then v ← Py.truediv
                          (Py.float_of_int (Py.len (frame_times self) - 1))
                          time_diff;
                    mret (set_fps v self)
               else mret self
          else mret self);
  mret (fps self, self).

(** [MultiInstanceHailoApp], after [setup_parameters]. *)
Record MultiInstanceHailoApp : Type := {
  num_instances : nat;
  hef_path : string;
  post_process_so : option string;
  post_function_name : string;
  batch_size : Z;
  video_width : Z;
  video_height : Z;
  frame_rate : Z;
  thresholds_str : string;
  video_source : string
}.

Record Branch : Type := {
  queue_to_inference : string;
  inference_pipeline : Hailo.InferenceCall;
  display_pipeline : Hailo.Sink
}.

(** The branch built by one pass of [for i in range(self.num_instances)]
    in [create_single_source_multi_inference_pipeline]. *)
Definition branch (self : MultiInstanceHailoApp) (i : nat) : Branch :=
  {| queue_to_inference := "queue_to_inference_" +:+ pretty i;
     inference_pipeline :=
       {| Hailo.hef_path := hef_path self;
          Hailo.post_process_so := post_process_so self;
          Hailo.post_function_name := post_function_name self;
          Hailo.batch_size := batch_size self;
          Hailo.config_json := None;
          Hailo.additional_params := thresholds_str self;
          Hailo.inference_name := "inference_" +:+ pretty i;
          Hailo.vdevice_group_id := i + 1 |};
     display_pipeline :=
       if i =? 0
       then Hailo.DISPLAY_PIPELINE "autovideosink" true true
       else Hailo.QUEUE_fakesink ("sink_queue_" +:+ pretty i) |}.

Definition branches (self : MultiInstanceHailoApp) : list Branch :=
  map (branch self) (seq 0 (num_instances self)).

Definition branch_str (h : Hailo.Helpers) (b : Branch) : string :=
  "input_tee. ! " +:+ Hailo.queue_str h (queue_to_inference b) +:+ " ! "
    +:+ Hailo.inference_pipeline_str h (inference_pipeline b) +:+ " ! "
    +:+ Hailo.user_callback_pipeline_str h +:+ " ! "
    +:+ Hailo.sink_str h (display_pipeline b).

(** [" ".join(parts)] *)
Fixpoint join (sep : string) (parts : list string) : string :=
  match parts with
  | [] => EmptyString
  | [x] => x
  | x :: rest => x +:+ sep +:+ join sep rest
  end.

(** [create_single_source_multi_inference_pipeline] *)
Definition create_single_source_multi_inference_pipeline
    (h : Hailo.Helpers) (self : MultiInstanceHailoApp) : string :=
  let source_pipeline :=
    Hailo.source_pipeline_str h
      {| Hailo.video_source := video_source self;
         Hailo.video_width := video_width self;
         Hailo.video_height := video_height self;
         Hailo.frame_rate := frame_rate self;
         Hailo.source_sync := true;
         Hailo.no_webcam_compression := true;
         Hailo.source_name := "main_source" |} in
  join " " ((source_pipeline +:+ " ! tee name=input_tee")
              :: map (branch_str h) (branches self)).


(** *** [create_inference_callback] *)

Definition increment (s : MultiInstanceCallback) : MultiInstanceCallback :=
  {| frame_count := frame_count s + 1; instance_id := instance_id s;
     last_time := last_time s; frame_times := frame_times s;
     fps := fps s; detection_count := detection_count s |}.

Definition get_count (s : MultiInstanceCallback) : Z := frame_count s.

Definition set_detection_count (v : Z) (s : MultiInstanceCallback) :=
  {| frame_count := frame_count s; instance_id := instance_id s;
     last_time := last_time s; frame_times := frame_times s;
     fps := fps s; detection_count := v |}.

Inductive Printed : Type :=
| ProcessingError (instance : nat) (e : Py.exn)
| FrameStatus (instance : nat) (frame : Z) (rate : Q) (detections : Z)
| ModelNotFound
| StartingPipeline
| PipelineStarted
| StoppingPipeline
| ErrorRunning (e : Py.exn)
| StoppedByUser
| ApplicationError (e : Py.exn)
| Traceback.

(** One pass of [for detection in ...]: here [detection_count] itself is
    incremented. *)
Definition collect_detection
    (acc : list (string * Q) * MultiInstanceCallback)
    (detection : Hailo.HailoDetection)
  : list (string * Q) * MultiInstanceCallback :=
  let '(detection_info, user_data) := acc in
  (detection_info ++ [(Hailo.label detection, Hailo.confidence detection)],
   set_detection_count (detection_count user_data + 1) user_data).

(** [app_callback(pad, info, user_data)] made by
    [create_inference_callback(instance_id)]. *)
Definition app_callback (instance : nat) (t_fps : Q)
    (buffer : option Hailo.Buffer) (user_data : MultiInstanceCallback)
  : MultiInstanceCallback
    * Py.result (Hailo.PadProbeReturn * list Printed) :=
  let user_data := increment user_data in
  Py.attempt user_data (calculate_fps t_fps user_data)
    (fun '(rate, user_data) =>
  match buffer with
  | None => (user_data, Py.Ok (Hailo.OK, []))
  | Some buffer =>
      let '(detection_info, user_data) :=
        fold_left collect_detection (Hailo.objects buffer) ([], user_data) in
      Py.attempt user_data
        (match Hailo.failure buffer with
         | None => mret []
         | Some e =>
             if Py.isinstance_Exception e
             then mret [ProcessingError instance e]
             else Py.Raise e
         end)
        (fun errors =>
      (user_data,
       Py.Ok (Hailo.OK,
              errors ++
              (if (get_count user_data mod 30 =? 0)%Z
               then [FrameStatus instance (get_count user_data) rate
                       (Py.len detection_info)]
               else []))))
  end).

Definition deliver (instance : nat) (calls : list Hailo.Invocation)
    (user_data : MultiInstanceCallback) : MultiInstanceCallback :=
  fold_left
    (fun ud c => (app_callback instance (Hailo.at_fps c)
                    (Hailo.probe_buffer c) ud).1)
    calls user_data.

(** *** [setup_parameters] *)

Record Environment : Type := {
  detected_arch : option string;
  yolo11_exists : bool;
  default_model : Py.result string;
  postprocess_so : Py.result string;
  postprocess_function : string
}.

(** [setup_parameters], as called by [__init__] (which has set
    [num_instances = 4]): the detected architecture and the fields of
    the application, or the exception raised. *)
Definition setup_parameters (env : Environment)
  : Py.result (string * MultiInstanceHailoApp) :=
  arch ← match detected_arch env with
         | None => Py.Raise Py.ValueError
         | Some a => mret a
         end;
  let hef :=
    if yolo11_exists env then Detection.yolo11_path
    else match default_model env with
         | Py.Ok path => path
         | Py.Raise _ => Detection.yolo11_path
         end in
  let so := match postprocess_so env with
            | Py.Ok path => Some path
            | Py.Raise _ => None
            end in
  mret (arch,
        {| num_instances := 4;
           hef_path := hef;
           post_process_so := so;
           post_function_name := postprocess_function env;
           batch_size := 1;
           video_width := 640;
           video_height := 640;
           frame_rate := 30;
           thresholds_str :=
             "nms-score-threshold=0.3 nms-iou-threshold=0.45 " +:+
             "output-format-type=HAILO_FORMAT_TYPE_FLOAT32";
           video_source := "/dev/video0" |}).

(** *** [create_pipeline_string] *)

(** Where an instance takes its frames from: the source it builds
    itself, followed by the tee, or the tee of instance 0. *)
Inductive Source : Type :=
| SourceAndTee (call : Hailo.SourceCall)
| InputTee.

Record InstancePipeline : Type := {
  instance_source : Source;
  instance_queue : string;
  instance_inference : Hailo.InferenceCall;
  instance_display : Hailo.Sink
}.

Definition create_pipeline_parts (self : MultiInstanceHailoApp)
    (instance : nat) : InstancePipeline :=
  {| instance_source :=
       if instance =? 0
       then SourceAndTee
              {| Hailo.video_source := video_source self;
                 Hailo.video_width := video_width self;
                 Hailo.video_height := video_height self;
                 Hailo.frame_rate := frame_rate self;
                 Hailo.source_sync := true;
                 Hailo.no_webcam_compression := true;
                 Hailo.source_name := "source_" +:+ pretty instance |}
       else InputTee;
     instance_queue := "queue_to_inference_" +:+ pretty instance;
     instance_inference :=
       {| Hailo.hef_path := hef_path self;
          Hailo.post_process_so := post_process_so self;
          Hailo.post_function_name := post_function_name self;
          Hailo.batch_size := batch_size self;
          Hailo.config_json := None;
          Hailo.additional_params := thresholds_str self;
          Hailo.inference_name := "inference_" +:+ pretty instance;
          Hailo.vdevice_group_id := instance + 1 |};
     instance_display :=
       if instance =? 0
       then Hailo.DISPLAY_PIPELINE "autovideosink" true true
       else Hailo.QUEUE_fakesink ("sink_queue_" +:+ pretty instance) |}.

(** [create_pipeline_string(instance_id)] *)
Definition create_pipeline_string (h : Hailo.Helpers)
    (self : MultiInstanceHailoApp) (instance : nat) : string :=
  let parts := create_pipeline_parts self instance in
  (match instance_source parts with
   | SourceAndTee call =>
       Hailo.source_pipeline_str h call +:+ " ! tee name=input_tee "
   | InputTee => "input_tee. "
   end) +:+ " ! " +:+
  Hailo.queue_str h (instance_queue parts) +:+ " ! " +:+
  Hailo.inference_pipeline_str h (instance_inference parts) +:+ " ! " +:+
  Hailo.user_callback_pipeline_str h +:+ " ! " +:+
  Hailo.sink_str h (instance_display parts).

(** *** [run] and [main] *)

Inductive State : Type := PLAYING | NULL.

(** What [run] and [main] do that can be seen from outside. *)
Inductive Action : Type :=
| Say (line : Printed)
| ParseLaunch
| SetupCallbacks
| StartStatsThread
| WatchBus
| SetState (state : State)
| RunMainLoop.

(** What GStreamer answers: [Gst.parse_launch], whether
    [set_state(PLAYING)] returns [FAILURE], and how [main_loop.run()]
    ends. *)
Record Gst : Type := {
  parse_launch : Py.result unit;
  playing_fails : bool;
  main_loop_run : Py.result unit
}.

(** The [try] body of [run]. *)
Definition run_body (g : Gst) : list Action * Py.result unit :=
  let started := [Say StartingPipeline; ParseLaunch] in
  match parse_launch g with
  | Py.Raise e => (started, Py.Raise e)
  | Py.Ok _ =>
      let set_up := started ++ [SetupCallbacks; StartStatsThread; WatchBus;
                                SetState PLAYING] in
      if playing_fails g then (set_up, Py.Raise Py.RuntimeError)
      else
        let looping := set_up ++ [Say PipelineStarted; RunMainLoop] in
        match main_loop_run g with
        | Py.Ok _ => (looping ++ [SetState NULL], Py.Ok tt)
        | Py.Raise Py.KeyboardInterrupt =>
            (looping ++ [Say StoppingPipeline; SetState NULL], Py.Ok tt)
        | Py.Raise e => (looping, Py.Raise e)
        end
  end.

(** [run]: the body, then [except Exception as e: print(...); raise]. *)
Definition run (g : Gst) : list Action * Py.result unit :=
  let '(done, outcome) := run_body g in
  match outcome with
  | Py.Ok _ => (done, Py.Ok tt)
  | Py.Raise e =>
      if Py.isinstance_Exception e
      then (done ++ [Say (ErrorRunning e)], Py.Raise e)
      else (done, Py.Raise e)
  end.

(** [main]; [gst_init] is the outcome of [Gst.init(None)] in the
    constructor of the application. *)
Definition main (model_exists : bool) (gst_init : Py.result unit)
    (env : Environment) (g : Gst) : list Action * Py.result unit :=
  let warned := if model_exists then [] else [Say ModelNotFound] in
  let '(done, outcome) :=
    match (_ ← gst_init; setup_parameters env) with
    | Py.Raise e => (warned, Py.Raise e)
    | Py.Ok _ => let '(done, outcome) := run g in (warned ++ done, outcome)
    end in
  match outcome with
  | Py.Ok _ => (done, Py.Ok tt)
  | Py.Raise Py.KeyboardInterrupt => (done ++ [Say StoppedByUser], Py.Ok tt)
  | Py.Raise e =>
      if Py.isinstance_Exception e
      then (done ++ [Say (ApplicationError e); Say Traceback], Py.Ok tt)
      else (done, Py.Raise e)
  end.

End DetectionOld.

(** ** The sliding window of [calculate_fps], in closed form *)

Module Window.

(** The list kept after appending [t], for a window of [capacity]. *)
Definition push (capacity : nat) (t : Q) (w : list Q) : list Q :=
  let appended := w ++ [t] in
  if capacity <? length appended then tail appended else appended.

(** The rate stored for a window [w], [previous] being the one stored
    before. *)
Definition rate (w : list Q) (previous : Q) : Q :=
  if 2 <=? length w then
    let span := (List.last w 0 - hd 0 w)%Q in
    if Py.gt span 0
    then (inject_Z (Z.of_nat (length w) - 1) / span)%Q
    else previous
  else previous.

(** The last [capacity] elements of [ts]. *)
Definition latest (capacity : nat) (ts : list Q) : list Q :=
  drop (length ts - capacity) ts.

(** The rate as the specification words it: [(min(n, window) - 1)]
    over the span of the window, and [0] below two samples or on a
    zero span. *)
Definition specified_rate (capacity : nat) (ts : list Q) : Q :=
  let n := length ts in
  let w := latest capacity ts in
  let span := (List.last ts 0 - hd 0 w)%Q in
  if (n <? 2) || Qeq_bool span 0 then 0%Q
  else (inject_Z (Z.of_nat (Nat.min n capacity) - 1) / span)%Q.

(** The window and the stored rate after feeding [ts], one reading at
    a time, to a window [w] with stored rate [r]. *)
Definition feed (capacity : nat) (ts : list Q) (w : list Q) (r : Q)
  : list Q * Q :=
  fold_left (fun '(w, r) t => let w' := push capacity t w in
                              (w', rate w' r)) ts (w, r).

End Window.

(** Feeding a whole sequence of clock readings to [calculate_fps]. *)

Fixpoint detection_records (ts : list Q)
    (s : Detection.EnhancedInstanceCallback)
  : Py.result Detection.EnhancedInstanceCallback :=
  match ts with
  | [] => Py.Ok s
  | t :: ts' =>
      '(_, s') ← Detection.calculate_fps t s; detection_records ts' s'
  end.

Fixpoint old_records (ts : list Q) (s : DetectionOld.MultiInstanceCallback)
  : Py.result DetectionOld.MultiInstanceCallback :=
  match ts with
  | [] => Py.Ok s
  | t :: ts' =>
      '(_, s') ← DetectionOld.calculate_fps t s; old_records ts' s'
  end.

Fixpoint yolo11l_records (ts : list Q) (s : Yolo11l.MultiInstanceCallback)
  : Py.result Yolo11l.MultiInstanceCallback :=
  match ts with
  | [] => Py.Ok s
  | t :: ts' =>
      '(_, s') ← Yolo11l.calculate_fps t s; yolo11l_records ts' s'
  end.

(** The dashboard of [monitor_performance], in closed form. *)

Module Board.

(** Lifetime frames over lifetime seconds, or [0] when no time has
    passed. *)
Definition average_fps (now_i : Q) (cb : Detection.EnhancedInstanceCallback)
  : Q :=
  if Py.gt (now_i - Detection.start_time cb) 0
  then (inject_Z (Detection.get_count cb)
        / (now_i - Detection.start_time cb))%Q
  else 0%Q.

Definition line_of (now : nat -> Q) (i : nat)
    (cb : Detection.EnhancedInstanceCallback) : Detection.InstanceLine :=
  let avg_fps := average_fps (now i) cb in
  {| Detection.line_instance := i;
     Detection.perf_indicator :=
       if Py.gt avg_fps 20 then Detection.Green
       else if Py.gt avg_fps 10 then Detection.Yellow else Detection.Red;
     Detection.line_frames := Detection.get_count cb;
     Detection.line_current_fps := Detection.current_fps cb;
     Detection.line_average_fps := avg_fps;
     Detection.line_detections := Detection.total_detections cb |}.

Definition rows (now : nat -> Q)
    (callbacks : gmap nat Detection.EnhancedInstanceCallback)
    (keys : list nat) : list Detection.InstanceLine :=
  omap (fun i => line_of now i <$> callbacks !! i) keys.

(** Running sums, in the order of the loop. *)
Definition sum_fps (acc : Q) (ls : list Detection.InstanceLine) : Q :=
  fold_left Qplus (map Detection.line_average_fps ls) acc.

Definition sum_frames (acc : Z) (ls : list Detection.InstanceLine) : Z :=
  fold_left Z.add (map Detection.line_frames ls) acc.

Definition sum_detections (acc : Z) (ls : list Detection.InstanceLine) : Z :=
  fold_left Z.add (map Detection.line_detections ls) acc.

End Board.

(** * Properties *)

(** ** Python primitives *)

Lemma gt_true (x y : Q) : Py.gt x y = true <-> (y < x)%Q.
Proof.
  unfold Py.gt. rewrite negb_true_iff, <- not_true_iff_false, Qle_bool_iff.
  split; [apply Qnot_le_lt | apply Qlt_not_le].
Qed.

Lemma gt_false (x y : Q) : Py.gt x y = false <-> (x <= y)%Q.
Proof.
  unfold Py.gt. rewrite negb_false_iff. apply Qle_bool_iff.
Qed.

Lemma truediv_positive (x y : Q) :
  (0 < y)%Q -> Py.truediv x y = Py.Ok (x / y)%Q.
Proof.
  intros Hy. unfold Py.truediv.
  destruct (Qeq_bool y 0) eqn:E; [|reflexivity].
  apply Qeq_bool_eq in E. rewrite E in Hy. now apply Qlt_irrefl in Hy.
Qed.

Lemma final_last {A} (l : list A) (d : A) :
  l <> [] -> Py.final l = Py.Ok (List.last l d).
Proof.
  intros Hl. destruct (exists_last Hl) as (l' & x & ->).
  unfold Py.final. rewrite rev_app_distr. simpl.
  now rewrite last_last.
Qed.

Lemma first_hd {A} (l : list A) (d : A) :
  l <> [] -> Py.first l = Py.Ok (hd d l).
Proof. now destruct l. Qed.

Lemma pop0_tail {A} (l : list A) :
  l <> [] -> Py.pop0 l = Py.Ok (tail l).
Proof. now destruct l. Qed.

(** ** [calculate_fps] never raises and follows the closed form *)

Lemma len_ltb {A} (n : nat) (l : list A) :
  (Z.of_nat n <? Py.len l)%Z = (n <? length l).
Proof.
  unfold Py.len. destruct (n <? length l) eqn:E.
  - apply Nat.ltb_lt in E. apply Z.ltb_lt. lia.
  - apply Nat.ltb_ge in E. apply Z.ltb_ge. lia.
Qed.

Lemma len_leb {A} (n : nat) (l : list A) :
  (Z.of_nat n <=? Py.len l)%Z = (n <=? length l).
Proof.
  unfold Py.len. destruct (n <=? length l) eqn:E.
  - apply Nat.leb_le in E. apply Z.leb_le. lia.
  - apply Nat.leb_gt in E. apply Z.leb_gt. lia.
Qed.

Ltac py_simpl :=
  cbn -[Nat.leb Nat.ltb Nat.div Nat.modulo Nat.mul Nat.add Nat.sub Nat.min
        Z.leb Z.ltb Z.eqb Z.of_nat Z.add Z.sub Z.mul Z.modulo
        Qminus Qdiv Qplus Qmult inject_Z
        List.last hd tail length nth Py.gt Py.truediv].

Ltac window_closed_form capacity :=
  py_simpl;
  rewrite (len_ltb capacity);
  unfold Window.push, Window.rate;
  match goal with
  | |- context [capacity <? length (?w ++ [?t])] =>
      let E := fresh "E" in
      destruct (capacity <? length (w ++ [t])) eqn:E;
      [ rewrite pop0_tail by (now destruct w) | ];
      py_simpl;
      rewrite (len_leb 2);
      match goal with
      | |- context [2 <=? length ?k] =>
          let F := fresh "F" in
          destruct (2 <=? length k) eqn:F; [|reflexivity];
          apply Nat.leb_le in F;
          assert (k <> []) by (intros Hk; rewrite Hk in F; simpl in F; lia);
          rewrite (final_last k 0%Q), (first_hd k 0%Q) by assumption;
          py_simpl;
          let G := fresh "G" in
          destruct (Py.gt (List.last k 0 - hd 0 k)%Q 0%Q) eqn:G;
            [|reflexivity];
          apply gt_true in G;
          unfold Py.float_of_int, Py.len;
          rewrite truediv_positive by assumption;
          reflexivity
      end
  end.

Lemma detection_calculate_fps_closed (t : Q)
    (s : Detection.EnhancedInstanceCallback) :
  Detection.calculate_fps t s =
  Py.Ok (let w := Window.push 60 t (Detection.frame_times s) in
         let r := Window.rate w (Detection.current_fps s) in
         (r, Detection.set_current_fps r (Detection.set_frame_times w s))).
Proof.
  destruct s as [fc id st lf ff cf dc td ft].
  unfold Detection.calculate_fps.
  window_closed_form 60.
Qed.

Lemma old_calculate_fps_closed (t : Q)
    (s : DetectionOld.MultiInstanceCallback) :
  DetectionOld.calculate_fps t s =
  Py.Ok (let w := Window.push 30 t (DetectionOld.frame_times s) in
         let r := Window.rate w (DetectionOld.fps s) in
         (r, DetectionOld.set_fps r (DetectionOld.set_frame_times w s))).
Proof.
  destruct s as [fc id lt ft f dc].
  unfold DetectionOld.calculate_fps.
  window_closed_form 30.
Qed.

(** ** The window holds the latest readings *)

Lemma tail_drop {A} (l : list A) (k : nat) : tail (drop k l) = drop (S k) l.
Proof.
  revert k. induction l as [|x l IH]; intros [|k]; simpl; auto.
Qed.

Lemma push_latest (capacity : nat) (t : Q) (ts : list Q) :
  Window.push capacity t (Window.latest capacity ts)
  = Window.latest capacity (ts ++ [t]).
Proof.
  unfold Window.push, Window.latest.
  rewrite !length_app, length_drop. simpl.
  destruct (capacity <? length ts - (length ts - capacity) + 1) eqn:E.
  - apply Nat.ltb_lt in E.
    assert (Hc : capacity <= length ts) by lia.
    rewrite <- (drop_app_le ts [t]) by lia.
    rewrite tail_drop. f_equal. lia.
  - apply Nat.ltb_ge in E.
    assert (Hc : length ts < capacity) by lia.
    replace (length ts - capacity) with 0 by lia.
    replace (length ts + 1 - capacity) with 0 by lia.
    now rewrite !drop_0.
Qed.

Lemma latest_length (capacity : nat) (ts : list Q) :
  length (Window.latest capacity ts) = Nat.min (length ts) capacity.
Proof. unfold Window.latest. rewrite length_drop. lia. Qed.

Lemma latest_last (capacity : nat) (ts : list Q) :
  1 <= capacity ->
  List.last (Window.latest capacity ts) 0%Q = List.last ts 0%Q.
Proof.
  intros Hc. unfold Window.latest.
  destruct ts as [|x ts'] using rev_ind; [reflexivity|].
  rewrite length_app. simpl.
  rewrite drop_app_le by lia.
  now rewrite !last_last.
Qed.

Lemma latest_sorted (capacity : nat) (ts : list Q) :
  StronglySorted Qlt ts -> StronglySorted Qlt (Window.latest capacity ts).
Proof.
  intros H. unfold Window.latest.
  rewrite <- (take_drop (length ts - capacity) ts) in H.
  now apply StronglySorted_app_1_r in H.
Qed.

Lemma sorted_span_positive (w : list Q) :
  StronglySorted Qlt w -> 2 <= length w ->
  (0 < List.last w 0 - hd 0 w)%Q.
Proof.
  intros Hs Hl.
  destruct w as [|a w']; [simpl in Hl; lia|].
  destruct w' as [|b w''] using rev_ind; [simpl in Hl; lia|].
  clear IHw''.
  change (a :: w'' ++ [b]) with ((a :: w'') ++ [b]).
  rewrite last_last. simpl.
  apply StronglySorted_inv in Hs as [_ Hall].
  rewrite Forall_forall in Hall.
  assert (a < b)%Q by (apply Hall; rewrite elem_of_app, list_elem_of_singleton; now right).
  rewrite <- (Qplus_opp_r a).
  apply Qplus_lt_le_compat; [assumption | apply Qle_refl].
Qed.

Lemma feed_snoc (capacity : nat) (ts : list Q) (t : Q) (w : list Q) (r : Q) :
  Window.feed capacity (ts ++ [t]) w r =
  (Window.push capacity t (Window.feed capacity ts w r).1,
   Window.rate (Window.push capacity t (Window.feed capacity ts w r).1)
     (Window.feed capacity ts w r).2).
Proof.
  unfold Window.feed. rewrite fold_left_app. simpl.
  now destruct (fold_left _ ts (w, r)).
Qed.

Lemma feed_window (capacity : nat) (ts : list Q) (r : Q) :
  (Window.feed capacity ts [] r).1 = Window.latest capacity ts.
Proof.
  induction ts as [|t ts IH] using rev_ind.
  - reflexivity.
  - rewrite feed_snoc. simpl. rewrite IH. apply push_latest.
Qed.

Lemma detection_records_feed (ts : list Q)
    (s : Detection.EnhancedInstanceCallback) :
  detection_records ts s =
  Py.Ok (let f := Window.feed 60 ts (Detection.frame_times s)
                    (Detection.current_fps s) in
         Detection.set_current_fps f.2 (Detection.set_frame_times f.1 s)).
Proof.
  revert s. induction ts as [|t ts IH]; intros s.
  - now destruct s.
  - simpl. rewrite detection_calculate_fps_closed. py_simpl.
    rewrite IH. now destruct s.
Qed.

Lemma old_records_feed (ts : list Q)
    (s : DetectionOld.MultiInstanceCallback) :
  old_records ts s =
  Py.Ok (let f := Window.feed 30 ts (DetectionOld.frame_times s)
                    (DetectionOld.fps s) in
         DetectionOld.set_fps f.2 (DetectionOld.set_frame_times f.1 s)).
Proof.
  revert s. induction ts as [|t ts IH]; intros s.
  - now destruct s.
  - simpl. rewrite old_calculate_fps_closed. py_simpl.
    rewrite IH. now destruct s.
Qed.

Lemma push_evicts_oldest (capacity : nat) (t : Q) (w : list Q) :
  1 <= capacity ->
  Window.push capacity t w =
  (if length w <? capacity then w else tail w) ++ [t].
Proof.
  intros Hc. unfold Window.push. rewrite length_app. simpl.
  destruct (capacity <? length w + 1) eqn:E.
  - apply Nat.ltb_lt in E.
    replace (length w <? capacity) with false
      by (symmetry; apply Nat.ltb_ge; lia).
    destruct w; [simpl in E; lia | reflexivity].
  - apply Nat.ltb_ge in E.
    replace (length w <? capacity) with true
      by (symmetry; apply Nat.ltb_lt; lia).
    reflexivity.
Qed.

Lemma feed_rate (capacity : nat) (ts : list Q) :
  2 <= capacity -> StronglySorted Qlt ts ->
  (Window.feed capacity ts [] 0).2 = Window.specified_rate capacity ts.
Proof.
  intros Hc Hs.
  destruct ts as [|t ts _] using rev_ind; [reflexivity|].
  rewrite feed_snoc, feed_window, push_latest. cbn [snd].
  unfold Window.rate, Window.specified_rate.
  rewrite latest_length, length_app. simpl length.
  destruct ts as [|t0 ts'].
  - replace (2 <=? Nat.min (length [] + 1) capacity) with false
      by (symmetry; apply Nat.leb_gt; change (@length Q [] + 1) with 1; lia).
    reflexivity.
  - set (all := (t0 :: ts') ++ [t]) in *.
    assert (Hn : 2 <= length all)
      by (unfold all; rewrite length_app; simpl; lia).
    replace (length (t0 :: ts') + 1) with (length all)
      by (unfold all; rewrite length_app; reflexivity).
    replace (2 <=? Nat.min (length all) capacity) with true
      by (symmetry; apply Nat.leb_le; lia).
    replace (length all <? 2) with false
      by (symmetry; apply Nat.ltb_ge; lia).
    rewrite <- (latest_last capacity all) by lia.
    assert (Hp : (0 < List.last (Window.latest capacity all) 0
                      - hd 0 (Window.latest capacity all))%Q).
    { apply sorted_span_positive; [now apply latest_sorted|].
      rewrite latest_length. lia. }
    replace (Py.gt _ 0) with true by (symmetry; now apply gt_true).
    destruct (Qeq_bool _ 0) eqn:E.
    + apply Qeq_bool_eq in E. rewrite E in Hp. now apply Qlt_irrefl in Hp.
    + reflexivity.
Qed.

Lemma feed_rate_short (capacity : nat) (ts : list Q) :
  length ts <= 1 -> (Window.feed capacity ts [] 0).2 = 0%Q.
Proof.
  intros Hl. destruct ts as [|t [|t' ts]]; [reflexivity| |simpl in Hl; lia].
  unfold Window.feed, Window.push, Window.rate. simpl.
  now destruct (capacity <? 1).
Qed.

(** ** Claim C4: the window is bounded and drops its oldest reading *)

(** C4.  Whatever readings [ts] were recorded before, after one more call
    of [calculate_fps] with reading [t] the list [frame_times] holds at
    most 60 entries in [multi_instance_detection.py] and at most 30 in
    [multi_instance_detection_old.py]; it is the previous list with [t]
    appended, minus its first (oldest) entry when the previous list was
    already full; and it consists of the latest readings in arrival
    order. *)
Theorem window_bounded_oldest_evicted
    (ts : list Q) (t : Q) (id : nat) (t0 t1 : Q) :
  (exists s s',
      detection_records ts (Detection.init id t0 t1) = Py.Ok s /\
      detection_records (ts ++ [t]) (Detection.init id t0 t1) = Py.Ok s' /\
      length (Detection.frame_times s') <= 60 /\
      Detection.frame_times s' =
        (if length (Detection.frame_times s) <? 60
         then Detection.frame_times s
         else tail (Detection.frame_times s)) ++ [t] /\
      Detection.frame_times s' = drop (length (ts ++ [t]) - 60) (ts ++ [t]))
  /\
  (exists s s',
      old_records ts (DetectionOld.init id t0) = Py.Ok s /\
      old_records (ts ++ [t]) (DetectionOld.init id t0) = Py.Ok s' /\
      length (DetectionOld.frame_times s') <= 30 /\
      DetectionOld.frame_times s' =
        (if length (DetectionOld.frame_times s) <? 30
         then DetectionOld.frame_times s
         else tail (DetectionOld.frame_times s)) ++ [t] /\
      DetectionOld.frame_times s' =
        drop (length (ts ++ [t]) - 30) (ts ++ [t])).
Proof.
  split.
  - rewrite !detection_records_feed. cbn zeta.
    eexists. eexists. split; [reflexivity|]. split; [reflexivity|].
    cbn [Detection.frame_times Detection.set_current_fps
         Detection.set_frame_times Detection.init Detection.current_fps].
    rewrite !feed_window.
    split; [rewrite latest_length; lia|].
    split; [|reflexivity].
    rewrite <- push_latest. apply push_evicts_oldest. lia.
  - rewrite !old_records_feed. cbn zeta.
    eexists. eexists. split; [reflexivity|]. split; [reflexivity|].
    cbn [DetectionOld.frame_times DetectionOld.set_fps
         DetectionOld.set_frame_times DetectionOld.init DetectionOld.fps].
    rewrite !feed_window.
    split; [rewrite latest_length; lia|].
    split; [|reflexivity].
    rewrite <- push_latest. apply push_evicts_oldest. lia.
Qed.

(** ** The batch estimator of [multi_instance_yolo11l.py] *)

Lemma yolo11l_calculate_fps_closed (t : Q)
    (s : Yolo11l.MultiInstanceCallback) :
  Yolo11l.calculate_fps t s =
  Py.Ok
    (let c := (Yolo11l.fps_frame_count s + 1)%Z in
     if (30 <=? c)%Z then
       let r := if Py.gt (t - Yolo11l.last_fps_time s) 0
                then (inject_Z c / (t - Yolo11l.last_fps_time s))%Q
                else Yolo11l.current_fps s in
       (r, Yolo11l.set_last_fps_time t
             (Yolo11l.set_fps_frame_count 0
                (Yolo11l.set_current_fps r s)))
     else (Yolo11l.current_fps s, Yolo11l.set_fps_frame_count c s)).
Proof.
  destruct s as [fc id st lf ff cf dc td].
  unfold Yolo11l.calculate_fps. py_simpl.
  destruct (30 <=? ff + 1)%Z eqn:E; [|reflexivity].
  destruct (Py.gt (t - lf)%Q 0%Q) eqn:G; [|reflexivity].
  apply gt_true in G. unfold Py.float_of_int.
  rewrite truediv_positive by assumption. reflexivity.
Qed.

Ltac yolo11l_fields :=
  cbn [Yolo11l.frame_count Yolo11l.instance_id Yolo11l.start_time
       Yolo11l.last_fps_time Yolo11l.fps_frame_count Yolo11l.current_fps
       Yolo11l.detection_count Yolo11l.total_detections
       Yolo11l.set_last_fps_time Yolo11l.set_fps_frame_count
       Yolo11l.set_current_fps Yolo11l.set_detection_count
       Yolo11l.set_total_detections Yolo11l.increment Yolo11l.init
       fst snd] in *.

Lemma yolo11l_records_snoc (ts : list Q) (t : Q)
    (s : Yolo11l.MultiInstanceCallback) :
  yolo11l_records (ts ++ [t]) s =
  (s' ← yolo11l_records ts s;
   '(_, s'') ← Yolo11l.calculate_fps t s'; mret s'').
Proof.
  revert s. induction ts as [|t' ts IH]; intros s; simpl.
  - now destruct (Yolo11l.calculate_fps t s) as [[? ?]|].
  - destruct (Yolo11l.calculate_fps t' s) as [[? ?]|]; [|reflexivity].
    simpl. apply IH.
Qed.

Lemma sorted_nth_lt (l : list Q) (i j : nat) :
  StronglySorted Qlt l -> i < j -> j < length l ->
  (nth i l 0 < nth j l 0)%Q.
Proof.
  intros Hs. revert i j. induction Hs as [|a l Hs IH Hall]; intros i j Hij Hj.
  - simpl in Hj. lia.
  - destruct j as [|j]; [lia|]. simpl in Hj.
    destruct i as [|i]; simpl.
    + rewrite Forall_forall in Hall. apply Hall.
      apply list_elem_of_In, nth_In. lia.
    + apply IH; lia.
Qed.

(** The state of the batch estimator after [ts], in closed form: [all]
    is the reading taken by the constructor followed by [ts]. *)
Lemma yolo11l_records_closed (ts : list Q) (id : nat) (t0 t1 : Q) :
  StronglySorted Qlt (t1 :: ts) ->
  let n := length ts in
  let all := t1 :: ts in
  exists s,
    yolo11l_records ts (Yolo11l.init id t0 t1) = Py.Ok s /\
    Yolo11l.fps_frame_count s = Z.of_nat (n mod 30) /\
    Yolo11l.last_fps_time s = nth (30 * (n / 30)) all 0%Q /\
    Yolo11l.current_fps s =
      (if n <? 30 then 0
       else 30 / (nth (30 * (n / 30)) all 0
                  - nth (30 * (n / 30) - 30) all 0))%Q.
Proof.
  induction ts as [|t ts IH] using rev_ind; intros Hs n all.
  - eexists. split; [reflexivity|]. now repeat split.
  - assert (Hs' : StronglySorted Qlt (t1 :: ts)).
    { change (t1 :: ts ++ [t]) with ((t1 :: ts) ++ [t]) in Hs.
      now apply StronglySorted_app_1_l in Hs. }
    destruct (IH Hs') as (s & Hrun & Hc & Hl & Hf). clear IH.
    set (m := length ts) in *.
    assert (Hn : n = m + 1) by (unfold n; rewrite length_app; reflexivity).
    pose proof (Nat.div_mod_eq m 30) as Hdm.
    pose proof (Nat.mod_upper_bound m 30 ltac:(lia)) as Hub.
    assert (Hlen : length all = m + 2)
      by (unfold all; simpl; rewrite length_app; simpl; unfold m; lia).
    assert (Hpre : forall k, k <= m -> nth k all 0%Q = nth k (t1 :: ts) 0%Q).
    { intros k Hk. unfold all.
      change (t1 :: ts ++ [t]) with ((t1 :: ts) ++ [t]).
      apply app_nth1. simpl. unfold m in Hk. lia. }
    assert (Hlast : nth (m + 1) all 0%Q = t).
    { unfold all. change (t1 :: ts ++ [t]) with ((t1 :: ts) ++ [t]).
      rewrite app_nth2 by (simpl; unfold m; lia).
      replace (m + 1 - length (t1 :: ts)) with 0 by (simpl; unfold m; lia).
      reflexivity. }
    assert (Hsall : StronglySorted Qlt all) by exact Hs.
    rewrite yolo11l_records_snoc, Hrun.
    clearbody n all m. clear Hs Hrun.
    py_simpl.
    rewrite yolo11l_calculate_fps_closed. cbn zeta.
    rewrite Hc.
    destruct (30 <=? Z.of_nat (m mod 30) + 1)%Z eqn:E.
    + apply Z.leb_le in E.
      assert (H29 : m mod 30 = 29) by lia.
      assert (Hq : n / 30 = m / 30 + 1)
        by (symmetry; apply (Nat.div_unique n 30 _ 0); lia).
      assert (Hr : n mod 30 = 0)
        by (symmetry; apply (Nat.mod_unique n 30 (m / 30 + 1) 0); lia).
      assert (Hpos : (0 < t - Yolo11l.last_fps_time s)%Q).
      { rewrite Hl, <- Hlast, <- (Hpre (30 * (m / 30))) by lia.
        apply (proj1 (Qlt_minus_iff _ _)).
        apply sorted_nth_lt; [exact Hsall | lia | lia]. }
      replace (Py.gt _ 0) with true by (symmetry; now apply gt_true).
      eexists. split; [reflexivity|].
      destruct s as [fc i st lf ff cf dc td]; yolo11l_fields.
      rewrite Hr, Hq.
      replace (30 * (m / 30 + 1)) with (m + 1) by lia.
      replace (m + 1 - 30) with (30 * (m / 30)) by lia.
      rewrite Hlast, (Hpre (30 * (m / 30))) by lia.
      replace (n <? 30) with false by (symmetry; apply Nat.ltb_ge; lia).
      rewrite H29, Hl. repeat split; reflexivity.
    + apply Z.leb_gt in E.
      assert (Hq : n / 30 = m / 30)
        by (symmetry; apply (Nat.div_unique n 30 _ (m mod 30 + 1)); lia).
      assert (Hr : n mod 30 = m mod 30 + 1)
        by (symmetry; apply (Nat.mod_unique n 30 (m / 30)); lia).
      eexists. split; [reflexivity|].
      destruct s as [fc i st lf ff cf dc td]; yolo11l_fields.
      rewrite Hr, Hq, !Hpre by lia.
      split; [lia|]. split; [assumption|].
      rewrite Hf.
      destruct (m <? 30) eqn:M, (n <? 30) eqn:N; try reflexivity.
      * apply Nat.ltb_lt in M. apply Nat.ltb_ge in N.
        rewrite Nat.mod_small in E by lia. lia.
      * apply Nat.ltb_ge in M. apply Nat.ltb_lt in N. lia.
Qed.

(** ** Claim C1: the rate of the sliding window *)

Lemma feed_rate_facts (capacity : nat) (ts : list Q) :
  2 <= capacity -> StronglySorted Qlt ts ->
  let r := (Window.feed capacity ts [] 0).2 in
  let w := Window.latest capacity ts in
  (2 <= length ts ->
   r = (inject_Z (Z.of_nat (Nat.min (length ts) capacity) - 1)
        / (List.last ts 0 - hd 0 w))%Q) /\
  (length ts <= 1 -> r = 0%Q) /\
  ((List.last w 0 - hd 0 w == 0)%Q -> r = 0%Q).
Proof.
  intros Hc Hs r w.
  assert (Hspan : 2 <= length ts -> (0 < List.last w 0 - hd 0 w)%Q).
  { intros Hn. apply sorted_span_positive; [now apply latest_sorted|].
    unfold w. rewrite latest_length. lia. }
  split; [|split].
  - intros Hn. unfold r. rewrite feed_rate by assumption.
    unfold Window.specified_rate. fold w.
    replace (length ts <? 2) with false by (symmetry; apply Nat.ltb_ge; lia).
    specialize (Hspan Hn). unfold w in Hspan.
    rewrite latest_last in Hspan by lia. fold w in Hspan.
    destruct (Qeq_bool _ 0) eqn:E; [|reflexivity].
    apply Qeq_bool_eq in E. rewrite E in Hspan.
    now apply Qlt_irrefl in Hspan.
  - intros Hn. now apply feed_rate_short.
  - intros Hz. destruct (le_lt_dec (length ts) 1) as [Hn|Hn].
    + now apply feed_rate_short.
    + specialize (Hspan Hn). rewrite Hz in Hspan.
      now apply Qlt_irrefl in Hspan.
Qed.

(** C1, the statement falsified.  In [multi_instance_yolo11l.py] two
    calls of [calculate_fps] at times 1 and 2 (after construction at
    time 0) leave the rate at 0, whereas the claimed value
    [(min(2, window) - 1) / (2 - 1)] is 1, for a window of 30 as for one
    of 60. *)
Lemma yolo11l_rate_not_windowed :
  StronglySorted Qlt [1; 2]%Q /\
  exists s,
    yolo11l_records [1; 2]%Q (Yolo11l.init 0 0 0) = Py.Ok s /\
    Yolo11l.current_fps s = 0%Q /\
    (Window.specified_rate 30 [1; 2] == 1)%Q /\
    (Window.specified_rate 60 [1; 2] == 1)%Q /\
    ~ (Yolo11l.current_fps s == Window.specified_rate 30 [1; 2])%Q /\
    ~ (Yolo11l.current_fps s == Window.specified_rate 60 [1; 2])%Q.
Proof.
  split.
  - repeat constructor.
  - eexists. split; [reflexivity|].
    repeat split; try reflexivity; intros H; discriminate H.
Qed.

(** C1, amended.  For strictly increasing readings [ts]: in
    [multi_instance_detection.py] (window of 60) and
    [multi_instance_detection_old.py] (window of 30) the rate stored
    after [n >= 2] calls is [(min(n, window) - 1)] over the difference
    between the last reading and the first one of the window, and it is
    exactly 0 after 0 or 1 calls or when the span of the window is 0.
    In [multi_instance_yolo11l.py], whose constructor read the clock at
    [t1] before the first call, the rate is 0 for the first 29 calls and
    afterwards 30 over the time taken by the last complete batch of 30
    calls. *)
Theorem sliding_window_rate (ts : list Q) (id : nat) (t0 t1 : Q) :
  StronglySorted Qlt ts ->
  let n := length ts in
  (exists s,
      detection_records ts (Detection.init id t0 t1) = Py.Ok s /\
      (2 <= n ->
       Detection.current_fps s =
         (inject_Z (Z.of_nat (Nat.min n 60) - 1)
          / (List.last ts 0 - hd 0 (Window.latest 60 ts)))%Q) /\
      (n <= 1 -> Detection.current_fps s = 0%Q) /\
      ((List.last (Detection.frame_times s) 0
        - hd 0 (Detection.frame_times s) == 0)%Q ->
       Detection.current_fps s = 0%Q))
  /\
  (exists s,
      old_records ts (DetectionOld.init id t0) = Py.Ok s /\
      (2 <= n ->
       DetectionOld.fps s =
         (inject_Z (Z.of_nat (Nat.min n 30) - 1)
          / (List.last ts 0 - hd 0 (Window.latest 30 ts)))%Q) /\
      (n <= 1 -> DetectionOld.fps s = 0%Q) /\
      ((List.last (DetectionOld.frame_times s) 0
        - hd 0 (DetectionOld.frame_times s) == 0)%Q ->
       DetectionOld.fps s = 0%Q))
  /\
  (StronglySorted Qlt (t1 :: ts) ->
   exists s,
      yolo11l_records ts (Yolo11l.init id t0 t1) = Py.Ok s /\
      Yolo11l.current_fps s =
        (if n <? 30 then 0
         else 30 / (nth (30 * (n / 30)) (t1 :: ts) 0
                    - nth (30 * (n / 30) - 30) (t1 :: ts) 0))%Q).
Proof.
  intros Hs n. split; [|split].
  - rewrite detection_records_feed. eexists. split; [reflexivity|].
    cbn [Detection.frame_times Detection.set_current_fps
         Detection.set_frame_times Detection.init Detection.current_fps].
    rewrite feed_window.
    apply (feed_rate_facts 60 ts); [lia | assumption].
  - rewrite old_records_feed. eexists. split; [reflexivity|].
    cbn [DetectionOld.frame_times DetectionOld.set_fps
         DetectionOld.set_frame_times DetectionOld.init DetectionOld.fps].
    rewrite feed_window.
    apply (feed_rate_facts 30 ts); [lia | assumption].
  - intros Hs1.
    destruct (yolo11l_records_closed ts id t0 t1 Hs1) as (s & H1 & _ & _ & H4).
    exists s. split; assumption.
Qed.

Lemma sliding_window_rate_witness :
  StronglySorted Qlt [1; 2; 4]%Q /\
  exists s,
    detection_records [1; 2; 4]%Q (Detection.init 0 0 0) = Py.Ok s /\
    Detection.current_fps s = (inject_Z 2 / (4 - 1))%Q.
Proof.
  assert (Hs : StronglySorted Qlt [1; 2; 4]%Q) by (repeat constructor).
  split; [exact Hs|].
  destruct (sliding_window_rate [1; 2; 4]%Q 0 0 0 Hs)
    as [(s & Hrun & Hrate & _) _].
  exists s. split; [exact Hrun|].
  apply Hrate. simpl. lia.
Defined.

(** ** Claim C10: the callback counts the frame before it looks at the
    buffer *)

Ltac detection_fields :=
  cbn [Detection.frame_count Detection.instance_id Detection.start_time
       Detection.last_fps_time Detection.fps_frame_count
       Detection.current_fps Detection.detection_count
       Detection.total_detections Detection.frame_times
       Detection.set_frame_count Detection.set_current_fps
       Detection.set_detection_count Detection.set_total_detections
       Detection.set_frame_times Detection.increment Detection.get_count
       Detection.init fst snd] in *.

Lemma detection_collect_fold (objs : list Hailo.HailoDetection)
    (acc : list (string * Q)) (ud : Detection.EnhancedInstanceCallback) :
  fold_left Detection.collect_detection objs (acc, ud) =
  (acc ++ map (fun d => (Hailo.label d, Hailo.confidence d)) objs,
   Detection.set_total_detections
     (Detection.total_detections ud + Py.len objs) ud).
Proof.
  revert acc ud. induction objs as [|d objs IH]; intros acc ud.
  - destruct ud. unfold Py.len. simpl.
    now rewrite app_nil_r, Z.add_0_r.
  - cbn [fold_left Detection.collect_detection]. rewrite IH.
    destruct ud. unfold Py.len. detection_fields. cbn [map length].
    rewrite <- app_assoc. cbn [app].
    unfold Detection.set_total_detections. detection_fields.
    do 2 f_equal. lia.
Qed.

Lemma yolo11l_collect_fold (objs : list Hailo.HailoDetection)
    (acc : list (string * Q)) (ud : Yolo11l.MultiInstanceCallback) :
  fold_left Yolo11l.collect_detection objs (acc, ud) =
  (acc ++ map (fun d => (Hailo.label d, Hailo.confidence d)) objs,
   Yolo11l.set_total_detections
     (Yolo11l.total_detections ud + Py.len objs) ud).
Proof.
  revert acc ud. induction objs as [|d objs IH]; intros acc ud.
  - destruct ud. unfold Py.len. simpl.
    now rewrite app_nil_r, Z.add_0_r.
  - cbn [fold_left Yolo11l.collect_detection]. rewrite IH.
    destruct ud. unfold Py.len. yolo11l_fields. cbn [map length].
    rewrite <- app_assoc. cbn [app].
    unfold Yolo11l.set_total_detections. yolo11l_fields.
    do 2 f_equal. lia.
Qed.

(** The average of a status line is guarded: it never raises. *)
Lemma guarded_average (count : Z) (runtime : Q) :
  (if Py.gt runtime 0
   then Py.truediv (Py.float_of_int count) runtime
   else mret 0%Q)
  = Py.Ok (if Py.gt runtime 0 then (inject_Z count / runtime)%Q else 0%Q).
Proof.
  destruct (Py.gt runtime 0) eqn:G; [|reflexivity].
  apply gt_true in G. now rewrite truediv_positive.
Qed.

Lemma push_last (capacity : nat) (t : Q) (w : list Q) :
  1 <= capacity -> List.last (Window.push capacity t w) 0%Q = t.
Proof.
  intros Hc. rewrite push_evicts_oldest by assumption. apply last_last.
Qed.

Ltac callback_status :=
  rewrite guarded_average;
  match goal with
  | |- context [if (?a mod 90 =? 0)%Z then _ else _] =>
      destruct (a mod 90 =? 0)%Z
  | |- context [if (?a mod 60 =? 0)%Z then _ else _] =>
      destruct (a mod 60 =? 0)%Z
  end;
  py_simpl; repeat split; reflexivity.

(** C10, the statement falsified.  In [multi_instance_yolo11l.py] the
    clock reading of a frame that does not complete a batch of 30 is
    recorded nowhere: on a new callback object, an invocation at time 5
    and an invocation at time 6 leave the object in the same state, in
    which the only stored time is still the one of the constructor. *)
Lemma yolo11l_timestamp_not_recorded :
  let yd := Yolo11l.init 0 0 0 in
  Yolo11l.app_callback 0 5 5 None yd = Yolo11l.app_callback 0 6 6 None yd /\
  Yolo11l.calculate_fps 5 (Yolo11l.increment yd)
    = Yolo11l.calculate_fps 6 (Yolo11l.increment yd) /\
  Yolo11l.last_fps_time (Yolo11l.app_callback 0 5 5 None yd).1 = 0%Q /\
  Yolo11l.fps_frame_count (Yolo11l.app_callback 0 5 5 None yd).1 = 1%Z /\
  Yolo11l.get_count (Yolo11l.app_callback 0 5 5 None yd).1 = 1%Z.
Proof.
  cbv zeta. repeat split; reflexivity.
Qed.

(** C10, amended.  Every invocation of the per-frame callback first
    increments the frame counter and feeds the current clock reading to
    [calculate_fps], and only then looks at the buffer.  In
    [multi_instance_detection.py] the reading becomes the newest entry
    of the window.  In [multi_instance_yolo11l.py] there is no window:
    the batch counter advances, and the reading is stored, as the start
    of the next batch, only by the invocation that completes a batch of
    30; any other invocation leaves the same state whatever the reading.
    With a [None] buffer the callback returns [OK] and leaves the object
    in exactly that state: [detection_count] and [total_detections] are
    unchanged.  With a buffer, whatever the buffer holds and even when
    the callback is left by an exception, the counter and the estimator
    have the values they had before the buffer was examined; the
    callback returns [OK] unless the detection query raises an exception
    that does not derive from [Exception]. *)
Theorem callback_counts_before_buffer
    (instance : nat) (t_fps t_status : Q)
    (ud : Detection.EnhancedInstanceCallback)
    (yd : Yolo11l.MultiInstanceCallback) :
  (exists fps ud1,
      Detection.calculate_fps t_fps (Detection.increment ud)
        = Py.Ok (fps, ud1) /\
      Detection.get_count ud1 = (Detection.get_count ud + 1)%Z /\
      Detection.frame_times ud1
        = Window.push 60 t_fps (Detection.frame_times ud) /\
      List.last (Detection.frame_times ud1) 0%Q = t_fps /\
      Detection.detection_count ud1 = Detection.detection_count ud /\
      Detection.total_detections ud1 = Detection.total_detections ud /\
      Detection.enhanced_callback instance t_fps t_status None ud
        = (ud1, Py.Ok (Hailo.OK, [])) /\
      forall buffer,
        let call := Detection.enhanced_callback instance t_fps t_status
                      (Some buffer) ud in
        Detection.get_count call.1 = Detection.get_count ud1 /\
        Detection.frame_times call.1 = Detection.frame_times ud1 /\
        Detection.current_fps call.1 = Detection.current_fps ud1 /\
        match call.2 with
        | Py.Ok (r, _) => r = Hailo.OK
        | Py.Raise e =>
            Hailo.failure buffer = Some e /\
            Py.isinstance_Exception e = false
        end)
  /\
  (exists fps yd1,
      Yolo11l.calculate_fps t_fps (Yolo11l.increment yd)
        = Py.Ok (fps, yd1) /\
      Yolo11l.get_count yd1 = (Yolo11l.get_count yd + 1)%Z /\
      Yolo11l.fps_frame_count yd1
        = (if (30 <=? Yolo11l.fps_frame_count yd + 1)%Z then 0
           else Yolo11l.fps_frame_count yd + 1)%Z /\
      Yolo11l.last_fps_time yd1
        = (if (30 <=? Yolo11l.fps_frame_count yd + 1)%Z then t_fps
           else Yolo11l.last_fps_time yd) /\
      ((Yolo11l.fps_frame_count yd + 1 < 30)%Z ->
       Yolo11l.current_fps yd1 = Yolo11l.current_fps yd /\
       forall t', Yolo11l.calculate_fps t' (Yolo11l.increment yd)
                  = Py.Ok (fps, yd1)) /\
      Yolo11l.detection_count yd1 = Yolo11l.detection_count yd /\
      Yolo11l.total_detections yd1 = Yolo11l.total_detections yd /\
      Yolo11l.app_callback instance t_fps t_status None yd
        = (yd1, Py.Ok (Hailo.OK, [])) /\
      forall buffer,
        let call := Yolo11l.app_callback instance t_fps t_status
                      (Some buffer) yd in
        Yolo11l.get_count call.1 = Yolo11l.get_count yd1 /\
        Yolo11l.fps_frame_count call.1 = Yolo11l.fps_frame_count yd1 /\
        Yolo11l.last_fps_time call.1 = Yolo11l.last_fps_time yd1 /\
        Yolo11l.current_fps call.1 = Yolo11l.current_fps yd1 /\
        match call.2 with
        | Py.Ok (r, _) => r = Hailo.OK
        | Py.Raise e =>
            Hailo.failure buffer = Some e /\
            Py.isinstance_Exception e = false
        end).
Proof.
  split.
  - unfold Detection.enhanced_callback.
    rewrite detection_calculate_fps_closed. cbn zeta.
    eexists. eexists. split; [reflexivity|].
    destruct ud as [fc id st lf ff cf dc td ft]. detection_fields.
    repeat (split; [first [reflexivity | apply push_last; lia]|]).
    intros [objs fail]. cbn zeta. cbn [Py.attempt Hailo.objects Hailo.failure].
    rewrite detection_collect_fold. detection_fields.
    destruct fail as [e|]; [destruct (Py.isinstance_Exception e) eqn:Ex|];
      py_simpl; [callback_status | now repeat split | callback_status].
  - unfold Yolo11l.app_callback.
    rewrite yolo11l_calculate_fps_closed. cbn zeta.
    destruct yd as [fc id st lf ff cf dc td]. yolo11l_fields.
    destruct (30 <=? ff + 1)%Z eqn:E.
    + eexists. eexists. split; [reflexivity|]. yolo11l_fields.
      repeat (split;
              [first [reflexivity
                     | intros Hlt; apply Z.leb_le in E; lia
                     | intros Hlt; split; [reflexivity|]; intros t';
                       rewrite yolo11l_calculate_fps_closed; cbn zeta;
                       yolo11l_fields; rewrite E; reflexivity]|]).
      intros [objs fail]. cbn zeta.
      cbn [Py.attempt Hailo.objects Hailo.failure].
      rewrite yolo11l_collect_fold. yolo11l_fields.
      destruct fail as [e|]; [destruct (Py.isinstance_Exception e) eqn:Ex|];
        py_simpl; [callback_status | now repeat split | callback_status].
    + eexists. eexists. split; [reflexivity|]. yolo11l_fields.
      repeat (split;
              [first [reflexivity
                     | intros Hlt; apply Z.leb_le in E; lia
                     | intros Hlt; split; [reflexivity|]; intros t';
                       rewrite yolo11l_calculate_fps_closed; cbn zeta;
                       yolo11l_fields; rewrite E; reflexivity]|]).
      intros [objs fail]. cbn zeta.
      cbn [Py.attempt Hailo.objects Hailo.failure].
      rewrite yolo11l_collect_fold. yolo11l_fields.
      destruct fail as [e|]; [destruct (Py.isinstance_Exception e) eqn:Ex|];
        py_simpl; [callback_status | now repeat split | callback_status].
Qed.

(** ** Claim C5: what a new instance does to [instance_callbacks] *)

Lemma app_init_memory (instance : nat) (t0 t1 : Q)
    (si : Py.result string) (ye : bool) (m : Detection.Memory) :
  (Detection.app_init instance t0 t1 si ye m).1 =
  {| Detection.heap := Detection.heap m ++ [Detection.init instance t0 t1];
     Detection.instance_callbacks :=
       <[instance := length (Detection.heap m)]>
         (Detection.instance_callbacks m) |}.
Proof. reflexivity. Qed.

Lemma run_instance_memory (instance : nat) (fw : Detection.Framework)
    (m : Detection.Memory) :
  (Detection.run_instance instance fw m).1.1 =
  (Detection.app_init instance (Detection.clock0 fw) (Detection.clock1 fw)
     (Detection.super_init fw) (Detection.yolo11_exists fw) m).1.
Proof.
  unfold Detection.run_instance.
  destruct (Detection.app_init _ _ _ _ _ m) as [m' c]. cbn [fst].
  destruct (c ≫= Detection.run fw) as [u|e]; [reflexivity|].
  now destruct (Py.isinstance_Exception e).
Qed.

Lemma probe_registry (app : Detection.YOLOv11lDetectionApp)
    (t_fps t_status : Q) (buffer : option Hailo.Buffer)
    (m : Detection.Memory) :
  Detection.instance_callbacks (Detection.probe app t_fps t_status buffer m).1
  = Detection.instance_callbacks m.
Proof.
  unfold Detection.probe.
  destruct (Detection.heap m !! Detection.user_data app); [|reflexivity].
  now destruct (Detection.enhanced_callback _ _ _ _ _) as [ud' outcome].
Qed.

Lemma perform_keeps_keys (m : Detection.Memory) (op : Detection.Operation) :
  dom (Detection.instance_callbacks m)
  ⊆ dom (Detection.instance_callbacks (Detection.perform m op)).
Proof.
  destruct op as [instance fw | app t_fps t_status buffer]; simpl.
  - rewrite run_instance_memory, app_init_memory. simpl.
    rewrite dom_insert_L. set_solver.
  - now rewrite probe_registry.
Qed.

Lemma operations_keep_keys (ops : list Detection.Operation)
    (m : Detection.Memory) :
  dom (Detection.instance_callbacks m)
  ⊆ dom (Detection.instance_callbacks (fold_left Detection.perform ops m)).
Proof.
  revert m. induction ops as [|op ops IH]; intros m; simpl.
  - reflexivity.
  - etransitivity; [apply perform_keeps_keys | apply IH].
Qed.

(** C5, the statement falsified.  Instance 0 is constructed, its probe
    sees one frame with two detections, and a second instance is then
    constructed for index 0: the entry of [instance_callbacks] for index
    0 shows 1 frame and 2 detections before the second construction, and
    0 frames and 0 detections after it. *)
Lemma new_instance_resets_counters :
  let fw := {| Detection.clock0 := 0; Detection.clock1 := 0;
               Detection.super_init := Py.Ok "default.hef";
               Detection.yolo11_exists := true;
               Detection.run := fun _ => Py.Ok tt |} in
  let fw' := {| Detection.clock0 := 5; Detection.clock1 := 5;
                Detection.super_init := Py.Ok "default.hef";
                Detection.yolo11_exists := true;
                Detection.run := fun _ => Py.Ok tt |} in
  let app := {| Detection.app_instance_id := 0; Detection.user_data := 0;
                Detection.hef_path := Detection.yolo11_path;
                Detection.batch_size := 1;
                Detection.thresholds_str := "" |} in
  let person := {| Hailo.label := "person"; Hailo.confidence := 9 # 10 |} in
  let frame := {| Hailo.objects := [person; person];
                  Hailo.failure := None |} in
  let m1 := (Detection.run_instance 0 fw Detection.empty_memory).1.1 in
  let m2 := (Detection.probe app 1 1 (Some frame) m1).1 in
  let m3 := (Detection.run_instance 0 fw' m2).1.1 in
  Detection.get_count <$> Detection.entry m2 0 = Some 1%Z /\
  Detection.total_detections <$> Detection.entry m2 0 = Some 2%Z /\
  Detection.get_count <$> Detection.entry m3 0 = Some 0%Z /\
  Detection.total_detections <$> Detection.entry m3 0 = Some 0%Z.
Proof. vm_compute. repeat split. Qed.

(** C5, amended.  Constructing an instance for an index, whether or not
    [instance_callbacks] already has an entry for it, makes the entry
    refer to a fresh callback object: frame count and total detections 0,
    empty window, rate 0, start time the construction time.  The entries
    of the other indices and the objects allocated before are untouched,
    and no operation of the script removes a key from
    [instance_callbacks]. *)
Theorem new_instance_replaces_entry
    (m : Detection.Memory) (instance : nat) (t0 t1 : Q)
    (si : Py.result string) (ye : bool) :
  let m' := (Detection.app_init instance t0 t1 si ye m).1 in
  Detection.entry m' instance = Some (Detection.init instance t0 t1) /\
  (forall e, Detection.entry m' instance = Some e ->
     Detection.get_count e = 0%Z /\
     Detection.total_detections e = 0%Z /\
     Detection.frame_times e = [] /\
     Detection.current_fps e = 0%Q /\
     Detection.start_time e = t0) /\
  (forall j, j <> instance ->
     Detection.instance_callbacks m' !! j
     = Detection.instance_callbacks m !! j) /\
  (forall a ud, Detection.heap m !! a = Some ud ->
     Detection.heap m' !! a = Some ud) /\
  (forall ops,
     dom (Detection.instance_callbacks m)
     ⊆ dom (Detection.instance_callbacks
              (fold_left Detection.perform ops m))).
Proof.
  intros m'. unfold m'. rewrite app_init_memory.
  assert (He : Detection.entry
                 {| Detection.heap :=
                      Detection.heap m ++ [Detection.init instance t0 t1];
                    Detection.instance_callbacks :=
                      <[instance := length (Detection.heap m)]>
                        (Detection.instance_callbacks m) |} instance
               = Some (Detection.init instance t0 t1)).
  { unfold Detection.entry. simpl. rewrite lookup_insert_eq. simpl.
    now apply list_lookup_middle. }
  split; [exact He|]. split; [|split; [|split]].
  - intros e H. rewrite He in H. injection H as <-. now repeat split.
  - intros j Hj. simpl. now rewrite lookup_insert_ne.
  - intros a ud H. simpl. now apply lookup_app_l_Some.
  - intros ops. apply operations_keep_keys.
Qed.

(** ** Claims C6 and C9: the dashboard *)

Lemma sorted_keys_elem {V} (d : gmap nat V) (i : nat) :
  i ∈ Detection.sorted_keys d <-> is_Some (d !! i).
Proof.
  unfold Detection.sorted_keys.
  rewrite merge_sort_Permutation, elem_of_elements. apply elem_of_dom.
Qed.

Lemma dashboard_row_closed (now : nat -> Q)
    (cbs : gmap nat Detection.EnhancedInstanceCallback)
    (acc : Detection.Totals) (i : nat)
    (cb : Detection.EnhancedInstanceCallback) :
  cbs !! i = Some cb ->
  Detection.dashboard_row now cbs acc i =
  Py.Ok {| Detection.total_fps :=
             (Detection.total_fps acc + Board.average_fps (now i) cb)%Q;
           Detection.total_frames :=
             (Detection.total_frames acc + Detection.get_count cb)%Z;
           Detection.total_detections_all :=
             (Detection.total_detections_all acc
              + Detection.total_detections cb)%Z;
           Detection.lines :=
             Detection.lines acc ++ [Board.line_of now i cb] |}.
Proof.
  intros Hi. unfold Detection.dashboard_row, Detection.getitem.
  rewrite Hi. py_simpl. rewrite guarded_average. reflexivity.
Qed.

Lemma for_each_rows (now : nat -> Q)
    (cbs : gmap nat Detection.EnhancedInstanceCallback)
    (keys : list nat) (acc : Detection.Totals) :
  (forall i, i ∈ keys -> is_Some (cbs !! i)) ->
  Detection.for_each (Detection.dashboard_row now cbs) keys acc =
  Py.Ok {| Detection.total_fps :=
             Board.sum_fps (Detection.total_fps acc)
               (Board.rows now cbs keys);
           Detection.total_frames :=
             Board.sum_frames (Detection.total_frames acc)
               (Board.rows now cbs keys);
           Detection.total_detections_all :=
             Board.sum_detections (Detection.total_detections_all acc)
               (Board.rows now cbs keys);
           Detection.lines :=
             Detection.lines acc ++ Board.rows now cbs keys |}.
Proof.
  revert acc. induction keys as [|i keys IH]; intros acc Hk.
  - destruct acc. simpl. now rewrite app_nil_r.
  - destruct (Hk i) as [cb Hi]; [left|].
    cbn [Detection.for_each].
    rewrite (dashboard_row_closed now cbs acc i cb Hi). py_simpl.
    rewrite IH by (intros j Hj; apply Hk; now right).
    unfold Board.rows, Board.sum_fps, Board.sum_frames,
      Board.sum_detections.
    cbn [omap list_omap]. rewrite Hi. cbn [fmap option_fmap option_map].
    cbn [map fold_left Detection.total_fps Detection.total_frames
         Detection.total_detections_all Detection.lines
         Detection.line_average_fps Detection.line_frames
         Detection.line_detections Board.line_of].
    now rewrite <- app_assoc.
Qed.

(** [dashboard_pass] never raises; this is its value. *)
Lemma dashboard_pass_closed (now : nat -> Q)
    (cbs : gmap nat Detection.EnhancedInstanceCallback) :
  Detection.dashboard_pass now cbs =
  Py.Ok
    (let ls := Board.rows now cbs (Detection.sorted_keys cbs) in
     let registered := Z.of_nat (size cbs) in
     {| Detection.instances := registered;
        Detection.combined_fps := Board.sum_fps 0 ls;
        Detection.frames := Board.sum_frames 0 ls;
        Detection.detections := Board.sum_detections 0 ls;
        Detection.efficiency :=
          if (0 <? registered)%Z
          then (Board.sum_fps 0 ls / inject_Z (registered * 30) * 100)%Q
          else 0%Q;
        Detection.per_instance := ls |}).
Proof.
  unfold Detection.dashboard_pass.
  rewrite for_each_rows by (intros i; apply sorted_keys_elem).
  py_simpl.
  destruct (0 <? Z.of_nat (size cbs))%Z eqn:E; [|reflexivity].
  apply Z.ltb_lt in E. unfold Py.float_of_int.
  rewrite truediv_positive; [reflexivity|].
  change 0%Q with (inject_Z 0). rewrite <- Zlt_Qlt. lia.
Qed.

Lemma rows_instances (now : nat -> Q)
    (cbs : gmap nat Detection.EnhancedInstanceCallback) (keys : list nat) :
  (forall i, i ∈ keys -> is_Some (cbs !! i)) ->
  map Detection.line_instance (Board.rows now cbs keys) = keys.
Proof.
  induction keys as [|i keys IH]; intros Hk; [reflexivity|].
  destruct (Hk i) as [cb Hi]; [left|].
  unfold Board.rows. cbn [omap list_omap]. rewrite Hi.
  cbn [fmap option_fmap option_map map Board.line_of Detection.line_instance].
  f_equal. apply IH. intros j Hj. apply Hk. now right.
Qed.

Lemma sorted_keys_empty {V} : Detection.sorted_keys (∅ : gmap nat V) = [].
Proof.
  unfold Detection.sorted_keys. now rewrite dom_empty_L, elements_empty.
Qed.

(** C6.  On a pass of the dashboard over registered workers that have
    each been running for a positive time: every worker has one line, in
    increasing order of instance id, whose average rate is its frame
    count divided by the seconds since its start; the combined rate is
    the sum of those averages; and the efficiency is the combined rate
    divided by (number of registered workers times 30), times 100. *)
Theorem dashboard_rates (now : nat -> Q)
    (cbs : gmap nat Detection.EnhancedInstanceCallback) :
  (forall i cb, cbs !! i = Some cb -> (Detection.start_time cb < now i)%Q) ->
  cbs <> ∅ ->
  exists d,
    Detection.dashboard_pass now cbs = Py.Ok d /\
    map Detection.line_instance (Detection.per_instance d)
      = Detection.sorted_keys cbs /\
    (forall i cb, cbs !! i = Some cb ->
       exists ln, ln ∈ Detection.per_instance d /\
         Detection.line_instance ln = i /\
         Detection.line_frames ln = Detection.get_count cb /\
         Detection.line_average_fps ln
           = (inject_Z (Detection.get_count cb)
              / (now i - Detection.start_time cb))%Q) /\
    Detection.combined_fps d
      = fold_left Qplus
          (map Detection.line_average_fps (Detection.per_instance d)) 0%Q /\
    Detection.instances d = Z.of_nat (size cbs) /\
    Detection.efficiency d
      = (Detection.combined_fps d
         / inject_Z (Z.of_nat (size cbs) * 30) * 100)%Q.
Proof.
  intros Hrun Hne. rewrite dashboard_pass_closed. cbn zeta.
  eexists. split; [reflexivity|].
  cbn [Detection.per_instance Detection.combined_fps Detection.instances
       Detection.efficiency].
  split; [apply rows_instances; intros i; apply sorted_keys_elem|].
  split; [|split; [reflexivity|split; [reflexivity|]]].
  - intros i cb Hi. exists (Board.line_of now i cb).
    split; [|split; [reflexivity|split; [reflexivity|]]].
    + unfold Board.rows. apply list_elem_of_omap. exists i.
      split; [apply sorted_keys_elem; eauto | now rewrite Hi].
    + cbn [Board.line_of Detection.line_average_fps].
      unfold Board.average_fps.
      replace (Py.gt _ 0) with true; [reflexivity|].
      symmetry. apply gt_true.
      apply (proj1 (Qlt_minus_iff _ _)). now apply Hrun.
  - assert (size cbs <> 0) by (rewrite map_size_empty_iff; exact Hne).
    replace (0 <? Z.of_nat (size cbs))%Z with true
      by (symmetry; apply Z.ltb_lt; lia).
    reflexivity.
Qed.

Lemma dashboard_rates_witness :
  exists d,
    Detection.dashboard_pass (fun _ => 10%Q)
      (<[0 := Detection.set_frame_count 200 (Detection.init 0 0 0)]>
         (<[1 := Detection.set_frame_count 100 (Detection.init 1 5 5)]> ∅))
    = Py.Ok d /\
    (Detection.efficiency d == 200 # 3)%Q.
Proof.
  destruct (dashboard_rates (fun _ => 10%Q)
              (<[0 := Detection.set_frame_count 200 (Detection.init 0 0 0)]>
                 (<[1 := Detection.set_frame_count 100
                           (Detection.init 1 5 5)]> ∅)))
    as (d & Hd & _ & _ & Hsum & _ & Heff).
  - intros i cb H.
    apply lookup_insert_Some in H as [[<- <-]|[_ H]]; [reflexivity|].
    apply lookup_insert_Some in H as [[<- <-]|[_ H]]; [reflexivity|].
    rewrite lookup_empty in H. discriminate H.
  - apply insert_non_empty.
  - exists d. split; [exact Hd|].
    rewrite Heff, Hsum.
    assert (Hl : Detection.per_instance d
                 = Board.rows (fun _ => 10%Q)
                     (<[0 := Detection.set_frame_count 200
                               (Detection.init 0 0 0)]>
                        (<[1 := Detection.set_frame_count 100
                                  (Detection.init 1 5 5)]> ∅)) [0; 1]).
    { rewrite dashboard_pass_closed in Hd. injection Hd as <-.
      reflexivity. }
    rewrite Hl. reflexivity.
Defined.

(** C9.  One pass of the dashboard returns a summary, without raising,
    for every content of [instance_callbacks] and every clock: the empty
    dictionary, a dictionary with fewer workers than configured, workers
    whose start time is not in the past.  In particular the average of a
    worker is 0 when no time has passed since its start, each pass of the
    loop body returns normally, so does the pass over the dictionary of
    any [Memory], and the empty dictionary gives efficiency 0 (with no
    line and a combined rate of 0). *)
Theorem dashboard_never_raises (now : nat -> Q)
    (cbs : gmap nat Detection.EnhancedInstanceCallback) :
  (exists d, Detection.dashboard_pass now cbs = Py.Ok d) /\
  (forall i cb acc, cbs !! i = Some cb ->
     exists acc', Detection.dashboard_row now cbs acc i = Py.Ok acc') /\
  (forall i cb, (now i <= Detection.start_time cb)%Q ->
     Board.average_fps (now i) cb = 0%Q) /\
  (forall m, exists d,
     Detection.dashboard_pass now (Detection.snapshot m) = Py.Ok d) /\
  (exists d0,
     Detection.dashboard_pass now ∅ = Py.Ok d0 /\
     Detection.efficiency d0 = 0%Q /\
     Detection.combined_fps d0 = 0%Q /\
     Detection.instances d0 = 0%Z /\
     Detection.per_instance d0 = []).
Proof.
  split; [|split; [|split; [|split]]].
  - rewrite dashboard_pass_closed. eauto.
  - intros i cb acc Hi. rewrite (dashboard_row_closed now cbs acc i cb Hi).
    eauto.
  - intros i cb Hle. unfold Board.average_fps.
    replace (Py.gt _ 0) with false; [reflexivity|].
    symmetry. apply gt_false.
    apply (Qplus_le_l _ _ (Detection.start_time cb)).
    ring_simplify. exact Hle.
  - intros m. rewrite dashboard_pass_closed. eauto.
  - rewrite dashboard_pass_closed. cbn zeta.
    eexists. split; [reflexivity|].
    cbn [Detection.per_instance Detection.combined_fps Detection.instances
         Detection.efficiency].
    rewrite sorted_keys_empty, map_size_empty. now repeat split.
Qed.

(** ** Claim C3: the keep-alive loop of [main] *)

Lemma keep_alive_no_start (n : nat) (threads : list bool) (i : nat) :
  Detection.ThreadStart i ∉ Detection.keep_alive_pass n threads.
Proof.
  unfold Detection.keep_alive_pass.
  destruct (_ <? _)%Z; intros H;
    repeat (apply elem_of_cons in H as [H|H]; [discriminate H|]);
    now apply elem_of_nil in H.
Qed.

Lemma step_no_start (s : Detection.Supervisor) (e : Detection.Event)
    (i : nat) :
  Detection.ThreadStart i ∉ (Detection.step s e).2.
Proof.
  unfold Detection.step.
  destruct (Detection.main_running s); [|apply not_elem_of_nil].
  destruct e as [j o| |]; cbn [snd].
  - apply not_elem_of_nil.
  - apply keep_alive_no_start.
  - intros H.
    repeat (apply elem_of_cons in H as [H|H]; [discriminate H|]).
    now apply elem_of_nil in H.
Qed.

Lemma effects_no_start (es : list Detection.Event)
    (s : Detection.Supervisor) (i : nat) :
  Detection.ThreadStart i ∉ Detection.effects_of s es.
Proof.
  revert s. induction es as [|e es IH]; intros s.
  - apply not_elem_of_nil.
  - cbn [Detection.effects_of]. rewrite not_elem_of_app.
    split; [apply step_no_start | apply IH].
Qed.

Lemma step_dead_stays_dead (s : Detection.Supervisor) (e : Detection.Event)
    (i : nat) :
  Detection.threads s !! i = Some false ->
  Detection.threads (Detection.step s e).1 !! i = Some false.
Proof.
  intros H. unfold Detection.step.
  destruct (Detection.main_running s); [|exact H].
  destruct e as [j o| |]; cbn [fst Detection.threads]; try exact H.
  destruct (decide (j = i)) as [->|Hne].
  - apply list_lookup_insert_eq. now apply lookup_lt_Some in H.
  - now rewrite list_lookup_insert_ne.
Qed.

Lemma run_events_dead_stays_dead (es : list Detection.Event)
    (s : Detection.Supervisor) (i : nat) :
  Detection.threads s !! i = Some false ->
  Detection.threads (Detection.run_events s es) !! i = Some false.
Proof.
  revert s. induction es as [|e es IH]; intros s H; [exact H|].
  apply IH. now apply step_dead_stays_dead.
Qed.

(** C3, the statement falsified.  With the thread of worker 0 dead and
    the other three alive, one pass of the loop of [main] sleeps one
    second and prints that 3 of 4 instances are running; it starts no
    thread, and the thread of worker 0 is still dead after it. *)
Lemma keep_alive_does_not_restart :
  let s := {| Detection.threads := [false; true; true; true];
              Detection.main_running := true |} in
  Detection.step s Detection.LoopPass
    = (s, [Detection.Sleep 1;
           Detection.Emit (Detection.OnlyRunning 3 4)]) /\
  (Detection.ThreadStart 0 ∉ (Detection.step s Detection.LoopPass).2) /\
  Detection.threads (Detection.step s Detection.LoopPass).1 !! 0
    = Some false.
Proof.
  split; [reflexivity|]. split; [apply step_no_start | reflexivity].
Qed.

(** C3, amended.  A pass of the loop of [main] leaves the supervisor as
    it is: it sleeps one second and prints a warning exactly when fewer
    threads are alive than were started.  Neither it nor any other event
    starts a thread, whatever the sequence of events; there is no restart
    count; and a worker whose thread has ended stays ended whatever
    happens afterwards. *)
Theorem keep_alive_only_warns (s : Detection.Supervisor) :
  (Detection.step s Detection.LoopPass).1 = s /\
  (Detection.step s Detection.LoopPass).2
    = (if Detection.main_running s then
         let alive := Py.len (filter (fun t => t = true)
                                (Detection.threads s)) in
         Detection.Sleep 1 ::
         (if (alive <? Z.of_nat (length (Detection.threads s)))%Z
          then [Detection.Emit
                  (Detection.OnlyRunning alive
                     (Z.of_nat (length (Detection.threads s))))]
          else [])
       else []) /\
  (forall es i, Detection.ThreadStart i ∉ Detection.effects_of s es) /\
  (forall k, Detection.run_events s (replicate k Detection.LoopPass) = s) /\
  (forall es i, Detection.threads s !! i = Some false ->
     Detection.threads (Detection.run_events s es) !! i = Some false).
Proof.
  split; [|split; [|split; [|split]]].
  - unfold Detection.step. now destruct (Detection.main_running s).
  - unfold Detection.step. now destruct (Detection.main_running s).
  - intros es i. apply effects_no_start.
  - intros k. induction k as [|k IH]; [reflexivity|].
    cbn [replicate Detection.run_events fold_left].
    replace (Detection.step s Detection.LoopPass).1 with s; [exact IH|].
    unfold Detection.step. now destruct (Detection.main_running s).
  - intros es i. apply run_events_dead_stays_dead.
Qed.

(** ** Claim C7: a failing worker does not take the others down *)


Lemma yolo11l_stopped_stays (es : list Yolo11l.Event)
    (s : Yolo11l.Supervisor) :
  Yolo11l.main_running s = false -> Yolo11l.run_events s es = s.
Proof.
  intros Hs. induction es as [|e es IH]; [reflexivity|].
  cbn [Yolo11l.run_events fold_left].
  replace (Yolo11l.step s e) with s; [exact IH|].
  unfold Yolo11l.step. now rewrite Hs.
Qed.






(** ** [str.replace]: what it leaves, keeps and introduces *)

Section Replace.

Open Scope string_scope.

Lemma app_cons (a : ascii) (s t : string) :
  String a s +:+ t = String a (s +:+ t).
Proof. reflexivity. Qed.

Lemma app_nil (t : string) : "" +:+ t = t.
Proof. reflexivity. Qed.

Lemma startswith_cons (a b : ascii) (p s : string) :
  PyStr.startswith (String a p) (String b s)
  = Ascii.eqb a b && PyStr.startswith p s.
Proof.
  unfold PyStr.startswith. simpl. now destruct (Ascii.eqb a b).
Qed.

Lemma strip_prefix_Some (p s r : string) :
  PyStr.strip_prefix p s = Some r -> s = p +:+ r.
Proof.
  revert s. induction p as [|a p IH]; intros s H; simpl in H.
  - now injection H as ->.
  - destruct s as [|b s]; [discriminate H|].
    destruct (Ascii.eqb a b) eqn:E; [|discriminate H].
    apply Ascii.eqb_eq in E as ->. rewrite app_cons. f_equal. now apply IH.
Qed.

Lemma strip_prefix_length (p s r : string) :
  PyStr.strip_prefix p s = Some r ->
  String.length s = String.length p + String.length r.
Proof.
  intros H. apply strip_prefix_Some in H as ->.
  induction p as [|a p IH]; [reflexivity|].
  rewrite app_cons. simpl. now rewrite IH.
Qed.

Lemma startswith_app_self (p t : string) :
  PyStr.startswith p (p +:+ t) = true.
Proof.
  induction p as [|a p IH]; [reflexivity|].
  rewrite app_cons, startswith_cons, Ascii.eqb_refl. exact IH.
Qed.

Lemma contains_startswith (p s : string) :
  PyStr.startswith p s = true -> PyStr.contains p s = true.
Proof. intros H. destruct s; simpl; now rewrite H. Qed.

Lemma contains_cons (p : string) (c : ascii) (s : string) :
  PyStr.contains p (String c s)
  = PyStr.startswith p (String c s) || PyStr.contains p s.
Proof. reflexivity. Qed.

Lemma contains_app_r (p x t : string) :
  PyStr.contains p t = true -> PyStr.contains p (x +:+ t) = true.
Proof.
  intros H. induction x as [|c x IH]; [exact H|].
  rewrite app_cons. rewrite contains_cons, IH. apply orb_true_r.
Qed.

Lemma startswith_app_compatible (p x t : string) :
  PyStr.startswith p (x +:+ t) = true -> PyStr.compatible p x = true.
Proof.
  revert x. induction p as [|a p IH]; intros x H; [reflexivity|].
  destruct x as [|b x]; [reflexivity|].
  rewrite app_cons in H. rewrite startswith_cons in H.
  apply andb_true_iff in H as [H1 H2].
  simpl. rewrite H1. now apply IH.
Qed.

Lemma contains_app_no_overlap (p x t : string) :
  PyStr.no_overlap p x = true -> PyStr.contains p t = false ->
  PyStr.contains p (x +:+ t) = false.
Proof.
  intros Hx Ht. induction x as [|c x IH]; [exact Ht|].
  simpl in Hx. apply andb_true_iff in Hx as [Hc Hx].
  rewrite app_cons. rewrite contains_cons, (IH Hx), orb_false_r.
  apply not_true_iff_false. intros H.
  apply (startswith_app_compatible p (String c x) t) in H.
  rewrite H in Hc. discriminate Hc.
Qed.

Lemma contains_skip (q0 : ascii) (q x t : string) :
  PyStr.has_char q0 x = false ->
  PyStr.contains (String q0 q) (x +:+ t) = true ->
  PyStr.contains (String q0 q) t = true.
Proof.
  intros Hx H. induction x as [|c x IH]; [exact H|].
  simpl in Hx. apply orb_false_iff in Hx as [Hc Hx].
  rewrite app_cons in H. rewrite contains_cons, startswith_cons in H.
  rewrite Hc in H. simpl in H. now apply IH.
Qed.

Variables old' new : string.
Variable p0 : ascii.
Let old := String p0 old'.

(** A prefix free of the first character of [new] was copied from the
    input. *)
Lemma scan_prefix_copied (r0 : ascii) (new' : string) :
  new = String r0 new' ->
  forall fuel s q,
    PyStr.has_char r0 q = false ->
    PyStr.startswith q (PyStr.replace_scan fuel old new s) = true ->
    PyStr.startswith q s = true.
Proof.
  intros Hnew. induction fuel as [|fuel IH]; intros s q Hq H; [exact H|].
  destruct q as [|a q]; [reflexivity|].
  simpl in Hq. apply orb_false_iff in Hq as [Ha Hq].
  cbn [PyStr.replace_scan] in H.
  destruct (PyStr.strip_prefix old s) as [rest|].
  - rewrite Hnew, app_cons, startswith_cons in H.
    rewrite Ascii.eqb_sym, Ha in H. discriminate H.
  - destruct s as [|c s]; [exact H|].
    rewrite startswith_cons in *.
    apply andb_true_iff in H as [H1 H2]. rewrite H1. simpl.
    now apply (IH s q).
Qed.

(** No occurrence of [old] is left, provided [new] cannot take part in
    one. *)
Lemma scan_leaves_none (r0 : ascii) (new' : string) :
  new = String r0 new' ->
  PyStr.has_char r0 old' = false ->
  PyStr.no_overlap old new = true ->
  forall fuel s,
    String.length s <= fuel ->
    PyStr.contains old (PyStr.replace_scan fuel old new s) = false.
Proof.
  intros Hnew Hr Hov. induction fuel as [|fuel IH]; intros s Hlen.
  - destruct s; [reflexivity | simpl in Hlen; lia].
  - cbn [PyStr.replace_scan].
    destruct (PyStr.strip_prefix old s) as [rest|] eqn:E.
    + apply contains_app_no_overlap; [exact Hov|].
      apply IH. apply strip_prefix_length in E. simpl in E. lia.
    + destruct s as [|c s]; [reflexivity|].
      rewrite contains_cons, IH by (simpl in Hlen; lia).
      rewrite orb_false_r. apply not_true_iff_false. intros H.
      unfold old in H. rewrite startswith_cons in H.
      apply andb_true_iff in H as [H1 H2].
      apply (scan_prefix_copied r0 new' Hnew) in H2; [|exact Hr].
      assert (Hs : PyStr.startswith old (String c s) = true)
        by (unfold old; rewrite startswith_cons, H1, H2; reflexivity).
      unfold PyStr.startswith in Hs. rewrite E in Hs. discriminate Hs.
Qed.

(** Every replaced occurrence brings [new] in. *)
Lemma scan_introduces_new :
  forall fuel s,
    String.length s <= fuel ->
    PyStr.contains old s = true ->
    PyStr.contains new (PyStr.replace_scan fuel old new s) = true.
Proof.
  induction fuel as [|fuel IH]; intros s Hlen H.
  - destruct s; [discriminate H | simpl in Hlen; lia].
  - cbn [PyStr.replace_scan].
    destruct (PyStr.strip_prefix old s) as [rest|] eqn:E.
    + apply contains_startswith, startswith_app_self.
    + destruct s as [|c s]; [discriminate H|].
      rewrite contains_cons in H. unfold PyStr.startswith in H at 1.
      rewrite E in H. simpl in H.
      rewrite contains_cons, IH; [apply orb_true_r | | exact H].
      simpl in Hlen. lia.
Qed.

(** An occurrence of [q] survives when it cannot overlap one of [old]. *)
Lemma scan_keeps_prefix (q : string) :
  PyStr.has_char p0 q = false ->
  forall fuel s,
    String.length s <= fuel ->
    PyStr.startswith q s = true ->
    PyStr.startswith q (PyStr.replace_scan fuel old new s) = true.
Proof.
  induction q as [|a q IH]; intros Hq fuel s Hlen H; [reflexivity|].
  simpl in Hq. apply orb_false_iff in Hq as [Ha Hq].
  destruct s as [|c s]; [discriminate H|].
  rewrite startswith_cons in H. apply andb_true_iff in H as [H1 H2].
  destruct fuel as [|fuel]; [simpl in Hlen; lia|].
  cbn [PyStr.replace_scan]. unfold old. cbn [PyStr.strip_prefix].
  apply Ascii.eqb_eq in H1 as <-. rewrite Ha.
  rewrite startswith_cons, Ascii.eqb_refl. simpl.
  apply IH; [exact Hq | simpl in Hlen; lia | exact H2].
Qed.

Lemma scan_keeps (q0 : ascii) (q' : string) :
  PyStr.has_char q0 old' = false ->
  PyStr.has_char p0 (String q0 q') = false ->
  forall fuel s,
    String.length s <= fuel ->
    PyStr.contains (String q0 q') s = true ->
    PyStr.contains (String q0 q') (PyStr.replace_scan fuel old new s) = true.
Proof.
  intros Hq0 Hp0. induction fuel as [|fuel IH]; intros s Hlen H.
  - destruct s; [discriminate H | simpl in Hlen; lia].
  - destruct (PyStr.startswith (String q0 q') s) eqn:Hst.
    + apply contains_startswith. now apply scan_keeps_prefix.
    + destruct s as [|c s]; [discriminate H|].
      rewrite contains_cons, Hst in H. simpl in H.
      cbn [PyStr.replace_scan].
      destruct (PyStr.strip_prefix old (String c s)) as [rest|] eqn:E.
      * apply contains_app_r. apply IH.
        -- apply strip_prefix_length in E. simpl in E. simpl in Hlen. lia.
        -- apply strip_prefix_Some in E. unfold old in E.
           rewrite app_cons in E. injection E as _ ->.
           now apply (contains_skip q0 q' old' rest).
      * rewrite contains_cons, IH; [apply orb_true_r | | exact H].
        simpl in Hlen. lia.
Qed.

End Replace.

(** ** Decimal rendering of instance numbers *)

Lemma pretty_N_char_digit (x : N) :
  match Ascii.is_nat (pretty_N_char x) with Some _ => true | None => false end
  = true.
Proof. unfold pretty_N_char. now repeat case_match. Qed.

Lemma pretty_N_go_digits (x : N) (s : string) :
  PyStr.all_digits s = true -> PyStr.all_digits (pretty_N_go x s) = true.
Proof.
  revert s. induction (N.lt_wf_0 x) as [x _ IH]; intros s Hs.
  assert (x = 0 \/ 0 < x)%N as [->|Hx] by lia.
  - now rewrite pretty_N_go_0.
  - rewrite pretty_N_go_step by exact Hx. apply IH.
    + now apply N.div_lt.
    + cbn [PyStr.all_digits]. now rewrite pretty_N_char_digit, Hs.
Qed.

Lemma pretty_nat_digits (n : nat) : PyStr.all_digits (pretty n) = true.
Proof.
  unfold pretty, pretty_nat, pretty, pretty_N.
  case_decide; [reflexivity|]. now apply pretty_N_go_digits.
Qed.

Lemma has_char_app (c : ascii) (x y : string) :
  PyStr.has_char c (x +:+ y) = PyStr.has_char c x || PyStr.has_char c y.
Proof.
  induction x as [|a x IH]; [reflexivity|].
  rewrite app_cons. simpl. now rewrite IH, orb_assoc.
Qed.

Lemma has_char_digits (c : ascii) (s : string) :
  Ascii.is_nat c = None -> PyStr.all_digits s = true ->
  PyStr.has_char c s = false.
Proof.
  intros Hc. induction s as [|a s IH]; intros Hs; [reflexivity|].
  simpl in Hs. apply andb_true_iff in Hs as [Ha Hs].
  simpl. rewrite (IH Hs), orb_false_r.
  apply Ascii.eqb_neq. intros ->. rewrite Hc in Ha. discriminate Ha.
Qed.

Lemma append_inj_l (p x y : string) : p +:+ x = p +:+ y -> x = y.
Proof.
  induction p as [|a p IH]; intros H; [exact H|].
  rewrite !app_cons in H. injection H as H. now apply IH.
Qed.

Lemma append_char_inj (c : ascii) (x y : string) :
  x +:+ String c "" = y +:+ String c "" -> x = y.
Proof.
  revert y. induction x as [|a x IH]; intros [|b y] H.
  - reflexivity.
  - rewrite app_cons, app_nil in H. injection H as <- H.
    destruct y; discriminate H.
  - rewrite app_cons, app_nil in H. injection H as -> H.
    destruct x; discriminate H.
  - rewrite !app_cons in H. injection H as -> H. f_equal. now apply IH.
Qed.

(** ** The pipeline string of [multi_instance_detection.py] *)

Lemma replace_hailonet_keeps_display (base new : string) :
  PyStr.contains "fpsdisplaysink" base = true ->
  PyStr.contains "fpsdisplaysink" (PyStr.replace base "hailonet " new) = true.
Proof.
  intros H. unfold PyStr.replace.
  now apply (scan_keeps "ailonet " new "h" "f" "psdisplaysink").
Qed.

Lemma replace_display_leaves_none (s : string) :
  PyStr.contains "fpsdisplaysink"
    (PyStr.replace s "fpsdisplaysink" "fakesink sync=false") = false.
Proof.
  unfold PyStr.replace.
  now apply (scan_leaves_none "psdisplaysink" "fakesink sync=false" "f"
               "f" "akesink sync=false").
Qed.

Lemma replace_display_introduces_fakesink (s : string) :
  PyStr.contains "fpsdisplaysink" s = true ->
  PyStr.contains "fakesink sync=false"
    (PyStr.replace s "fpsdisplaysink" "fakesink sync=false") = true.
Proof.
  intros H. unfold PyStr.replace.
  now apply (scan_introduces_new "psdisplaysink" "fakesink sync=false" "f").
Qed.

Lemma hailonet_element_no_f (self : Detection.YOLOv11lDetectionApp) :
  PyStr.has_char "f" (Detection.hailonet_element self) = false.
Proof.
  unfold Detection.hailonet_element.
  rewrite !has_char_app.
  rewrite (has_char_digits "f" _ eq_refl (pretty_nat_digits _)).
  reflexivity.
Qed.

Lemma detection_pipeline_group (self : Detection.YOLOv11lDetectionApp)
    (base : string) :
  PyStr.contains "hailonet " base = true ->
  PyStr.contains (Detection.hailonet_element self)
    (Detection.get_pipeline_string self base) = true.
Proof.
  intros H. unfold Detection.get_pipeline_string.
  assert (Hm : PyStr.contains (Detection.hailonet_element self)
                 (PyStr.replace base "hailonet "
                    (Detection.hailonet_element self)) = true).
  { unfold PyStr.replace.
    now apply (scan_introduces_new "ailonet " _ "h"). }
  destruct (0 <? Detection.app_instance_id self); [|exact Hm].
  pose proof (hailonet_element_no_f self) as Hf.
  revert Hm Hf.
  change (Detection.hailonet_element self)
    with (String "h" ("ailonet vdevice-group-id="
                      +:+ pretty (Detection.vdevice_group_id self) +:+ " ")).
  intros Hm Hf. unfold PyStr.replace at 1.
  now apply (scan_keeps "psdisplaysink" "fakesink sync=false" "f" "h").
Qed.

Lemma hailonet_element_inj (a b : Detection.YOLOv11lDetectionApp) :
  Detection.hailonet_element a = Detection.hailonet_element b ->
  Detection.app_instance_id a = Detection.app_instance_id b.
Proof.
  unfold Detection.hailonet_element, Detection.vdevice_group_id. intros H.
  apply append_inj_l, append_char_inj in H.
  apply (inj pretty) in H. lia.
Qed.

(** ** Claims C2 and C8: partitions and display of the launched workers *)

Lemma detection_launched_seq (n : nat) : Detection.launched n = seq 0 n.
Proof.
  unfold Detection.launched, Detection.launch.
  generalize (seq 0 n). intros l.
  induction l as [|i l IH]; [reflexivity|].
  cbn [flat_map app omap list_omap]. now rewrite IH.
Qed.

Lemma map_succ_seq (f : nat -> nat) (n : nat) :
  (forall i, f i = i + 1) -> map f (seq 0 n) = seq 1 n.
Proof.
  intros Hf. rewrite <- seq_shift. apply map_ext. intros i.
  rewrite Hf. lia.
Qed.

Lemma seq_partition_facts (n max_partitions : nat) :
  n <= max_partitions ->
  (forall i, i < n -> seq 1 n !! i = Some (i + 1)) /\
  length (seq 1 n) = n /\
  NoDup (seq 1 n) /\
  size (list_to_set (seq 1 n) : gset nat) = n /\
  (list_to_set (seq 1 n) : gset nat) ⊆ set_seq 1 max_partitions.
Proof.
  intros Hn. repeat apply conj.
  - intros i Hi. rewrite lookup_seq_lt by exact Hi. f_equal. lia.
  - apply length_seq.
  - apply NoDup_seq.
  - rewrite size_list_to_set by apply NoDup_seq. apply length_seq.
  - intros x. rewrite elem_of_list_to_set, elem_of_seq, elem_of_set_seq. lia.
Qed.

(** C2.  Let [n] workers be launched, [n] not exceeding the number of
    partitions.  In each of the three scripts the worker of index [i] is
    given vdevice group [i + 1]: the groups, in launch order, are
    [1, ..., n], so they are [n] distinct numbers of
    [{1 .. max_partitions}].  In [multi_instance_detection.py], where the
    group is written into the pipeline string, the string of a worker
    whose base pipeline has a [hailonet] element contains
    [hailonet vdevice-group-id=<i + 1>], and this text differs between
    workers of different index. *)
Theorem partitions_distinct (n max_partitions : nat)
    (dapp : nat -> Detection.YOLOv11lDetectionApp)
    (yapp : nat -> Yolo11l.MultiInstanceDetectionApp)
    (old : DetectionOld.MultiInstanceHailoApp) :
  n <= max_partitions ->
  (forall i, Detection.app_instance_id (dapp i) = i) ->
  (forall i, Yolo11l.app_instance_id (yapp i) = i) ->
  DetectionOld.num_instances old = n ->
  let d_ids := map (fun i => Detection.vdevice_group_id (dapp i))
                 (Detection.launched n) in
  let y_ids := map (fun i => Hailo.vdevice_group_id
                               (Yolo11l.inference_pipeline
                                  (Yolo11l.pipeline_parts (yapp i))))
                 (Yolo11l.launched n) in
  let o_ids := map (fun b => Hailo.vdevice_group_id
                               (DetectionOld.inference_pipeline b))
                 (DetectionOld.branches old) in
  (forall ids, ids = d_ids \/ ids = y_ids \/ ids = o_ids ->
     (forall i, i < n -> ids !! i = Some (i + 1)) /\
     length ids = n /\
     NoDup ids /\
     size (list_to_set ids : gset nat) = n /\
     (list_to_set ids : gset nat) ⊆ set_seq 1 max_partitions)
  /\
  (forall i base, PyStr.contains "hailonet " base = true ->
     PyStr.contains
       ("hailonet vdevice-group-id=" +:+ pretty (i + 1) +:+ " ")
       (Detection.get_pipeline_string (dapp i) base) = true)
  /\
  (forall i j,
     Detection.hailonet_element (dapp i) = Detection.hailonet_element (dapp j)
     -> i = j).
Proof.
  intros Hn Hd Hy Ho d_ids y_ids o_ids.
  assert (Ed : d_ids = seq 1 n).
  { unfold d_ids. rewrite detection_launched_seq. apply map_succ_seq.
    intros i. unfold Detection.vdevice_group_id. now rewrite Hd. }
  assert (Ey : y_ids = seq 1 n).
  { unfold y_ids, Yolo11l.launched. apply map_succ_seq.
    intros i. cbn. now rewrite Hy. }
  assert (Eo : o_ids = seq 1 n).
  { unfold o_ids, DetectionOld.branches. rewrite Ho, map_map.
    now apply map_succ_seq. }
  repeat apply conj.
  - intros ids [-> | [-> | ->]]; rewrite ?Ed, ?Ey, ?Eo;
      now apply seq_partition_facts.
  - intros i base Hb.
    pose proof (detection_pipeline_group (dapp i) base Hb) as H.
    unfold Detection.hailonet_element, Detection.vdevice_group_id in H.
    now rewrite Hd in H.
  - intros i j H. apply hailonet_element_inj in H. now rewrite !Hd in H.
Qed.

Lemma partitions_distinct_witness :
  map (fun i => i + 1) (Detection.launched Detection.num_instances)
    = [1; 2; 3; 4] /\
  NoDup (map (fun i => i + 1) (Detection.launched Detection.num_instances)).
Proof.
  pose (dapp := fun i =>
          {| Detection.app_instance_id := i; Detection.user_data := i;
             Detection.hef_path := Detection.yolo11_path;
             Detection.batch_size := 1;
             Detection.thresholds_str := "" |}).
  pose (yapp := fun i =>
          {| Yolo11l.app_instance_id := i; Yolo11l.total_instances := 4;
             Yolo11l.video_width := 640; Yolo11l.video_height := 640;
             Yolo11l.batch_size := 1;
             Yolo11l.hef_path := Detection.yolo11_path;
             Yolo11l.arch := "hailo8";
             Yolo11l.video_source := "/dev/video0";
             Yolo11l.post_process_so := None;
             Yolo11l.post_function_name := "filter";
             Yolo11l.labels_json := None;
             Yolo11l.thresholds_str := "";
             Yolo11l.frame_rate := 30; Yolo11l.sync := true;
             Yolo11l.video_sink := "autovideosink";
             Yolo11l.show_fps := true |}).
  pose (old := {| DetectionOld.num_instances := 4;
                  DetectionOld.hef_path := Detection.yolo11_path;
                  DetectionOld.post_process_so := None;
                  DetectionOld.post_function_name := "filter";
                  DetectionOld.batch_size := 1;
                  DetectionOld.video_width := 640;
                  DetectionOld.video_height := 640;
                  DetectionOld.frame_rate := 30;
                  DetectionOld.thresholds_str := "";
                  DetectionOld.video_source := "/dev/video0" |}).
  destruct (partitions_distinct 4 4 dapp yapp old)
    as [Hids _]; [lia | reflexivity | reflexivity | reflexivity |].
  split; [reflexivity|].
  apply (Hids (map (fun i => Detection.vdevice_group_id (dapp i))
                 (Detection.launched 4))).
  now left.
Defined.

Lemma filter_none_from (f : nat -> bool) (start k : nat) :
  (forall i, 0 < i -> f i = false) -> 0 < start ->
  filter (fun i => f i = true) (seq start k) = [].
Proof.
  intros Hf. revert start. induction k as [|k IH]; intros start Hs.
  - reflexivity.
  - cbn [seq]. rewrite filter_cons_False by (rewrite Hf by lia; discriminate).
    apply IH. lia.
Qed.

Lemma filter_only_zero (f : nat -> bool) (n : nat) :
  f 0 = true -> (forall i, 0 < i -> f i = false) -> 0 < n ->
  filter (fun i => f i = true) (seq 0 n) = [0].
Proof.
  intros H0 Hf Hn. destruct n as [|n]; [lia|].
  cbn [seq]. rewrite filter_cons_True by exact H0.
  f_equal. apply filter_none_from; [exact Hf | lia].
Qed.

Lemma map_only_zero {A} (g : nat -> A) (f : A -> bool) (n : nat) :
  f (g 0) = true -> (forall i, 0 < i -> f (g i) = false) ->
  map f (map g (seq 0 (S n))) = true :: replicate n false.
Proof.
  intros H0 Hf. cbn [seq map]. rewrite H0. f_equal.
  rewrite <- seq_shift, !map_map.
  replace (replicate n false) with (replicate (length (seq 0 n)) false)
    by (now rewrite length_seq).
  induction (seq 0 n) as [|i l IH]; [reflexivity|].
  cbn [map length replicate]. rewrite Hf by lia. now rewrite IH.
Qed.

(** C8.  Let [n >= 1] workers be launched.  In
    [multi_instance_detection.py], on a base pipeline that shows video,
    the pipeline string of worker 0 still has the display sink, whereas
    for every worker of index above 0 no display sink is left and
    [fakesink sync=false] stands in its place: worker 0 is the only one
    that shows video.  In [multi_instance_yolo11l.py] and
    [multi_instance_detection_old.py] the pipeline of worker 0 ends in
    [DISPLAY_PIPELINE] and that of every other worker in a queue followed
    by [fakesink]. *)
Theorem only_instance_zero_displays (n : nat)
    (dapp : nat -> Detection.YOLOv11lDetectionApp)
    (yapp : nat -> Yolo11l.MultiInstanceDetectionApp)
    (old : DetectionOld.MultiInstanceHailoApp) (base : string) :
  0 < n ->
  (forall i, Detection.app_instance_id (dapp i) = i) ->
  (forall i, Yolo11l.app_instance_id (yapp i) = i) ->
  DetectionOld.num_instances old = n ->
  Detection.shows_video base = true ->
  filter (fun i => Detection.shows_video
                     (Detection.get_pipeline_string (dapp i) base) = true)
    (Detection.launched n) = [0]
  /\
  (forall i, 0 < i ->
     Detection.shows_video (Detection.get_pipeline_string (dapp i) base)
       = false /\
     PyStr.contains "fakesink sync=false"
       (Detection.get_pipeline_string (dapp i) base) = true)
  /\
  filter (fun i => Hailo.displays
                     (Yolo11l.display_pipeline
                        (Yolo11l.pipeline_parts (yapp i))) = true)
    (Yolo11l.launched n) = [0]
  /\
  (forall i, 0 < i ->
     Yolo11l.display_pipeline (Yolo11l.pipeline_parts (yapp i))
     = Hailo.QUEUE_fakesink ("sink_queue_" +:+ pretty i))
  /\
  map (fun b => Hailo.displays (DetectionOld.display_pipeline b))
    (DetectionOld.branches old) = true :: replicate (n - 1) false
  /\
  (forall i, 0 < i ->
     DetectionOld.display_pipeline (DetectionOld.branch old i)
     = Hailo.QUEUE_fakesink ("sink_queue_" +:+ pretty i)).
Proof.
  intros Hn Hd Hy Ho Hbase.
  assert (H0 : Detection.shows_video
                 (Detection.get_pipeline_string (dapp 0) base) = true).
  { unfold Detection.get_pipeline_string. rewrite Hd. cbn [Nat.ltb Nat.leb].
    now apply replace_hailonet_keeps_display. }
  assert (Hpos : forall i, 0 < i ->
            Detection.shows_video
              (Detection.get_pipeline_string (dapp i) base) = false /\
            PyStr.contains "fakesink sync=false"
              (Detection.get_pipeline_string (dapp i) base) = true).
  { intros i Hi. unfold Detection.get_pipeline_string. rewrite Hd.
    replace (0 <? i) with true by (symmetry; now apply Nat.ltb_lt).
    split; [apply replace_display_leaves_none|].
    apply replace_display_introduces_fakesink.
    now apply replace_hailonet_keeps_display. }
  assert (Hyq : forall i, 0 < i ->
            Yolo11l.display_pipeline (Yolo11l.pipeline_parts (yapp i))
            = Hailo.QUEUE_fakesink ("sink_queue_" +:+ pretty i)).
  { intros i Hi. unfold Yolo11l.pipeline_parts.
    cbn [Yolo11l.display_pipeline]. rewrite Hy.
    now replace (i =? 0) with false by (symmetry; apply Nat.eqb_neq; lia). }
  assert (Hoq : forall i, 0 < i ->
            DetectionOld.display_pipeline (DetectionOld.branch old i)
            = Hailo.QUEUE_fakesink ("sink_queue_" +:+ pretty i)).
  { intros i Hi. unfold DetectionOld.branch.
    cbn [DetectionOld.display_pipeline].
    now replace (i =? 0) with false by (symmetry; apply Nat.eqb_neq; lia). }
  repeat apply conj.
  - rewrite detection_launched_seq.
    apply (filter_only_zero
             (fun i => Detection.shows_video
                         (Detection.get_pipeline_string (dapp i) base)));
      [exact H0 | intros i Hi; now apply Hpos | exact Hn].
  - exact Hpos.
  - unfold Yolo11l.launched.
    apply (filter_only_zero
             (fun i => Hailo.displays
                         (Yolo11l.display_pipeline
                            (Yolo11l.pipeline_parts (yapp i)))));
      [| intros i Hi; now rewrite Hyq | exact Hn].
    unfold Yolo11l.pipeline_parts. cbn [Yolo11l.display_pipeline].
    now rewrite Hy.
  - exact Hyq.
  - unfold DetectionOld.branches. rewrite Ho.
    destruct n as [|n]; [lia|].
    replace (S n - 1) with n by lia.
    apply (map_only_zero (DetectionOld.branch old)
             (fun b => Hailo.displays (DetectionOld.display_pipeline b)));
      [reflexivity | intros i Hi; now rewrite Hoq].
  - exact Hoq.
Qed.

Lemma only_instance_zero_displays_witness :
  let base := "v4l2src ! hailonet hef-path=m.hef ! fpsdisplaysink name=d" in
  let dapp := fun i =>
    {| Detection.app_instance_id := i; Detection.user_data := i;
       Detection.hef_path := Detection.yolo11_path;
       Detection.batch_size := 1;
       Detection.thresholds_str := "" |} in
  filter (fun i => Detection.shows_video
                     (Detection.get_pipeline_string (dapp i) base) = true)
    (Detection.launched Detection.num_instances) = [0] /\
  Detection.get_pipeline_string (dapp 2) base
  = "v4l2src ! hailonet vdevice-group-id=3 hef-path=m.hef ! "
    +:+ "fakesink sync=false name=d".
Proof.
  intros base dapp.
  pose (yapp := fun i =>
          {| Yolo11l.app_instance_id := i; Yolo11l.total_instances := 4;
             Yolo11l.video_width := 640; Yolo11l.video_height := 640;
             Yolo11l.batch_size := 1;
             Yolo11l.hef_path := Detection.yolo11_path;
             Yolo11l.arch := "hailo8";
             Yolo11l.video_source := "/dev/video0";
             Yolo11l.post_process_so := None;
             Yolo11l.post_function_name := "filter";
             Yolo11l.labels_json := None;
             Yolo11l.thresholds_str := "";
             Yolo11l.frame_rate := 30; Yolo11l.sync := true;
             Yolo11l.video_sink := "autovideosink";
             Yolo11l.show_fps := true |}).
  pose (old := {| DetectionOld.num_instances := 4;
                  DetectionOld.hef_path := Detection.yolo11_path;
                  DetectionOld.post_process_so := None;
                  DetectionOld.post_function_name := "filter";
                  DetectionOld.batch_size := 1;
                  DetectionOld.video_width := 640;
                  DetectionOld.video_height := 640;
                  DetectionOld.frame_rate := 30;
                  DetectionOld.thresholds_str := "";
                  DetectionOld.video_source := "/dev/video0" |}).
  split; [|reflexivity].
  apply (only_instance_zero_displays 4 dapp yapp old base);
    [lia | reflexivity | reflexivity | reflexivity | reflexivity].
Defined.

(** ** Worked examples *)

(** Readings that go back in time: the window [0; 1; 0] has span 0, and
    [calculate_fps] keeps the rate computed from [0; 1]. *)
Example rate_kept_on_zero_span :
  exists s,
    detection_records [0; 1; 0]%Q (Detection.init 0 0 0) = Py.Ok s /\
    Detection.frame_times s = [0; 1; 0]%Q /\
    (Detection.current_fps s == 1)%Q.
Proof. eexists. split; [reflexivity|]. split; reflexivity. Qed.

(** The thirtieth call of the batch estimator: thirty frames in three
    seconds. *)
Example batch_rate_after_thirty :
  exists s,
    yolo11l_records (map (fun k => inject_Z (Z.of_nat k) / 10)%Q (seq 1 30))
      (Yolo11l.init 0 0 0) = Py.Ok s /\
    (Yolo11l.current_fps s == 10)%Q /\
    Yolo11l.fps_frame_count s = 0%Z.
Proof. eexists. split; [vm_compute; reflexivity|]. split; reflexivity. Qed.

Example replace_all_occurrences :
  PyStr.replace "a hailonet b hailonet c" "hailonet " "hailonet x=1 "
  = "a hailonet x=1 b hailonet x=1 c".
Proof. reflexivity. Qed.

Example replace_non_overlapping : PyStr.replace "aaa" "aa" "b" = "ba".
Proof. reflexivity. Qed.

Example replace_empty_pattern : PyStr.replace "abc" "" "-" = "-a-b-c-".
Proof. reflexivity. Qed.

Example old_pipeline_branches :
  map (fun b => (Hailo.vdevice_group_id (DetectionOld.inference_pipeline b),
                 Hailo.displays (DetectionOld.display_pipeline b)))
    (DetectionOld.branches
       {| DetectionOld.num_instances := 4;
          DetectionOld.hef_path := Detection.yolo11_path;
          DetectionOld.post_process_so := None;
          DetectionOld.post_function_name := "filter";
          DetectionOld.batch_size := 1;
          DetectionOld.video_width := 640;
          DetectionOld.video_height := 640;
          DetectionOld.frame_rate := 30;
          DetectionOld.thresholds_str := "";
          DetectionOld.video_source := "/dev/video0" |})
  = [(1, true); (2, false); (3, false); (4, false)].
Proof. reflexivity. Qed.

Example launch_effects :
  Detection.launch 2
  = [Detection.ThreadStart 0; Detection.Sleep (1 # 2);
     Detection.ThreadStart 1; Detection.Sleep (1 # 2)].
Proof. reflexivity. Qed.

(** * Further properties of the scripts *)

(** ** The estimators on arbitrary readings *)

Lemma rate_nonneg (w : list Q) (previous : Q) :
  (0 <= previous)%Q -> (0 <= Window.rate w previous)%Q.
Proof.
  intros Hp. unfold Window.rate.
  destruct (2 <=? length w) eqn:E; [|exact Hp].
  destruct (Py.gt _ 0) eqn:G; [|exact Hp].
  apply Nat.leb_le in E. apply gt_true in G.
  apply Qlt_le_weak, Qlt_shift_div_l; [exact G|].
  rewrite Qmult_0_l. change 0%Q with (inject_Z 0). rewrite <- Zlt_Qlt. lia.
Qed.

Lemma rate_positive (w : list Q) (previous : Q) :
  (0 < previous)%Q -> (0 < Window.rate w previous)%Q.
Proof.
  intros Hp. unfold Window.rate.
  destruct (2 <=? length w) eqn:E; [|exact Hp].
  destruct (Py.gt _ 0) eqn:G; [|exact Hp].
  apply Nat.leb_le in E. apply gt_true in G.
  apply Qlt_shift_div_l; [exact G|].
  rewrite Qmult_0_l. change 0%Q with (inject_Z 0). rewrite <- Zlt_Qlt. lia.
Qed.

Lemma feed_sign (capacity : nat) (ts : list Q) (w : list Q) (r : Q) :
  ((0 <= r)%Q -> (0 <= (Window.feed capacity ts w r).2)%Q) /\
  ((0 < r)%Q -> (0 < (Window.feed capacity ts w r).2)%Q).
Proof.
  induction ts as [|t ts IH] using rev_ind.
  - split; intros H; exact H.
  - rewrite feed_snoc. cbn [snd]. destruct IH as [IH1 IH2]. split; intros H.
    + apply rate_nonneg. now apply IH1.
    + apply rate_positive. now apply IH2.
Qed.

Lemma feed_app (capacity : nat) (ts1 ts2 : list Q) (w : list Q) (r : Q) :
  Window.feed capacity (ts1 ++ ts2) w r =
  Window.feed capacity ts2 (Window.feed capacity ts1 w r).1
    (Window.feed capacity ts1 w r).2.
Proof.
  unfold Window.feed. rewrite fold_left_app.
  now destruct (fold_left _ ts1 (w, r)).
Qed.

Lemma yolo11l_records_sign (ts : list Q) (s : Yolo11l.MultiInstanceCallback) :
  exists s',
    yolo11l_records ts s = Py.Ok s' /\
    ((0 <= Yolo11l.current_fps s)%Q -> (0 <= Yolo11l.current_fps s')%Q) /\
    ((0 < Yolo11l.current_fps s)%Q -> (0 < Yolo11l.current_fps s')%Q).
Proof.
  revert s. induction ts as [|t ts IH]; intros s.
  - exists s. now repeat split.
  - cbn [yolo11l_records]. rewrite yolo11l_calculate_fps_closed. cbn zeta.
    assert (Hdiv : forall c d : Q, (0 < c)%Q -> (0 < d)%Q -> (0 < c / d)%Q).
    { intros c d Hc Hd. apply Qlt_shift_div_l; [exact Hd|].
      now rewrite Qmult_0_l. }
    destruct (30 <=? Yolo11l.fps_frame_count s + 1)%Z eqn:E; py_simpl.
    + apply Z.leb_le in E.
      assert (Hc : (0 < inject_Z (Yolo11l.fps_frame_count s + 1))%Q)
        by (change 0%Q with (inject_Z 0); rewrite <- Zlt_Qlt; lia).
      match goal with
      | |- exists s', yolo11l_records ts ?x = _ /\ _ =>
          destruct (IH x) as (s' & Hrun & H1 & H2)
      end.
      exists s'. split; [exact Hrun|].
      destruct s as [fc id st lf ff cf dc td]. yolo11l_fields.
      destruct (Py.gt (t - lf) 0) eqn:G.
      * apply gt_true in G. split; intros _.
        -- apply H1, Qlt_le_weak, Hdiv; assumption.
        -- apply H2, Hdiv; assumption.
      * split; assumption.
    + match goal with
      | |- exists s', yolo11l_records ts ?x = _ /\ _ =>
          destruct (IH x) as (s' & Hrun & H1 & H2)
      end.
      exists s'. split; [exact Hrun|].
      destruct s as [fc id st lf ff cf dc td]. yolo11l_fields.
      split; assumption.
Qed.

(** X1.  Whatever the clock readings (in any order, with repetitions),
    the rate stored by [calculate_fps] is never negative, in any of the
    three scripts. *)
Theorem rate_never_negative (ts : list Q) (id : nat) (t0 t1 : Q) :
  (exists s, detection_records ts (Detection.init id t0 t1) = Py.Ok s /\
             (0 <= Detection.current_fps s)%Q) /\
  (exists s, old_records ts (DetectionOld.init id t0) = Py.Ok s /\
             (0 <= DetectionOld.fps s)%Q) /\
  (exists s, yolo11l_records ts (Yolo11l.init id t0 t1) = Py.Ok s /\
             (0 <= Yolo11l.current_fps s)%Q).
Proof.
  repeat apply conj.
  - rewrite detection_records_feed. eexists. split; [reflexivity|].
    cbn zeta. detection_fields. apply feed_sign. apply Qle_refl.
  - rewrite old_records_feed. eexists. split; [reflexivity|].
    cbn zeta.
    cbn [DetectionOld.frame_times DetectionOld.set_fps
         DetectionOld.set_frame_times DetectionOld.init DetectionOld.fps].
    apply feed_sign. apply Qle_refl.
  - destruct (yolo11l_records_sign ts (Yolo11l.init id t0 t1))
      as (s & Hrun & H1 & _).
    exists s. split; [exact Hrun|]. apply H1. apply Qle_refl.
Qed.

Lemma yolo11l_records_app (ts1 ts2 : list Q)
    (s : Yolo11l.MultiInstanceCallback) :
  yolo11l_records (ts1 ++ ts2) s =
  (s' ← yolo11l_records ts1 s; yolo11l_records ts2 s').
Proof.
  revert s. induction ts1 as [|t ts1 IH]; intros s; [reflexivity|].
  cbn [app yolo11l_records].
  destruct (Yolo11l.calculate_fps t s) as [[r s']|e]; [|reflexivity].
  py_simpl. apply IH.
Qed.

(** X2.  Once [calculate_fps] has stored a positive rate, no later
    reading brings it back to 0: after any further readings [ts2]
    (repeated or decreasing ones included) it is still positive. *)
Theorem rate_stays_positive (ts1 ts2 : list Q) (id : nat) (t0 t1 : Q) :
  (forall s1, detection_records ts1 (Detection.init id t0 t1) = Py.Ok s1 ->
     (0 < Detection.current_fps s1)%Q ->
     exists s2,
       detection_records (ts1 ++ ts2) (Detection.init id t0 t1) = Py.Ok s2 /\
       (0 < Detection.current_fps s2)%Q) /\
  (forall s1, old_records ts1 (DetectionOld.init id t0) = Py.Ok s1 ->
     (0 < DetectionOld.fps s1)%Q ->
     exists s2,
       old_records (ts1 ++ ts2) (DetectionOld.init id t0) = Py.Ok s2 /\
       (0 < DetectionOld.fps s2)%Q) /\
  (forall s1, yolo11l_records ts1 (Yolo11l.init id t0 t1) = Py.Ok s1 ->
     (0 < Yolo11l.current_fps s1)%Q ->
     exists s2,
       yolo11l_records (ts1 ++ ts2) (Yolo11l.init id t0 t1) = Py.Ok s2 /\
       (0 < Yolo11l.current_fps s2)%Q).
Proof.
  repeat apply conj.
  - intros s1 Hrun Hpos. rewrite detection_records_feed in *.
    injection Hrun as <-. cbn zeta in *. detection_fields.
    eexists. split; [reflexivity|]. detection_fields.
    rewrite feed_app. now apply feed_sign.
  - intros s1 Hrun Hpos. rewrite old_records_feed in *.
    injection Hrun as <-. cbn zeta in *.
    cbn [DetectionOld.frame_times DetectionOld.set_fps
         DetectionOld.set_frame_times DetectionOld.init DetectionOld.fps] in *.
    eexists. split; [reflexivity|].
    cbn [DetectionOld.frame_times DetectionOld.set_fps
         DetectionOld.set_frame_times DetectionOld.init DetectionOld.fps].
    rewrite feed_app. now apply feed_sign.
  - intros s1 Hrun Hpos. rewrite yolo11l_records_app, Hrun. py_simpl.
    destruct (yolo11l_records_sign ts2 s1) as (s2 & Hrun2 & _ & H2).
    exists s2. split; [exact Hrun2 | now apply H2].
Qed.

Lemma rate_stays_positive_witness :
  exists s2,
    detection_records ([0; 1] ++ [1; 0; 0])%Q (Detection.init 0 0 0)
      = Py.Ok s2 /\
    (0 < Detection.current_fps s2)%Q.
Proof.
  destruct (rate_stays_positive [0; 1]%Q [1; 0; 0]%Q 0 0 0) as [H _].
  eapply H; [reflexivity|]. reflexivity.
Defined.

(** ** What the probe callbacks count *)

Ltac old_fields :=
  cbn [DetectionOld.frame_count DetectionOld.instance_id
       DetectionOld.last_time DetectionOld.frame_times DetectionOld.fps
       DetectionOld.detection_count DetectionOld.set_frame_times
       DetectionOld.set_fps DetectionOld.set_detection_count
       DetectionOld.increment DetectionOld.get_count DetectionOld.init
       fst snd] in *.

Lemma old_collect_fold (objs : list Hailo.HailoDetection)
    (acc : list (string * Q)) (ud : DetectionOld.MultiInstanceCallback) :
  fold_left DetectionOld.collect_detection objs (acc, ud) =
  (acc ++ map (fun d => (Hailo.label d, Hailo.confidence d)) objs,
   DetectionOld.set_detection_count
     (DetectionOld.detection_count ud + Py.len objs) ud).
Proof.
  revert acc ud. induction objs as [|d objs IH]; intros acc ud.
  - destruct ud. unfold Py.len. simpl.
    now rewrite app_nil_r, Z.add_0_r.
  - cbn [fold_left DetectionOld.collect_detection]. rewrite IH.
    destruct ud. unfold Py.len. old_fields. cbn [map length].
    rewrite <- app_assoc. cbn [app].
    unfold DetectionOld.set_detection_count. old_fields.
    do 2 f_equal. lia.
Qed.

Lemma len_map {A B} (f : A -> B) (l : list A) : Py.len (map f l) = Py.len l.
Proof. unfold Py.len. now rewrite length_map. Qed.

Ltac callback_cases :=
  match goal with
  | |- context [Py.isinstance_Exception ?e] =>
      let Ex := fresh "Ex" in
      destruct (Py.isinstance_Exception e) eqn:Ex
  | _ => idtac
  end;
  py_simpl;
  try rewrite guarded_average;
  repeat match goal with
  | |- context [if (?a mod ?k =? 0)%Z then _ else _] =>
      destruct (a mod k =? 0)%Z
  end;
  py_simpl.

(** X5.  A call with a buffer from which [k] detections are read adds
    [k] to [total_detections], also when the detection query then
    fails.  If the query succeeds or fails with an exception deriving
    from [Exception], [detection_count] becomes [k] and the callback
    returns [OK]; if it fails with another exception, that exception
    leaves the callback and [detection_count] keeps its old value. *)
Theorem detections_counted
    (instance : nat) (t_fps t_status : Q) (buffer : Hailo.Buffer)
    (ud : Detection.EnhancedInstanceCallback)
    (yd : Yolo11l.MultiInstanceCallback) :
  let k := Py.len (Hailo.objects buffer) in
  let caught := match Hailo.failure buffer with
                | Some e => Py.isinstance_Exception e
                | None => true
                end in
  (let call := Detection.enhanced_callback instance t_fps t_status
                 (Some buffer) ud in
   Detection.total_detections call.1
     = (Detection.total_detections ud + k)%Z /\
   (if caught
    then Detection.detection_count call.1 = k /\
         exists out, call.2 = Py.Ok (Hailo.OK, out)
    else Detection.detection_count call.1 = Detection.detection_count ud /\
         exists e, Hailo.failure buffer = Some e /\ call.2 = Py.Raise e))
  /\
  (let call := Yolo11l.app_callback instance t_fps t_status
                 (Some buffer) yd in
   Yolo11l.total_detections call.1
     = (Yolo11l.total_detections yd + k)%Z /\
   (if caught
    then Yolo11l.detection_count call.1 = k /\
         exists out, call.2 = Py.Ok (Hailo.OK, out)
    else Yolo11l.detection_count call.1 = Yolo11l.detection_count yd /\
         exists e, Hailo.failure buffer = Some e /\ call.2 = Py.Raise e)).
Proof.
  destruct buffer as [objs fail]. cbn [Hailo.objects Hailo.failure].
  split.
  - unfold Detection.enhanced_callback.
    rewrite detection_calculate_fps_closed. cbn zeta.
    cbn [Py.attempt Hailo.objects Hailo.failure].
    rewrite detection_collect_fold.
    destruct ud as [fc id st lf ff cf dc td ft]. detection_fields.
    destruct fail as [e|]; callback_cases; detection_fields;
      rewrite ?len_map; eauto.
  - unfold Yolo11l.app_callback.
    rewrite yolo11l_calculate_fps_closed. cbn zeta.
    destruct yd as [fc id st lf ff cf dc td]. yolo11l_fields.
    destruct (30 <=? ff + 1)%Z;
      cbn [Py.attempt Hailo.objects Hailo.failure];
      rewrite yolo11l_collect_fold; yolo11l_fields;
      destruct fail as [e|]; callback_cases; yolo11l_fields;
      rewrite ?len_map; eauto.
Qed.

Lemma detection_callback_counters (instance : nat) (c : Hailo.Invocation)
    (ud : Detection.EnhancedInstanceCallback) :
  let ud' := (Detection.enhanced_callback instance (Hailo.at_fps c)
                (Hailo.at_status c) (Hailo.probe_buffer c) ud).1 in
  Detection.get_count ud' = (Detection.get_count ud + 1)%Z /\
  Detection.total_detections ud'
    = (Detection.total_detections ud + Hailo.detections_in c)%Z /\
  Detection.instance_id ud' = Detection.instance_id ud /\
  Detection.start_time ud' = Detection.start_time ud.
Proof.
  destruct c as [tf tst buffer]. unfold Hailo.detections_in.
  cbn [Hailo.at_fps Hailo.at_status Hailo.probe_buffer].
  unfold Detection.enhanced_callback.
  rewrite detection_calculate_fps_closed. cbn zeta.
  destruct ud as [fc id st lf ff cf dc td ft].
  destruct buffer as [[objs fail]|]; cbn [Py.attempt Hailo.objects Hailo.failure].
  - rewrite detection_collect_fold. detection_fields.
    destruct fail as [e|]; callback_cases; detection_fields;
      now repeat split.
  - detection_fields. repeat split. lia.
Qed.

Lemma yolo11l_callback_counters (instance : nat) (c : Hailo.Invocation)
    (yd : Yolo11l.MultiInstanceCallback) :
  let yd' := (Yolo11l.app_callback instance (Hailo.at_fps c)
                (Hailo.at_status c) (Hailo.probe_buffer c) yd).1 in
  Yolo11l.get_count yd' = (Yolo11l.get_count yd + 1)%Z /\
  Yolo11l.total_detections yd'
    = (Yolo11l.total_detections yd + Hailo.detections_in c)%Z.
Proof.
  destruct c as [tf tst buffer]. unfold Hailo.detections_in.
  cbn [Hailo.at_fps Hailo.at_status Hailo.probe_buffer].
  unfold Yolo11l.app_callback.
  rewrite yolo11l_calculate_fps_closed. cbn zeta.
  destruct yd as [fc id st lf ff cf dc td]. yolo11l_fields.
  destruct (30 <=? ff + 1)%Z;
    (destruct buffer as [[objs fail]|];
     cbn [Py.attempt Hailo.objects Hailo.failure];
     [ rewrite yolo11l_collect_fold; yolo11l_fields;
       destruct fail as [e|]; callback_cases; yolo11l_fields;
       now repeat split
     | unfold Yolo11l.get_count; yolo11l_fields; split; lia ]).
Qed.

Lemma old_callback_counters (instance : nat) (c : Hailo.Invocation)
    (od : DetectionOld.MultiInstanceCallback) :
  let od' := (DetectionOld.app_callback instance (Hailo.at_fps c)
                (Hailo.probe_buffer c) od).1 in
  DetectionOld.get_count od' = (DetectionOld.get_count od + 1)%Z /\
  DetectionOld.detection_count od'
    = (DetectionOld.detection_count od + Hailo.detections_in c)%Z.
Proof.
  destruct c as [tf tst buffer]. unfold Hailo.detections_in.
  cbn [Hailo.at_fps Hailo.at_status Hailo.probe_buffer].
  unfold DetectionOld.app_callback.
  rewrite old_calculate_fps_closed. cbn zeta.
  destruct od as [fc id lt ft f dc].
  destruct buffer as [[objs fail]|]; cbn [Py.attempt Hailo.objects Hailo.failure].
  - rewrite old_collect_fold. old_fields.
    destruct fail as [e|]; callback_cases; old_fields; now repeat split.
  - old_fields. split; lia.
Qed.

Lemma detection_deliver_counters (instance : nat)
    (calls : list Hailo.Invocation) (ud : Detection.EnhancedInstanceCallback) :
  Detection.get_count (Detection.deliver instance calls ud)
    = (Detection.get_count ud + Py.len calls)%Z /\
  Detection.total_detections (Detection.deliver instance calls ud)
    = (Detection.total_detections ud
       + foldr Z.add 0%Z (map Hailo.detections_in calls))%Z /\
  Detection.instance_id (Detection.deliver instance calls ud)
    = Detection.instance_id ud.
Proof.
  unfold Py.len. revert ud. induction calls as [|c calls IH]; intros ud.
  - cbn. repeat split; lia.
  - change (Detection.deliver instance (c :: calls) ud)
      with (Detection.deliver instance calls
              (Detection.enhanced_callback instance (Hailo.at_fps c) (Hailo.at_status c) (Hailo.probe_buffer c) ud).1).
    cbn [map foldr length].
    destruct (IH (Detection.enhanced_callback instance (Hailo.at_fps c)
                    (Hailo.at_status c) (Hailo.probe_buffer c) ud).1)
      as (-> & -> & ->).
    destruct (detection_callback_counters instance c ud)
      as (-> & -> & -> & _).
    repeat split; lia.
Qed.

Lemma yolo11l_deliver_counters (instance : nat)
    (calls : list Hailo.Invocation) (yd : Yolo11l.MultiInstanceCallback) :
  Yolo11l.get_count (Yolo11l.deliver instance calls yd)
    = (Yolo11l.get_count yd + Py.len calls)%Z /\
  Yolo11l.total_detections (Yolo11l.deliver instance calls yd)
    = (Yolo11l.total_detections yd
       + foldr Z.add 0%Z (map Hailo.detections_in calls))%Z.
Proof.
  unfold Py.len. revert yd. induction calls as [|c calls IH]; intros yd.
  - cbn. split; lia.
  - change (Yolo11l.deliver instance (c :: calls) yd)
      with (Yolo11l.deliver instance calls
              (Yolo11l.app_callback instance (Hailo.at_fps c) (Hailo.at_status c) (Hailo.probe_buffer c) yd).1).
    cbn [map foldr length].
    destruct (IH (Yolo11l.app_callback instance (Hailo.at_fps c)
                    (Hailo.at_status c) (Hailo.probe_buffer c) yd).1)
      as (-> & ->).
    destruct (yolo11l_callback_counters instance c yd) as (-> & ->).
    split; lia.
Qed.

Lemma old_deliver_counters (instance : nat)
    (calls : list Hailo.Invocation) (od : DetectionOld.MultiInstanceCallback) :
  DetectionOld.get_count (DetectionOld.deliver instance calls od)
    = (DetectionOld.get_count od + Py.len calls)%Z /\
  DetectionOld.detection_count (DetectionOld.deliver instance calls od)
    = (DetectionOld.detection_count od
       + foldr Z.add 0%Z (map Hailo.detections_in calls))%Z.
Proof.
  unfold Py.len. revert od. induction calls as [|c calls IH]; intros od.
  - cbn. split; lia.
  - change (DetectionOld.deliver instance (c :: calls) od)
      with (DetectionOld.deliver instance calls
              (DetectionOld.app_callback instance (Hailo.at_fps c) (Hailo.probe_buffer c) od).1).
    cbn [map foldr length].
    destruct (IH (DetectionOld.app_callback instance (Hailo.at_fps c)
                    (Hailo.probe_buffer c) od).1) as (-> & ->).
    destruct (old_callback_counters instance c od) as (-> & ->).
    split; lia.
Qed.

(** X6.  After any sequence of invocations of a callback on one object,
    whatever the buffers hold ([None], detections, failing queries), the
    frame counter has grown by the number of invocations and the
    detection total by the number of detections read from the buffers.
    In [multi_instance_detection_old.py] the total is kept in
    [detection_count] itself. *)
Theorem frames_and_detections_totalled
    (instance : nat) (calls : list Hailo.Invocation)
    (ud : Detection.EnhancedInstanceCallback)
    (yd : Yolo11l.MultiInstanceCallback)
    (od : DetectionOld.MultiInstanceCallback) :
  let frames := Py.len calls in
  let found := foldr Z.add 0%Z (map Hailo.detections_in calls) in
  (Detection.get_count (Detection.deliver instance calls ud)
     = (Detection.get_count ud + frames)%Z /\
   Detection.total_detections (Detection.deliver instance calls ud)
     = (Detection.total_detections ud + found)%Z) /\
  (Yolo11l.get_count (Yolo11l.deliver instance calls yd)
     = (Yolo11l.get_count yd + frames)%Z /\
   Yolo11l.total_detections (Yolo11l.deliver instance calls yd)
     = (Yolo11l.total_detections yd + found)%Z) /\
  (DetectionOld.get_count (DetectionOld.deliver instance calls od)
     = (DetectionOld.get_count od + frames)%Z /\
   DetectionOld.detection_count (DetectionOld.deliver instance calls od)
     = (DetectionOld.detection_count od + found)%Z).
Proof.
  cbn zeta.
  destruct (detection_deliver_counters instance calls ud) as (H1 & H2 & _).
  pose proof (yolo11l_deliver_counters instance calls yd).
  pose proof (old_deliver_counters instance calls od).
  tauto.
Qed.

(** X7.  What a callback prints when the detection query of frame
    number [c] fails with an exception [e] deriving from [Exception]:
    [multi_instance_detection.py] reports the error only if [c] is a
    multiple of 100, [multi_instance_yolo11l.py] reports every one.  The
    status line follows on every 90th (resp. 60th) frame and shows the
    frame number, the detections read from this buffer and the detection
    total including them. *)
Theorem callback_reports
    (instance : nat) (t_fps t_status : Q) (buffer : Hailo.Buffer)
    (e : Py.exn)
    (ud : Detection.EnhancedInstanceCallback)
    (yd : Yolo11l.MultiInstanceCallback) :
  Hailo.failure buffer = Some e -> Py.isinstance_Exception e = true ->
  let k := Py.len (Hailo.objects buffer) in
  (let c := (Detection.get_count ud + 1)%Z in
   exists rate avg,
     (Detection.enhanced_callback instance t_fps t_status (Some buffer) ud).2
     = Py.Ok (Hailo.OK,
              (if (c mod 100 =? 0)%Z
               then [Detection.DetectionError instance e] else []) ++
              (if (c mod 90 =? 0)%Z
               then [Detection.FrameStatus instance c rate avg k
                       (Detection.total_detections ud + k)]
               else [])) /\
     avg = (if Py.gt (t_status - Detection.start_time ud) 0
            then inject_Z c / (t_status - Detection.start_time ud)
            else 0)%Q)
  /\
  (let c := (Yolo11l.get_count yd + 1)%Z in
   exists rate avg,
     (Yolo11l.app_callback instance t_fps t_status (Some buffer) yd).2
     = Py.Ok (Hailo.OK,
              [Yolo11l.ParsingError instance e] ++
              (if (c mod 60 =? 0)%Z
               then [Yolo11l.FrameStatus instance c rate avg k
                       (Yolo11l.total_detections yd + k)]
               else [])) /\
     avg = (if Py.gt (t_status - Yolo11l.start_time yd) 0
            then inject_Z c / (t_status - Yolo11l.start_time yd)
            else 0)%Q).
Proof.
  destruct buffer as [objs fail]. cbn [Hailo.objects Hailo.failure].
  intros -> He. split.
  - unfold Detection.enhanced_callback.
    rewrite detection_calculate_fps_closed. cbn zeta.
    cbn [Py.attempt Hailo.objects Hailo.failure].
    rewrite detection_collect_fold, He.
    destruct ud as [fc id st lf ff cf dc td ft]. detection_fields.
    py_simpl. rewrite guarded_average, len_map. py_simpl.
    eexists. eexists. split; [|reflexivity].
    destruct ((fc + 1) mod 90 =? 0)%Z; reflexivity.
  - unfold Yolo11l.app_callback.
    rewrite yolo11l_calculate_fps_closed. cbn zeta.
    destruct yd as [fc id st lf ff cf dc td].
    unfold Yolo11l.get_count. yolo11l_fields.
    destruct (30 <=? ff + 1)%Z;
      cbn [Py.attempt Hailo.objects Hailo.failure];
      rewrite yolo11l_collect_fold, He; yolo11l_fields;
      py_simpl; rewrite guarded_average, len_map; py_simpl;
      (eexists; eexists; split; [|reflexivity]);
      destruct ((fc + 1) mod 60 =? 0)%Z; reflexivity.
Qed.

Lemma callback_reports_witness :
  let buffer := {| Hailo.objects := [{| Hailo.label := "person";
                                        Hailo.confidence := 9 # 10 |}];
                   Hailo.failure := Some Py.RuntimeError |} in
  let ud := Detection.set_frame_count 89 (Detection.init 0 0 0) in
  exists rate,
    (Detection.enhanced_callback 0 9 9 (Some buffer) ud).2
    = Py.Ok (Hailo.OK,
             [Detection.FrameStatus 0 90 rate (inject_Z 90 / (9 - 0)) 1 1]).
Proof.
  intros buffer ud.
  destruct (callback_reports 0 9 9 buffer Py.RuntimeError ud
              (Yolo11l.init 0 0 0) eq_refl eq_refl)
    as [(rate & avg & Hout & Havg) _].
  exists rate. rewrite Hout, Havg. reflexivity.
Defined.

(** ** The callback objects and [instance_callbacks] over time *)

Lemma detection_callback_keeps (instance : nat) (t_fps t_status : Q)
    (buffer : option Hailo.Buffer) (ud : Detection.EnhancedInstanceCallback) :
  let ud' := (Detection.enhanced_callback instance t_fps t_status
                buffer ud).1 in
  Detection.get_count ud' = (Detection.get_count ud + 1)%Z /\
  (Detection.total_detections ud <= Detection.total_detections ud')%Z /\
  Detection.instance_id ud' = Detection.instance_id ud /\
  Detection.start_time ud' = Detection.start_time ud.
Proof.
  destruct (detection_callback_counters instance
              {| Hailo.at_fps := t_fps; Hailo.at_status := t_status;
                 Hailo.probe_buffer := buffer |} ud) as (H1 & H2 & H3 & H4).
  cbn [Hailo.at_fps Hailo.at_status Hailo.probe_buffer] in *.
  repeat split; try assumption.
  rewrite H2. unfold Hailo.detections_in, Py.len. cbn [Hailo.probe_buffer].
  destruct buffer; lia.
Qed.

Lemma probe_heap (app : Detection.YOLOv11lDetectionApp) (t_fps t_status : Q)
    (buffer : option Hailo.Buffer) (m : Detection.Memory) (a : nat)
    (ud : Detection.EnhancedInstanceCallback) :
  Detection.heap m !! a = Some ud ->
  Detection.heap (Detection.probe app t_fps t_status buffer m).1 !! a
  = Some (if decide (a = Detection.user_data app)
          then (Detection.enhanced_callback (Detection.app_instance_id app)
                  t_fps t_status buffer ud).1
          else ud).
Proof.
  intros Ha. unfold Detection.probe.
  destruct (decide (a = Detection.user_data app)) as [->|Hne].
  - rewrite Ha.
    destruct (Detection.enhanced_callback _ _ _ _ ud) as [ud' outcome].
    cbn [fst Detection.heap].
    apply list_lookup_insert_eq. now apply lookup_lt_Some in Ha.
  - destruct (Detection.heap m !! Detection.user_data app) as [ud0|];
      [|exact Ha].
    destruct (Detection.enhanced_callback _ _ _ _ ud0) as [ud' outcome].
    cbn [fst Detection.heap].
    rewrite list_lookup_insert_ne by congruence. exact Ha.
Qed.

Lemma perform_heap (op : Detection.Operation) (m : Detection.Memory)
    (a : nat) (ud : Detection.EnhancedInstanceCallback) :
  Detection.heap m !! a = Some ud ->
  exists ud',
    Detection.heap (Detection.perform m op) !! a = Some ud' /\
    (Detection.get_count ud <= Detection.get_count ud')%Z /\
    (Detection.total_detections ud <= Detection.total_detections ud')%Z /\
    Detection.instance_id ud' = Detection.instance_id ud /\
    Detection.start_time ud' = Detection.start_time ud.
Proof.
  intros Ha. destruct op as [instance fw | app t_fps t_status buffer];
    cbn [Detection.perform].
  - rewrite run_instance_memory, app_init_memory. cbn [Detection.heap].
    exists ud. split; [now apply lookup_app_l_Some|]. repeat split; lia.
  - rewrite (probe_heap _ _ _ _ _ _ _ Ha).
    eexists. split; [reflexivity|].
    destruct (decide (a = Detection.user_data app)).
    + destruct (detection_callback_keeps (Detection.app_instance_id app)
                  t_fps t_status buffer ud) as (H1 & H2 & H3 & H4).
      repeat split; try assumption. lia.
    + repeat split; lia.
Qed.

(** X8.  An allocated callback object is never removed, and nothing the
    script does makes its frame count or its detection total smaller or
    changes its instance id and start time: after any sequence of
    constructions and probe invocations the object is still at its
    address, with counters at least as large.  (Only the dictionary can
    be made to point to a younger object.) *)
Theorem object_counters_monotone (ops : list Detection.Operation)
    (m : Detection.Memory) (a : nat)
    (ud : Detection.EnhancedInstanceCallback) :
  Detection.heap m !! a = Some ud ->
  exists ud',
    Detection.heap (fold_left Detection.perform ops m) !! a = Some ud' /\
    (Detection.get_count ud <= Detection.get_count ud')%Z /\
    (Detection.total_detections ud <= Detection.total_detections ud')%Z /\
    Detection.instance_id ud' = Detection.instance_id ud /\
    Detection.start_time ud' = Detection.start_time ud.
Proof.
  revert m ud. induction ops as [|op ops IH]; intros m ud Ha.
  - exists ud. split; [exact Ha|]. repeat split; lia.
  - cbn [fold_left].
    destruct (perform_heap op m a ud Ha) as (ud1 & H1 & Hc & Ht & Hi & Hs).
    destruct (IH _ _ H1) as (ud2 & H2 & Hc2 & Ht2 & Hi2 & Hs2).
    exists ud2. split; [exact H2|].
    repeat split; try lia; congruence.
Qed.

Lemma object_counters_monotone_witness :
  let fw := {| Detection.clock0 := 0; Detection.clock1 := 0;
               Detection.super_init := Py.Ok "default.hef";
               Detection.yolo11_exists := true;
               Detection.run := fun _ => Py.Ok tt |} in
  let app := {| Detection.app_instance_id := 0; Detection.user_data := 0;
                Detection.hef_path := Detection.yolo11_path;
                Detection.batch_size := 1;
                Detection.thresholds_str := "" |} in
  let m := (Detection.run_instance 0 fw Detection.empty_memory).1.1 in
  exists ud',
    Detection.heap
      (fold_left Detection.perform
         [Detection.Probe app 1 1 None; Detection.Construct 0 fw;
          Detection.Probe app 2 2 None] m) !! 0 = Some ud' /\
    (0 <= Detection.get_count ud')%Z.
Proof.
  intros fw app m.
  destruct (object_counters_monotone
              [Detection.Probe app 1 1 None; Detection.Construct 0 fw;
               Detection.Probe app 2 2 None] m 0 (Detection.init 0 0 0)
              eq_refl) as (ud' & H & Hc & _).
  exists ud'. split; [exact H | exact Hc].
Defined.

Lemma perform_registry (op : Detection.Operation) (m : Detection.Memory) :
  (forall k a, Detection.instance_callbacks m !! k = Some a ->
     exists ud, Detection.heap m !! a = Some ud /\
                Detection.instance_id ud = k) ->
  forall k a,
    Detection.instance_callbacks (Detection.perform m op) !! k = Some a ->
    exists ud, Detection.heap (Detection.perform m op) !! a = Some ud /\
               Detection.instance_id ud = k.
Proof.
  intros Hinv k a Hk.
  destruct op as [instance fw | app t_fps t_status buffer].
  - cbn [Detection.perform] in *.
    rewrite run_instance_memory, app_init_memory in *.
    cbn [Detection.heap Detection.instance_callbacks] in *.
    apply lookup_insert_Some in Hk as [[<- <-]|[Hne Hk]].
    + eexists. split; [now apply list_lookup_middle | reflexivity].
    + destruct (Hinv k a Hk) as (ud & Ha & Hid).
      exists ud. split; [now apply lookup_app_l_Some | exact Hid].
  - cbn [Detection.perform] in Hk. rewrite probe_registry in Hk.
    destruct (Hinv k a Hk) as (ud & Ha & Hid).
    destruct (perform_heap (Detection.Probe app t_fps t_status buffer)
                m a ud Ha) as (ud' & Ha' & _ & _ & Hid' & _).
    exists ud'. split; [exact Ha' | congruence].
Qed.

Lemma operations_registry (ops : list Detection.Operation)
    (m : Detection.Memory) :
  (forall k a, Detection.instance_callbacks m !! k = Some a ->
     exists ud, Detection.heap m !! a = Some ud /\
                Detection.instance_id ud = k) ->
  forall k a,
    Detection.instance_callbacks (fold_left Detection.perform ops m) !! k
      = Some a ->
    exists ud,
      Detection.heap (fold_left Detection.perform ops m) !! a = Some ud /\
      Detection.instance_id ud = k.
Proof.
  revert m. induction ops as [|op ops IH]; intros m Hinv; [exact Hinv|].
  cbn [fold_left]. apply IH. now apply perform_registry.
Qed.

Lemma reachable_registry (ops : list Detection.Operation) (k a : nat) :
  Detection.instance_callbacks
    (fold_left Detection.perform ops Detection.empty_memory) !! k = Some a ->
  exists ud,
    Detection.heap (fold_left Detection.perform ops Detection.empty_memory)
      !! a = Some ud /\
    Detection.instance_id ud = k.
Proof.
  apply operations_registry. intros k' a' H. cbn in H.
  rewrite lookup_empty in H. discriminate H.
Qed.

(** X9.  Whatever sequence of constructions and probe invocations has
    run since the start of the script, every key of [instance_callbacks]
    refers to an existing callback object, and that object was created
    for the instance the key names: [instance_callbacks[k].instance_id]
    is [k]. *)
Theorem registry_keys_name_their_objects (ops : list Detection.Operation)
    (k : nat) :
  let m := fold_left Detection.perform ops Detection.empty_memory in
  k ∈ dom (Detection.instance_callbacks m) ->
  exists ud, Detection.entry m k = Some ud /\ Detection.instance_id ud = k.
Proof.
  cbn zeta. intros Hk. apply elem_of_dom in Hk as [a Ha].
  destruct (reachable_registry ops k a Ha) as (ud & Hh & Hid).
  exists ud. unfold Detection.entry. rewrite Ha. cbn. now split.
Qed.

Lemma registry_keys_name_their_objects_witness :
  let fw := {| Detection.clock0 := 0; Detection.clock1 := 0;
               Detection.super_init := Py.Raise Py.ValueError;
               Detection.yolo11_exists := true;
               Detection.run := fun _ => Py.Ok tt |} in
  exists ud,
    Detection.entry
      (fold_left Detection.perform
         [Detection.Construct 3 fw; Detection.Construct 1 fw;
          Detection.Construct 3 fw] Detection.empty_memory) 3
    = Some ud /\
    Detection.instance_id ud = 3.
Proof.
  intros fw.
  apply (registry_keys_name_their_objects
           [Detection.Construct 3 fw; Detection.Construct 1 fw;
            Detection.Construct 3 fw] 3).
  apply elem_of_dom. vm_compute. eauto.
Defined.

Lemma probes_heap (ps : list (Detection.YOLOv11lDetectionApp
                              * Hailo.Invocation))
    (m : Detection.Memory) (a : nat)
    (ud : Detection.EnhancedInstanceCallback) :
  Detection.heap m !! a = Some ud ->
  exists ud',
    Detection.heap
      (fold_left Detection.perform
         (map (fun p => Detection.Probe p.1 (Hailo.at_fps p.2)
                          (Hailo.at_status p.2) (Hailo.probe_buffer p.2)) ps)
         m) !! a = Some ud' /\
    Detection.get_count ud'
      = (Detection.get_count ud
         + Py.len (filter (fun p => Detection.user_data p.1 = a) ps))%Z /\
    Detection.total_detections ud'
      = (Detection.total_detections ud
         + foldr Z.add 0%Z
             (map (fun p => Hailo.detections_in p.2)
                (filter (fun p => Detection.user_data p.1 = a) ps)))%Z.
Proof.
  unfold Py.len.
  revert m ud. induction ps as [|[app c] ps IH]; intros m ud Ha.
  - exists ud. split; [exact Ha|]. cbn. split; lia.
  - cbn [map fold_left Detection.perform fst snd].
    pose proof (probe_heap app (Hailo.at_fps c) (Hailo.at_status c)
                  (Hailo.probe_buffer c) m a ud Ha) as H1.
    destruct (IH _ _ H1) as (ud' & H2 & Hc & Ht).
    exists ud'. split; [exact H2|].
    rewrite Hc, Ht.
    destruct (decide (a = Detection.user_data app)) as [->|Hne].
    + rewrite filter_cons_True by reflexivity.
      destruct (detection_callback_counters (Detection.app_instance_id app)
                  c ud) as (-> & -> & _).
      cbn [length map foldr snd]. split; lia.
    + rewrite filter_cons_False by (cbn; congruence). split; reflexivity.
Qed.

(** X10.  Probe invocations of several applications, in any
    interleaving: the callback object at an address counts exactly the
    invocations of the applications constructed with it, and totals
    exactly the detections of their buffers; invocations of other
    applications leave it untouched. *)
Theorem invocations_counted_per_object
    (ps : list (Detection.YOLOv11lDetectionApp * Hailo.Invocation))
    (m : Detection.Memory) (a : nat)
    (ud : Detection.EnhancedInstanceCallback) :
  Detection.heap m !! a = Some ud ->
  let mine := filter (fun p => Detection.user_data p.1 = a) ps in
  let m' := fold_left Detection.perform
              (map (fun p => Detection.Probe p.1 (Hailo.at_fps p.2)
                               (Hailo.at_status p.2)
                               (Hailo.probe_buffer p.2)) ps) m in
  Detection.instance_callbacks m' = Detection.instance_callbacks m /\
  exists ud',
    Detection.heap m' !! a = Some ud' /\
    Detection.get_count ud' = (Detection.get_count ud + Py.len mine)%Z /\
    Detection.total_detections ud'
      = (Detection.total_detections ud
         + foldr Z.add 0%Z (map (fun p => Hailo.detections_in p.2) mine))%Z /\
    (mine = [] -> ud' = ud).
Proof.
  intros Ha mine m'. split.
  - unfold m'. clear. revert m.
    induction ps as [|[app c] ps IH]; intros m; [reflexivity|].
    cbn [map fold_left Detection.perform fst snd].
    rewrite IH. apply probe_registry.
  - destruct (probes_heap ps m a ud Ha) as (ud' & H & Hc & Ht).
    exists ud'. repeat split; try assumption.
    intros Hnone. subst m' mine. clear Hc Ht.
    revert m ud Ha H.
    induction ps as [|[app c] ps IH]; intros m ud Ha H.
    + cbn in H. congruence.
    + cbn [map fold_left Detection.perform fst snd] in H.
      destruct (decide (Detection.user_data app = a)) as [He|Hne].
      * rewrite filter_cons_True in Hnone by exact He. discriminate Hnone.
      * rewrite filter_cons_False in Hnone by exact Hne.
        pose proof (probe_heap app (Hailo.at_fps c) (Hailo.at_status c)
                      (Hailo.probe_buffer c) m a ud Ha) as H1.
        destruct (decide (a = Detection.user_data app)); [congruence|].
        exact (IH Hnone _ _ H1 H).
Qed.

Lemma invocations_counted_per_object_witness :
  let fw := {| Detection.clock0 := 0; Detection.clock1 := 0;
               Detection.super_init := Py.Ok "default.hef";
               Detection.yolo11_exists := true;
               Detection.run := fun _ => Py.Ok tt |} in
  let app i := {| Detection.app_instance_id := i; Detection.user_data := i;
                  Detection.hef_path := Detection.yolo11_path;
                  Detection.batch_size := 1;
                  Detection.thresholds_str := "" |} in
  let frame t := {| Hailo.at_fps := t; Hailo.at_status := t;
                    Hailo.probe_buffer := None |} in
  let m := fold_left Detection.perform
             [Detection.Construct 0 fw; Detection.Construct 1 fw]
             Detection.empty_memory in
  exists ud',
    Detection.heap
      (fold_left Detection.perform
         (map (fun p => Detection.Probe p.1 (Hailo.at_fps p.2)
                          (Hailo.at_status p.2) (Hailo.probe_buffer p.2))
            [(app 0, frame 1%Q); (app 1, frame 2%Q); (app 0, frame 3%Q)]) m) !! 0
    = Some ud' /\
    Detection.get_count ud' = 2%Z.
Proof.
  intros fw app frame m.
  destruct (invocations_counted_per_object
              [(app 0, frame 1%Q); (app 1, frame 2%Q); (app 0, frame 3%Q)]
              m 0 (Detection.init 0 0 0) eq_refl)
    as (_ & ud' & H & Hc & _).
  exists ud'. split; [exact H | exact Hc].
Defined.

Lemma snapshot_lookup (m : Detection.Memory) (k : nat) :
  Detection.snapshot m !! k = Detection.entry m k.
Proof.
  unfold Detection.snapshot, Detection.entry. apply lookup_omap.
Qed.

Lemma probe_snapshot (app : Detection.YOLOv11lDetectionApp)
    (t_fps t_status : Q) (buffer : option Hailo.Buffer)
    (m : Detection.Memory) :
  (forall k, Detection.instance_callbacks m !! k
             <> Some (Detection.user_data app)) ->
  Detection.snapshot (Detection.probe app t_fps t_status buffer m).1
  = Detection.snapshot m.
Proof.
  intros Hfree. apply map_eq. intros k. rewrite !snapshot_lookup.
  unfold Detection.entry. rewrite probe_registry.
  destruct (Detection.instance_callbacks m !! k) as [a|] eqn:Ek;
    [|reflexivity].
  cbn. unfold Detection.probe.
  destruct (Detection.heap m !! Detection.user_data app) as [ud|];
    [|reflexivity].
  destruct (Detection.enhanced_callback _ _ _ _ ud) as [ud' outcome].
  cbn [fst Detection.heap]. apply list_lookup_insert_ne.
  intros <-. now apply (Hfree k).
Qed.

Lemma probes_snapshot (app : Detection.YOLOv11lDetectionApp)
    (calls : list Hailo.Invocation) (m : Detection.Memory) :
  (forall k, Detection.instance_callbacks m !! k
             <> Some (Detection.user_data app)) ->
  let m' := fold_left Detection.perform
              (map (fun c => Detection.Probe app (Hailo.at_fps c)
                               (Hailo.at_status c) (Hailo.probe_buffer c))
                 calls) m in
  Detection.snapshot m' = Detection.snapshot m /\
  Detection.instance_callbacks m' = Detection.instance_callbacks m.
Proof.
  cbn zeta. revert m.
  induction calls as [|c calls IH]; intros m Hfree; [now split|].
  cbn [map fold_left Detection.perform].
  destruct (IH (Detection.probe app (Hailo.at_fps c) (Hailo.at_status c)
                  (Hailo.probe_buffer c) m).1) as [IH1 IH2].
  - intros k. rewrite probe_registry. apply Hfree.
  - rewrite IH1, IH2, probe_snapshot, probe_registry by exact Hfree.
    now split.
Qed.

Lemma probes_same_object (app : Detection.YOLOv11lDetectionApp)
    (calls : list Hailo.Invocation) (m : Detection.Memory)
    (ud : Detection.EnhancedInstanceCallback) :
  Detection.heap m !! Detection.user_data app = Some ud ->
  Detection.heap
    (fold_left Detection.perform
       (map (fun c => Detection.Probe app (Hailo.at_fps c)
                        (Hailo.at_status c) (Hailo.probe_buffer c)) calls)
       m) !! Detection.user_data app
  = Some (Detection.deliver (Detection.app_instance_id app) calls ud).
Proof.
  revert m ud. induction calls as [|c calls IH]; intros m ud Ha;
    [exact Ha|].
  cbn [map fold_left Detection.perform].
  pose proof (probe_heap app (Hailo.at_fps c) (Hailo.at_status c)
                (Hailo.probe_buffer c) m _ ud Ha) as H1.
  rewrite decide_True in H1 by reflexivity.
  rewrite (IH _ _ H1). reflexivity.
Qed.

(** X11.  Constructing an application for an instance id that already
    has one replaces the dictionary entry but not the first
    application's callback object.  The first application's pipeline
    goes on invoking its callback on the old object, which counts every
    frame, while the dashboard's view of [instance_callbacks] does not
    change at all: it keeps showing the new object, with no frames. *)
Theorem replaced_application_invisible
    (ops : list Detection.Operation) (instance : nat)
    (t0 t1 t0' t1' : Q) (si si' : Py.result string) (ye ye' : bool)
    (app : Detection.YOLOv11lDetectionApp)
    (calls : list Hailo.Invocation) :
  let m := fold_left Detection.perform ops Detection.empty_memory in
  let m1 := (Detection.app_init instance t0 t1 si ye m).1 in
  let m2 := (Detection.app_init instance t0' t1' si' ye' m1).1 in
  let m3 := fold_left Detection.perform
              (map (fun c => Detection.Probe app (Hailo.at_fps c)
                               (Hailo.at_status c) (Hailo.probe_buffer c))
                 calls) m2 in
  (Detection.app_init instance t0 t1 si ye m).2 = Py.Ok app ->
  Detection.snapshot m3 = Detection.snapshot m2 /\
  Detection.entry m3 instance = Some (Detection.init instance t0' t1') /\
  Detection.heap m3 !! Detection.user_data app
    = Some (Detection.deliver instance calls
              (Detection.init instance t0 t1)) /\
  Detection.get_count
    (Detection.deliver instance calls (Detection.init instance t0 t1))
    = Py.len calls.
Proof.
  intros m m1 m2 m3 Happ.
  assert (Hud : Detection.user_data app = length (Detection.heap m) /\
                Detection.app_instance_id app = instance).
  { unfold Detection.app_init in Happ. cbn [snd] in Happ.
    destruct si as [hef|e]; [|discriminate Happ].
    injection Happ as <-. now split. }
  destruct Hud as [Hud Hid].
  assert (Hm2 : m2 = {| Detection.heap :=
                          (Detection.heap m ++ [Detection.init instance t0 t1])
                          ++ [Detection.init instance t0' t1'];
                        Detection.instance_callbacks :=
                          <[instance := S (length (Detection.heap m))]>
                            (Detection.instance_callbacks m) |}).
  { unfold m2, m1. rewrite !app_init_memory.
    cbn [Detection.heap Detection.instance_callbacks].
    rewrite length_app, insert_insert_eq. cbn [length].
    now rewrite Nat.add_1_r. }
  assert (Hfree : forall k, Detection.instance_callbacks m2 !! k
                            <> Some (Detection.user_data app)).
  { intros k Hk. rewrite Hm2 in Hk. cbn [Detection.instance_callbacks] in Hk.
    apply lookup_insert_Some in Hk as [[_ Hk]|[_ Hk]]; [lia|].
    destruct (reachable_registry ops k _ Hk) as (ud & Hh & _).
    apply lookup_lt_Some in Hh. fold m in Hh. lia. }
  assert (Hold : Detection.heap m2 !! Detection.user_data app
                 = Some (Detection.init instance t0 t1)).
  { rewrite Hm2, Hud. cbn [Detection.heap].
    apply lookup_app_l_Some. now apply list_lookup_middle. }
  assert (Hsnap : Detection.snapshot m3 = Detection.snapshot m2
                  /\ Detection.instance_callbacks m3
                     = Detection.instance_callbacks m2).
  { apply probes_snapshot. exact Hfree. }
  destruct Hsnap as [Hsnap _].
  split; [exact Hsnap|]. split; [|split].
  - rewrite <- snapshot_lookup, Hsnap, snapshot_lookup.
    unfold Detection.entry. rewrite Hm2.
    cbn [Detection.instance_callbacks Detection.heap].
    rewrite lookup_insert_eq. cbn.
    apply list_lookup_middle. rewrite length_app. cbn [length]. lia.
  - unfold m3. rewrite (probes_same_object app calls m2 _ Hold).
    now rewrite Hid.
  - destruct (detection_deliver_counters instance calls
                (Detection.init instance t0 t1)) as [Hc _].
    rewrite Hc. cbn. lia.
Qed.

Lemma replaced_application_invisible_witness :
  let frame := {| Hailo.at_fps := 1; Hailo.at_status := 1;
                  Hailo.probe_buffer := None |} in
  let app := {| Detection.app_instance_id := 2; Detection.user_data := 0;
                Detection.hef_path := Detection.yolo11_path;
                Detection.batch_size := 1;
                Detection.thresholds_str :=
                  "nms-score-threshold=0.25 nms-iou-threshold=0.45 " +:+
                  "output-format-type=HAILO_FORMAT_TYPE_FLOAT32" |} in
  Detection.get_count
    (Detection.deliver 2 [frame; frame; frame] (Detection.init 2 0 0))
  = 3%Z.
Proof.
  intros frame app.
  apply (replaced_application_invisible [] 2 0 0 5 5
           (Py.Ok "default.hef") (Py.Raise Py.RuntimeError) true true
           app [frame; frame; frame]).
  reflexivity.
Defined.

(** ** The dashboard over what the script has registered *)

Lemma average_of_no_frames (now_i : Q)
    (cb : Detection.EnhancedInstanceCallback) :
  Detection.get_count cb = 0%Z -> (Board.average_fps now_i cb == 0)%Q.
Proof.
  intros H. unfold Board.average_fps. rewrite H.
  destruct (Py.gt _ 0); [|reflexivity].
  unfold Qdiv. change (inject_Z 0) with 0%Q. ring.
Qed.

(** X12.  A worker whose framework constructor raises is registered all
    the same, because [__init__] stores the callback object before it
    calls the parent constructor.  [run_instance] returns normally, and
    from then on the dashboard counts the worker among the registered
    instances and prints a line for it: no frames, no detections, an
    average of 0 and the red indicator. *)
Theorem failed_worker_on_dashboard (instance : nat)
    (fw : Detection.Framework) (m : Detection.Memory) (e : Py.exn)
    (now : nat -> Q) :
  Detection.super_init fw = Py.Raise e ->
  Py.isinstance_Exception e = true ->
  let r := Detection.run_instance instance fw m in
  r.2 = Py.Ok tt /\
  Detection.entry r.1.1 instance
    = Some (Detection.init instance (Detection.clock0 fw)
              (Detection.clock1 fw)) /\
  exists d ln,
    Detection.dashboard_pass now (Detection.snapshot r.1.1) = Py.Ok d /\
    (0 < Detection.instances d)%Z /\
    ln ∈ Detection.per_instance d /\
    Detection.line_instance ln = instance /\
    Detection.line_frames ln = 0%Z /\
    Detection.line_detections ln = 0%Z /\
    (Detection.line_average_fps ln == 0)%Q /\
    Detection.perf_indicator ln = Detection.Red.
Proof.
  intros Hsuper He r.
  assert (Hentry : Detection.entry r.1.1 instance
                   = Some (Detection.init instance (Detection.clock0 fw)
                             (Detection.clock1 fw))).
  { unfold r. rewrite run_instance_memory, app_init_memory.
    unfold Detection.entry.
    cbn [Detection.instance_callbacks Detection.heap].
    rewrite lookup_insert_eq. cbn. now apply list_lookup_middle. }
  split; [|split; [exact Hentry|]].
  - unfold r, Detection.run_instance, Detection.app_init.
    rewrite Hsuper. cbn. now rewrite He.
  - rewrite dashboard_pass_closed. cbn zeta.
    set (cb := Detection.init instance (Detection.clock0 fw)
                 (Detection.clock1 fw)) in *.
    assert (Hsnap : Detection.snapshot r.1.1 !! instance = Some cb)
      by now rewrite snapshot_lookup.
    pose proof (average_of_no_frames (now instance) cb eq_refl) as Havg.
    eexists. exists (Board.line_of now instance cb).
    split; [reflexivity|].
    cbn [Detection.instances Detection.per_instance].
    split; [|split; [|split; [reflexivity|split; [reflexivity|
      split; [reflexivity|split; [exact Havg|]]]]]].
    + assert (size (Detection.snapshot r.1.1) <> 0); [|lia].
      rewrite map_size_empty_iff. intros Hempty.
      rewrite Hempty, lookup_empty in Hsnap. discriminate Hsnap.
    + unfold Board.rows. apply list_elem_of_omap. exists instance.
      split; [apply sorted_keys_elem; eauto | now rewrite Hsnap].
    + cbn [Board.line_of Detection.perf_indicator].
      replace (Py.gt (Board.average_fps (now instance) cb) 20) with false
        by (symmetry; apply gt_false; now rewrite Havg).
      replace (Py.gt (Board.average_fps (now instance) cb) 10) with false
        by (symmetry; apply gt_false; now rewrite Havg).
      reflexivity.
Qed.

Lemma failed_worker_on_dashboard_witness :
  let fw := {| Detection.clock0 := 3; Detection.clock1 := 3;
               Detection.super_init := Py.Raise Py.RuntimeError;
               Detection.yolo11_exists := true;
               Detection.run := fun _ => Py.Ok tt |} in
  Detection.entry
    (Detection.run_instance 2 fw Detection.empty_memory).1.1 2
  = Some (Detection.init 2 3 3).
Proof.
  intros fw.
  apply (failed_worker_on_dashboard 2 fw Detection.empty_memory
           Py.RuntimeError (fun _ => 10%Q)); reflexivity.
Defined.

Lemma sorted_keys_perm {V} (d : gmap nat V) :
  Detection.sorted_keys d ≡ₚ (map_to_list d).*1.
Proof.
  unfold Detection.sorted_keys. rewrite merge_sort_Permutation.
  apply NoDup_Permutation.
  - apply NoDup_elements.
  - apply NoDup_fst_map_to_list.
  - intros i. rewrite elem_of_elements, elem_of_dom, list_elem_of_fmap.
    split.
    + intros [v Hv]. exists (i, v). split; [reflexivity|].
      now apply elem_of_map_to_list.
    + intros ([j v] & -> & Hv). apply elem_of_map_to_list in Hv. eauto.
Qed.

Lemma strictly_sorted (l : list nat) :
  StronglySorted Nat.le l -> NoDup l -> StronglySorted lt l.
Proof.
  induction 1 as [|x l Hs IH Hall]; intros Hnd; constructor.
  - apply IH. now apply NoDup_cons in Hnd as [_ Hnd].
  - apply NoDup_cons in Hnd as [Hx _].
    rewrite List.Forall_forall in *. intros y Hy.
    pose proof (Hall y Hy) as Hle. apply list_elem_of_In in Hy.
    assert (x <> y) by (intros ->; contradiction). unfold Nat.le in Hle. lia.
Qed.

Lemma sorted_keys_strict {V} (d : gmap nat V) :
  StronglySorted lt (Detection.sorted_keys d).
Proof.
  apply strictly_sorted.
  - unfold Detection.sorted_keys.
    apply StronglySorted_merge_sort; [apply _|].
    intros x y. unfold Nat.le. lia.
  - rewrite sorted_keys_perm. apply NoDup_fst_map_to_list.
Qed.

Lemma sorted_keys_length {V} (d : gmap nat V) :
  length (Detection.sorted_keys d) = size d.
Proof.
  rewrite sorted_keys_perm, length_fmap. apply length_map_to_list.
Qed.

Lemma fold_left_Zadd (l : list Z) (a : Z) :
  fold_left Z.add l a = (a + foldr Z.add 0 l)%Z.
Proof.
  revert a. induction l as [|x l IH]; intros a; cbn [fold_left foldr];
    [lia|]. rewrite IH. lia.
Qed.

Lemma foldr_Zadd_perm (l1 l2 : list Z) :
  l1 ≡ₚ l2 -> foldr Z.add 0%Z l1 = foldr Z.add 0%Z l2.
Proof.
  induction 1; cbn [foldr]; lia.
Qed.

Lemma rows_project (now : nat -> Q)
    (cbs : gmap nat Detection.EnhancedInstanceCallback)
    (proj : Detection.InstanceLine -> Z)
    (h : Detection.EnhancedInstanceCallback -> Z) (keys : list nat) :
  (forall i cb, proj (Board.line_of now i cb) = h cb) ->
  (forall i, i ∈ keys -> is_Some (cbs !! i)) ->
  map proj (Board.rows now cbs keys)
  = map (fun i => from_option h 0%Z (cbs !! i)) keys.
Proof.
  intros Hproj. induction keys as [|i keys IH]; intros Hk; [reflexivity|].
  destruct (Hk i) as [cb Hi]; [left|].
  unfold Board.rows. cbn [omap list_omap map]. rewrite Hi.
  cbn [fmap option_fmap option_map map from_option].
  rewrite Hproj. f_equal. apply IH. intros j Hj. apply Hk. now right.
Qed.

Lemma rows_total (now : nat -> Q)
    (cbs : gmap nat Detection.EnhancedInstanceCallback)
    (proj : Detection.InstanceLine -> Z)
    (h : Detection.EnhancedInstanceCallback -> Z) :
  (forall i cb, proj (Board.line_of now i cb) = h cb) ->
  fold_left Z.add
    (map proj (Board.rows now cbs (Detection.sorted_keys cbs))) 0%Z
  = map_fold (fun _ cb acc => (h cb + acc)%Z) 0%Z cbs.
Proof.
  intros Hproj.
  rewrite (rows_project now cbs proj h _ Hproj)
    by (intros i; apply sorted_keys_elem).
  rewrite fold_left_Zadd, Z.add_0_l, map_fold_foldr.
  rewrite (foldr_Zadd_perm _
             (map (fun i => from_option h 0%Z (cbs !! i))
                (map_to_list cbs).*1))
    by (apply fmap_Permutation, sorted_keys_perm).
  assert (Hin : forall p, p ∈ map_to_list cbs -> cbs !! p.1 = Some p.2)
    by (intros [i cb] Hp; now apply elem_of_map_to_list in Hp).
  induction (map_to_list cbs) as [|[i cb] l IH]; [reflexivity|].
  pose proof (Hin (i, cb) ltac:(left)) as Hi. cbn [fst snd] in Hi.
  cbn [fmap list_fmap map foldr fst uncurry]. rewrite Hi.
  cbn [from_option]. f_equal. apply IH. intros p Hp. apply Hin. now right.
Qed.

(** X13.  Every pass of the dashboard, whatever the dictionary holds:
    it prints one line per registered instance and none for anything
    else, in strictly increasing order of instance id (so no id twice);
    each line shows the frame count, the detection total and the current
    rate of the object stored under that id; and the totals of the
    summary are the sums of the frame counts and of the detection totals
    over the whole dictionary. *)
Theorem dashboard_lines_and_totals (now : nat -> Q)
    (cbs : gmap nat Detection.EnhancedInstanceCallback) :
  exists d,
    Detection.dashboard_pass now cbs = Py.Ok d /\
    StronglySorted lt (map Detection.line_instance (Detection.per_instance d))
    /\
    Z.of_nat (length (Detection.per_instance d)) = Detection.instances d /\
    Detection.instances d = Z.of_nat (size cbs) /\
    (forall ln, ln ∈ Detection.per_instance d ->
       exists cb,
         cbs !! Detection.line_instance ln = Some cb /\
         Detection.line_frames ln = Detection.get_count cb /\
         Detection.line_detections ln = Detection.total_detections cb /\
         Detection.line_current_fps ln = Detection.current_fps cb) /\
    Detection.frames d
      = map_fold (fun _ cb acc => (Detection.get_count cb + acc)%Z) 0%Z cbs /\
    Detection.detections d
      = map_fold (fun _ cb acc => (Detection.total_detections cb + acc)%Z)
          0%Z cbs.
Proof.
  rewrite dashboard_pass_closed. cbn zeta. eexists.
  split; [reflexivity|].
  cbn [Detection.per_instance Detection.instances Detection.frames
       Detection.detections].
  assert (Hids : map Detection.line_instance
                   (Board.rows now cbs (Detection.sorted_keys cbs))
                 = Detection.sorted_keys cbs)
    by (apply rows_instances; intros i; apply sorted_keys_elem).
  split; [rewrite Hids; apply sorted_keys_strict|].
  split; [|split; [reflexivity|split; [|split]]].
  - rewrite <- (length_map Detection.line_instance), Hids.
    now rewrite sorted_keys_length.
  - intros ln Hln. unfold Board.rows in Hln.
    apply list_elem_of_omap in Hln as (i & _ & Hi).
    destruct (cbs !! i) as [cb|] eqn:E; [|discriminate Hi].
    injection Hi as <-. exists cb. cbn. now rewrite E.
  - unfold Board.sum_frames. now apply rows_total.
  - unfold Board.sum_detections. now apply rows_total.
Qed.

Lemma sum_at_least (l : list Q) (a : Q) :
  (forall x, x ∈ l -> (0 <= x)%Q) -> (a <= fold_left Qplus l a)%Q.
Proof.
  revert a. induction l as [|x l IH]; intros a Hl; cbn [fold_left].
  - apply Qle_refl.
  - apply Qle_trans with (a + x)%Q.
    + rewrite <- (Qplus_0_r a) at 1. apply Qplus_le_r. apply Hl. left.
    + apply IH. intros y Hy. apply Hl. now right.
Qed.

Lemma sum_at_most (bound : Q) (l : list Q) (a : Q) :
  (forall x, x ∈ l -> (x <= bound)%Q) ->
  (fold_left Qplus l a <= a + bound * inject_Z (Z.of_nat (length l)))%Q.
Proof.
  revert a. induction l as [|x l IH]; intros a Hl; cbn [fold_left length].
  - change (inject_Z (Z.of_nat 0)) with 0%Q. rewrite Qmult_0_r, Qplus_0_r.
    apply Qle_refl.
  - eapply Qle_trans; [apply IH; intros y Hy; apply Hl; now right|].
    rewrite Nat2Z.inj_succ. unfold Z.succ. rewrite inject_Z_plus.
    assert (Hx : (x <= bound)%Q) by (apply Hl; left).
    apply Qle_minus_iff. apply Qle_minus_iff in Hx.
    change (inject_Z 1) with 1%Q. ring_simplify.
    ring_simplify in Hx. exact Hx.
Qed.

Lemma sum_at_least_bound (bound : Q) (l : list Q) (a : Q) :
  (forall x, x ∈ l -> (bound <= x)%Q) ->
  (a + bound * inject_Z (Z.of_nat (length l)) <= fold_left Qplus l a)%Q.
Proof.
  revert a. induction l as [|x l IH]; intros a Hl; cbn [fold_left length].
  - change (inject_Z (Z.of_nat 0)) with 0%Q. rewrite Qmult_0_r, Qplus_0_r.
    apply Qle_refl.
  - eapply Qle_trans; [|apply IH; intros y Hy; apply Hl; now right].
    rewrite Nat2Z.inj_succ. unfold Z.succ. rewrite inject_Z_plus.
    assert (Hx : (bound <= x)%Q) by (apply Hl; left).
    apply Qle_minus_iff. apply Qle_minus_iff in Hx.
    change (inject_Z 1) with 1%Q. ring_simplify.
    ring_simplify in Hx. exact Hx.
Qed.

Lemma sum_above (bound : Q) (l : list Q) (a : Q) :
  l <> [] -> (forall x, x ∈ l -> (bound < x)%Q) ->
  (a + bound * inject_Z (Z.of_nat (length l)) < fold_left Qplus l a)%Q.
Proof.
  destruct l as [|x l]; [congruence|]. intros _ Hl.
  cbn [fold_left length].
  eapply Qlt_le_trans;
    [|apply (sum_at_least_bound bound); intros y Hy;
      apply Qlt_le_weak, Hl; now right].
  rewrite Nat2Z.inj_succ. unfold Z.succ. rewrite inject_Z_plus.
  assert (Hx : (bound < x)%Q) by (apply Hl; left).
  apply Qlt_minus_iff. apply Qlt_minus_iff in Hx.
  change (inject_Z 1) with 1%Q. ring_simplify.
  ring_simplify in Hx. exact Hx.
Qed.

(** X14.  The efficiency figure of the dashboard is a percentage of
    30 frames per second and per registered instance, and is bounded
    accordingly: it is not negative as long as no line shows a negative
    average, it stays at or below 100 as long as no line shows an
    average above 30, and it exceeds 100 as soon as every registered
    instance averages above 30. *)
Theorem efficiency_bounds (now : nat -> Q)
    (cbs : gmap nat Detection.EnhancedInstanceCallback) :
  exists d,
    Detection.dashboard_pass now cbs = Py.Ok d /\
    ((forall ln, ln ∈ Detection.per_instance d ->
        (0 <= Detection.line_average_fps ln)%Q) ->
     (0 <= Detection.combined_fps d)%Q /\ (0 <= Detection.efficiency d)%Q)
    /\
    ((forall ln, ln ∈ Detection.per_instance d ->
        (Detection.line_average_fps ln <= 30)%Q) ->
     (Detection.efficiency d <= 100)%Q)
    /\
    (cbs <> ∅ ->
     (forall ln, ln ∈ Detection.per_instance d ->
        (30 < Detection.line_average_fps ln)%Q) ->
     (100 < Detection.efficiency d)%Q).
Proof.
  rewrite dashboard_pass_closed. cbn zeta. eexists.
  split; [reflexivity|].
  cbn [Detection.per_instance Detection.combined_fps Detection.efficiency].
  set (ls := Board.rows now cbs (Detection.sorted_keys cbs)).
  assert (Hlen : length (map Detection.line_average_fps ls) = size cbs).
  { rewrite length_map, <- (length_map Detection.line_instance).
    unfold ls. rewrite rows_instances
      by (intros i; apply sorted_keys_elem).
    apply sorted_keys_length. }
  assert (Hmem : forall P : Q -> Prop,
            (forall ln, ln ∈ ls -> P (Detection.line_average_fps ln)) ->
            forall x, x ∈ map Detection.line_average_fps ls -> P x).
  { intros P HP x Hx. apply list_elem_of_fmap in Hx as (ln & -> & Hln).
    now apply HP. }
  assert (Hden : (0 < Z.of_nat (size cbs))%Z ->
                 (0 < inject_Z (Z.of_nat (size cbs) * 30))%Q).
  { intros Hn. change 0%Q with (inject_Z 0). rewrite <- Zlt_Qlt. lia. }
  split; [|split].
  - intros Hpos.
    assert (Hsum : (0 <= Board.sum_fps 0 ls)%Q)
      by (apply sum_at_least, (Hmem (fun x => (0 <= x)%Q)), Hpos).
    split; [exact Hsum|].
    destruct (0 <? Z.of_nat (size cbs))%Z eqn:E; [|apply Qle_refl].
    apply Z.ltb_lt in E.
    apply Qmult_le_0_compat; [|discriminate].
    apply Qle_shift_div_l; [now apply Hden|].
    now rewrite Qmult_0_l.
  - intros Hmax.
    destruct (0 <? Z.of_nat (size cbs))%Z eqn:E; [|discriminate].
    apply Z.ltb_lt in E.
    apply Qle_trans with (1 * 100)%Q; [|apply Qle_refl].
    apply Qmult_le_compat_r; [|discriminate].
    apply Qle_shift_div_r; [now apply Hden|].
    rewrite Qmult_1_l.
    eapply Qle_trans;
      [apply (sum_at_most 30), (Hmem (fun x => (x <= 30)%Q)), Hmax|].
    rewrite Hlen, Qplus_0_l, inject_Z_mult, Qmult_comm. apply Qle_refl.
  - intros Hne Hmin.
    assert (Hn : size cbs <> 0) by (rewrite map_size_empty_iff; exact Hne).
    replace (0 <? Z.of_nat (size cbs))%Z with true
      by (symmetry; apply Z.ltb_lt; lia).
    apply Qle_lt_trans with (1 * 100)%Q; [apply Qle_refl|].
    apply Qmult_lt_compat_r; [reflexivity|].
    apply Qlt_shift_div_l; [apply Hden; lia|].
    rewrite Qmult_1_l.
    eapply Qle_lt_trans;
      [|apply (sum_above 30), (Hmem (fun x => (30 < x)%Q)), Hmin].
    + rewrite Hlen, Qplus_0_l, inject_Z_mult, Qmult_comm. apply Qle_refl.
    + intros Hnil. rewrite Hnil in Hlen. cbn in Hlen. lia.
Qed.

(** ** Pipeline strings that lack the element to be replaced *)

Lemma scan_absent (fuel : nat) (old new s : string) :
  PyStr.contains old s = false -> PyStr.replace_scan fuel old new s = s.
Proof.
  revert s. induction fuel as [|fuel IH]; intros s Hs; [reflexivity|].
  cbn [PyStr.replace_scan].
  destruct s as [|c s]; cbn [PyStr.contains] in Hs;
    apply orb_false_iff in Hs as [Hstart Hrest];
    unfold PyStr.startswith in Hstart;
    destruct (PyStr.strip_prefix old _); try discriminate Hstart;
    [reflexivity|].
  now rewrite IH.
Qed.

Lemma replace_absent (s old new : string) :
  old <> EmptyString -> PyStr.contains old s = false ->
  PyStr.replace s old new = s.
Proof.
  intros Hold Hs. unfold PyStr.replace.
  destruct old; [congruence|]. now apply scan_absent.
Qed.

(** An occurrence of [q] in the result was in the input, provided [new]
    cannot take part in one. *)
Lemma scan_keeps_absent (old' new' q : string) (p0 r0 : ascii) :
  PyStr.has_char r0 q = false ->
  PyStr.no_overlap q (String r0 new') = true ->
  forall fuel s,
    PyStr.contains q s = false ->
    PyStr.contains q
      (PyStr.replace_scan fuel (String p0 old') (String r0 new') s) = false.
Proof.
  intros Hq Hov. induction fuel as [|fuel IH]; intros s Hs; [exact Hs|].
  cbn [PyStr.replace_scan].
  destruct (PyStr.strip_prefix (String p0 old') s) as [rest|] eqn:E.
  - apply contains_app_no_overlap; [exact Hov|]. apply IH.
    apply strip_prefix_Some in E. subst s.
    apply not_true_iff_false. intros Hrest.
    apply (contains_app_r q (String p0 old')) in Hrest. congruence.
  - destruct s as [|c s]; [exact Hs|].
    rewrite contains_cons in Hs. apply orb_false_iff in Hs as [Hst Hs].
    rewrite contains_cons, (IH s Hs), orb_false_r.
    apply not_true_iff_false. intros H.
    destruct q as [|a q]; [discriminate Hst|].
    rewrite startswith_cons in *.
    apply andb_true_iff in H as [H1 H2]. rewrite H1 in Hst.
    cbn [PyStr.has_char] in Hq. apply orb_false_iff in Hq as [_ Hq].
    apply (scan_prefix_copied old' (String r0 new') p0 r0 new' eq_refl)
      in H2; [|exact Hq].
    rewrite H2 in Hst. discriminate Hst.
Qed.

(** X15.  [get_pipeline_string] relies on the text of the framework's
    pipeline.  When that text has no ["hailonet "] element the device
    group is silently not set: instance 0 returns the framework's
    pipeline unchanged, and so does every other instance whose pipeline
    has no ["fpsdisplaysink"] either; an instance other than 0 still
    has its display replaced.  In no case does the result mention a
    device group. *)
Theorem pipeline_without_hailonet (self : Detection.YOLOv11lDetectionApp)
    (base : string) :
  PyStr.contains "hailonet " base = false ->
  (Detection.app_instance_id self = 0 ->
   Detection.get_pipeline_string self base = base) /\
  (PyStr.contains "fpsdisplaysink" base = false ->
   Detection.get_pipeline_string self base = base) /\
  (0 < Detection.app_instance_id self ->
   Detection.get_pipeline_string self base
   = PyStr.replace base "fpsdisplaysink" "fakesink sync=false" /\
   Detection.shows_video (Detection.get_pipeline_string self base) = false)
  /\
  (PyStr.contains "vdevice-group-id" base = false ->
   PyStr.contains "vdevice-group-id"
     (Detection.get_pipeline_string self base) = false).
Proof.
  intros Hbase. unfold Detection.get_pipeline_string.
  rewrite (replace_absent base "hailonet " _) by (congruence || exact Hbase).
  repeat split.
  - intros ->. reflexivity.
  - intros Hsink. destruct (0 <? _); [|reflexivity].
    now apply replace_absent.
  - apply Nat.ltb_lt in H. now rewrite H.
  - apply Nat.ltb_lt in H. rewrite H. unfold Detection.shows_video.
    apply replace_display_leaves_none.
  - intros Hgroup. destruct (0 <? _); [|exact Hgroup].
    unfold PyStr.replace.
    now apply (scan_keeps_absent "psdisplaysink" "akesink sync=false"
                 "vdevice-group-id" "f" "f").
Qed.

Lemma pipeline_without_hailonet_witness :
  let self := {| Detection.app_instance_id := 0; Detection.user_data := 0;
                 Detection.hef_path := Detection.yolo11_path;
                 Detection.batch_size := 1;
                 Detection.thresholds_str := "" |} in
  Detection.get_pipeline_string self "videotestsrc ! fpsdisplaysink"
  = "videotestsrc ! fpsdisplaysink".
Proof.
  intros self.
  destruct (pipeline_without_hailonet self "videotestsrc ! fpsdisplaysink")
    as [H _]; [reflexivity | apply H; reflexivity].
Defined.

(** ** The constructor of [multi_instance_yolo11l.py] *)

(** X16.  When the framework constructor has succeeded, the rest of
    [MultiInstanceDetectionApp.__init__] succeeds exactly when a model
    is available (a non-empty [--model-path], the YOLOv11l file, or the
    default model), an architecture is known (given or detected), a
    video source is available ([--input], the webcam for instance 0, or
    the test video) and [create_pipeline] succeeds.  A missing
    post-processing library or labels file plays no part.  Without a
    model, and with a model but without an architecture, the exception
    is a [ValueError], whatever the failed lookup itself raised. *)
Theorem yolo11l_construction (instance total : nat)
    (env : Yolo11l.Environment) :
  Yolo11l.super_init env = Py.Ok tt ->
  let model_available :=
    Yolo11l.truthy (Yolo11l.opt_model_path env) <> None \/
    Yolo11l.yolo11_exists env = true \/
    (exists path, Yolo11l.default_model env = Py.Ok path) in
  let arch_available :=
    Yolo11l.opt_arch env <> None \/ Yolo11l.detected_arch env <> None in
  let source_available :=
    Yolo11l.opt_input env <> None \/
    (instance = 0 /\ Yolo11l.video0_exists env = true) \/
    (exists path, Yolo11l.test_video env = Py.Ok path) in
  ((exists app, Yolo11l.app_init instance total env = Py.Ok app) <->
   model_available /\ arch_available /\ source_available /\
   Yolo11l.create_pipeline env = Py.Ok tt) /\
  (~ model_available ->
   Yolo11l.app_init instance total env = Py.Raise Py.ValueError) /\
  (model_available -> ~ arch_available ->
   Yolo11l.app_init instance total env = Py.Raise Py.ValueError).
Proof.
  intros Hsuper. cbn zeta. unfold Yolo11l.app_init. rewrite Hsuper.
  cbn [mbind result_bind Py.bind].
  set (model := match Yolo11l.truthy (Yolo11l.opt_model_path env) with
                | Some path => mret path
                | None => _
                end).
  set (arch := match Yolo11l.opt_arch env with
               | Some a => mret a
               | None => _
               end).
  set (source := match Yolo11l.opt_input env with
                 | Some input => mret input
                 | None => _
                 end).
  assert (Hmodel :
            ((exists h, model = Py.Ok h) /\
             (Yolo11l.truthy (Yolo11l.opt_model_path env) <> None \/
              Yolo11l.yolo11_exists env = true \/
              (exists path, Yolo11l.default_model env = Py.Ok path))) \/
            (model = Py.Raise Py.ValueError /\
             ~ (Yolo11l.truthy (Yolo11l.opt_model_path env) <> None \/
                Yolo11l.yolo11_exists env = true \/
                (exists path, Yolo11l.default_model env = Py.Ok path)))).
  { unfold model.
    destruct (Yolo11l.truthy (Yolo11l.opt_model_path env)) as [path|];
      [left; split; [eauto | left; discriminate]|].
    destruct (Yolo11l.yolo11_exists env);
      [left; split; [eauto | right; now left]|].
    destruct (Yolo11l.default_model env) as [path|e];
      [left; split; [eauto | right; right; eauto]|].
    right. split; [reflexivity|].
    intros [H | [H | [path H]]]; congruence. }
  assert (Harch :
            ((exists a, arch = Py.Ok a) /\
             (Yolo11l.opt_arch env <> None \/
              Yolo11l.detected_arch env <> None)) \/
            (arch = Py.Raise Py.ValueError /\
             ~ (Yolo11l.opt_arch env <> None \/
                Yolo11l.detected_arch env <> None))).
  { unfold arch.
    destruct (Yolo11l.opt_arch env) as [a|];
      [left; split; [eauto | left; discriminate]|].
    destruct (Yolo11l.detected_arch env) as [d|];
      [left; split; [eauto | right; discriminate]|].
    right. split; [reflexivity|]. intros [H | H]; congruence. }
  assert (Hsource :
            ((exists v, source = Py.Ok v) /\
             (Yolo11l.opt_input env <> None \/
              (instance = 0 /\ Yolo11l.video0_exists env = true) \/
              (exists path, Yolo11l.test_video env = Py.Ok path))) \/
            ((exists e, source = Py.Raise e) /\
             ~ (Yolo11l.opt_input env <> None \/
                (instance = 0 /\ Yolo11l.video0_exists env = true) \/
                (exists path, Yolo11l.test_video env = Py.Ok path)))).
  { unfold source.
    destruct (Yolo11l.opt_input env) as [input|];
      [left; split; [eauto | left; discriminate]|].
    destruct (Nat.eqb_spec instance 0) as [->|Hne];
      destruct (Yolo11l.video0_exists env); cbn [andb];
      try (left; split; [eauto | right; left; now split]);
      (destruct (Yolo11l.test_video env) as [path|e];
       [left; split; [eauto | right; right; eauto]|];
       right; split; [eauto|];
       intros [H | [[H1 H2] | [path H]]]; congruence). }
  clearbody model arch source.
  assert (Hcp : Yolo11l.create_pipeline env = Py.Ok tt \/
                exists e, Yolo11l.create_pipeline env = Py.Raise e)
    by (destruct (Yolo11l.create_pipeline env) as [[]|e]; eauto).
  destruct Hmodel as [[[h ->] Hm] | [-> Hm]]; cbn [Py.bind];
    [|split; [split; [intros [app H]; discriminate H | tauto]|];
      split; [reflexivity | tauto]].
  destruct Harch as [[[a ->] Ha] | [-> Ha]]; cbn [Py.bind];
    [|split; [split; [intros [app H]; discriminate H | tauto]|];
      split; [tauto | reflexivity]].
  split; [|split; tauto].
  destruct Hsource as [[[v ->] Hs] | [[e ->] Hs]]; cbn [Py.bind];
    [|split; [intros [app H]; discriminate H | tauto]].
  destruct Hcp as [-> | [e Hcp]]; cbn [Py.bind mret result_ret].
  - split; [tauto | eauto].
  - rewrite Hcp. cbn [Py.bind].
    split; [intros [app H]; discriminate H|].
    intros (_ & _ & _ & H). discriminate H.
Qed.

Lemma yolo11l_construction_witness :
  let env := {| Yolo11l.super_init := Py.Ok tt;
                Yolo11l.opt_model_path := Some "";
                Yolo11l.opt_arch := None;
                Yolo11l.opt_input := None;
                Yolo11l.opt_labels_json := None;
                Yolo11l.yolo11_exists := false;
                Yolo11l.default_model := Py.Raise Py.KeyboardInterrupt;
                Yolo11l.detected_arch := Some "hailo8";
                Yolo11l.video0_exists := true;
                Yolo11l.test_video := Py.Ok "example.mp4";
                Yolo11l.postprocess_so := Py.Ok "libyolo.so";
                Yolo11l.postprocess_function := "filter";
                Yolo11l.env_frame_rate := 30;
                Yolo11l.env_sync := true;
                Yolo11l.env_video_sink := "autovideosink";
                Yolo11l.env_show_fps := true;
                Yolo11l.create_pipeline := Py.Ok tt;
                Yolo11l.app_run := Py.Ok tt |} in
  Yolo11l.app_init 1 4 env = Py.Raise Py.ValueError.
Proof.
  intros env.
  destruct (yolo11l_construction 1 4 env eq_refl) as (_ & H & _).
  apply H. intros [Hm | [Hm | [path Hm]]];
    [now apply Hm | discriminate Hm | discriminate Hm].
Defined.

(** X17.  What a successfully constructed instance runs.  Its model is
    the [--model-path] argument when one is given, else the YOLOv11l
    file when it exists, else the default model; its inference element
    runs in device group [instance_id + 1] with batch size 1.  Without
    [--input], only instance 0 reads the webcam, and only when
    [/dev/video0] exists: every other instance reads the test video. *)
Theorem yolo11l_constructed_pipeline (instance total : nat)
    (env : Yolo11l.Environment) (app : Yolo11l.MultiInstanceDetectionApp) :
  Yolo11l.app_init instance total env = Py.Ok app ->
  let parts := Yolo11l.pipeline_parts app in
  let model := Hailo.hef_path (Yolo11l.inference_pipeline parts) in
  let source := Hailo.video_source (Yolo11l.source_pipeline parts) in
  (forall path, Yolo11l.truthy (Yolo11l.opt_model_path env) = Some path ->
     model = path) /\
  (Yolo11l.truthy (Yolo11l.opt_model_path env) = None ->
     if Yolo11l.yolo11_exists env then model = Detection.yolo11_path
     else Yolo11l.default_model env = Py.Ok model) /\
  Hailo.vdevice_group_id (Yolo11l.inference_pipeline parts) = instance + 1 /\
  Hailo.batch_size (Yolo11l.inference_pipeline parts) = 1%Z /\
  (forall input, Yolo11l.opt_input env = Some input -> source = input) /\
  (Yolo11l.opt_input env = None ->
     if (instance =? 0) && Yolo11l.video0_exists env
     then source = "/dev/video0"
     else Yolo11l.test_video env = Py.Ok source) /\
  (Yolo11l.opt_input env = None -> instance <> 0 ->
     Yolo11l.test_video env = Py.Ok source).
Proof.
  intros H. unfold Yolo11l.app_init in H.
  destruct (Yolo11l.super_init env) as [[]|e0]; [|discriminate H].
  cbn [mbind result_bind Py.bind] in H.
  destruct (Yolo11l.truthy (Yolo11l.opt_model_path env)) as [path|] eqn:Em;
    [|destruct (Yolo11l.yolo11_exists env) eqn:Ey;
      [|destruct (Yolo11l.default_model env) as [dpath|de] eqn:Ed;
        [|discriminate H]]];
    cbn [Py.bind mret result_ret] in H;
    (destruct (Yolo11l.opt_arch env) as [a|] eqn:Ea;
     [|destruct (Yolo11l.detected_arch env) as [d|] eqn:Ed';
       [|discriminate H]]);
    cbn [Py.bind mret result_ret] in H;
    (destruct (Yolo11l.opt_input env) as [input|] eqn:Ei;
     [|destruct ((instance =? 0) && Yolo11l.video0_exists env) eqn:Ew;
       [|destruct (Yolo11l.test_video env) as [tpath|te] eqn:Et;
         [|discriminate H]]]);
    cbn [Py.bind mret result_ret] in H;
    (destruct (Yolo11l.create_pipeline env) as [[]|ce]; [|discriminate H]);
    cbn [Py.bind mret result_ret] in H;
    injection H as <-; cbn;
    repeat split; try congruence; try discriminate;
    try (intros _ Hne; apply andb_true_iff in Ew as [Ew _];
         apply Nat.eqb_eq in Ew; contradiction).
Qed.

Lemma yolo11l_constructed_pipeline_witness :
  let env := {| Yolo11l.super_init := Py.Ok tt;
                Yolo11l.opt_model_path := None;
                Yolo11l.opt_arch := None;
                Yolo11l.opt_input := None;
                Yolo11l.opt_labels_json := None;
                Yolo11l.yolo11_exists := true;
                Yolo11l.default_model := Py.Raise Py.RuntimeError;
                Yolo11l.detected_arch := Some "hailo8";
                Yolo11l.video0_exists := true;
                Yolo11l.test_video := Py.Ok "example.mp4";
                Yolo11l.postprocess_so := Py.Raise Py.RuntimeError;
                Yolo11l.postprocess_function := "filter";
                Yolo11l.env_frame_rate := 30;
                Yolo11l.env_sync := true;
                Yolo11l.env_video_sink := "autovideosink";
                Yolo11l.env_show_fps := true;
                Yolo11l.create_pipeline := Py.Ok tt;
                Yolo11l.app_run := Py.Ok tt |} in
  exists app,
    Yolo11l.app_init 2 4 env = Py.Ok app /\
    Yolo11l.test_video env
    = Py.Ok (Hailo.video_source
               (Yolo11l.source_pipeline (Yolo11l.pipeline_parts app))).
Proof.
  intros env. eexists. split; [reflexivity|].
  apply (yolo11l_constructed_pipeline 2 4 env _ eq_refl);
    [reflexivity | discriminate].
Defined.

(** ** What the runners let through *)

Lemma detection_said_no_error (instance : nat)
    (si : Py.result string) (ye : bool) (x : Detection.Printed) :
  x ∈ Detection.Starting instance :: Detection.app_init_output instance si ye
  -> (forall e, x <> Detection.InstanceError instance e) /\
     x <> Detection.Traceback.
Proof.
  unfold Detection.app_init_output. intros Hx.
  destruct si as [hef|e0], ye;
    repeat (apply elem_of_cons in Hx as [-> | Hx];
            [split; [intros ?|]; discriminate|]);
    now apply elem_of_nil in Hx.
Qed.

Lemma yolo11l_said_no_error (instance : nat) (gst : Py.result unit)
    (env : Yolo11l.Environment) (x : Yolo11l.Printed) :
  x ∈ Yolo11l.Starting instance
      :: match gst with
         | Py.Ok _ => Yolo11l.app_init_output instance env
         | Py.Raise _ => []
         end
  -> (forall e, x <> Yolo11l.InstanceError instance e) /\
     x <> Yolo11l.Traceback.
Proof.
  intros Hx. apply elem_of_cons in Hx as [-> | Hx];
    [split; [intros ?|]; discriminate|].
  destruct gst as [u|ge]; [|now apply elem_of_nil in Hx].
  unfold Yolo11l.app_init_output in Hx.
  destruct (Yolo11l.super_init env); [|now apply elem_of_nil in Hx].
  destruct (Yolo11l.truthy (Yolo11l.opt_model_path env)),
    (Yolo11l.yolo11_exists env), (Yolo11l.default_model env),
    (Yolo11l.opt_arch env), (Yolo11l.detected_arch env),
    (Yolo11l.opt_input env), ((instance =? 0) && Yolo11l.video0_exists env),
    (Yolo11l.test_video env), (Yolo11l.postprocess_so env);
    cbn [app] in Hx;
    repeat (apply elem_of_cons in Hx as [-> | Hx];
            [split; [intros ?|]; discriminate|]);
    now apply elem_of_nil in Hx.
Qed.

(** X18.  [run_instance] and [run_single_instance] catch [Exception]
    only.  The runner raises exactly when constructing or running the
    application raises something that does not derive from [Exception]
    (a [KeyboardInterrupt] or a [SystemExit]); it then raises that very
    exception.  The runner prints its error line, and the traceback,
    exactly when it has caught an exception, and the line names that
    exception: nothing of the kind is printed for an exception it lets
    through.  In every case but the latter it returns normally. *)
Theorem runners_let_through (instance total : nat)
    (fw : Detection.Framework) (m : Detection.Memory)
    (gst : Py.result unit) (env : Yolo11l.Environment) :
  let body :=
    (Detection.app_init instance (Detection.clock0 fw) (Detection.clock1 fw)
       (Detection.super_init fw) (Detection.yolo11_exists fw) m).2
      ≫= Detection.run fw in
  let out := Detection.run_instance instance fw m in
  let ybody :=
    gst ≫= fun _ => Yolo11l.app_init instance total env
        ≫= fun _ => Yolo11l.app_run env in
  let yout := Yolo11l.run_single_instance instance total gst env in
  (forall e, out.2 = Py.Raise e <->
             body = Py.Raise e /\ Py.isinstance_Exception e = false) /\
  (forall e, Detection.InstanceError instance e ∈ out.1.2 <->
             body = Py.Raise e /\ Py.isinstance_Exception e = true) /\
  (Detection.Traceback ∈ out.1.2 <->
   exists e, body = Py.Raise e /\ Py.isinstance_Exception e = true) /\
  (out.2 = Py.Ok tt \/ out.2 = Py.Raise Py.SystemExit \/
   out.2 = Py.Raise Py.KeyboardInterrupt) /\
  (forall e, yout.2 = Py.Raise e <->
             ybody = Py.Raise e /\ Py.isinstance_Exception e = false) /\
  (forall e, Yolo11l.InstanceError instance e ∈ yout.1 <->
             ybody = Py.Raise e /\ Py.isinstance_Exception e = true) /\
  (Yolo11l.Traceback ∈ yout.1 <->
   exists e, ybody = Py.Raise e /\ Py.isinstance_Exception e = true) /\
  (yout.2 = Py.Ok tt \/ yout.2 = Py.Raise Py.SystemExit \/
   yout.2 = Py.Raise Py.KeyboardInterrupt).
Proof.
  cbn zeta.
  assert (Hd : forall x,
            x ∈ Detection.Starting instance
                :: Detection.app_init_output instance
                     (Detection.super_init fw) (Detection.yolo11_exists fw)
            -> (forall e, x <> Detection.InstanceError instance e) /\
               x <> Detection.Traceback)
    by (intros x; apply detection_said_no_error).
  assert (Hy : forall x,
            x ∈ Yolo11l.Starting instance
                :: match gst with
                   | Py.Ok _ => Yolo11l.app_init_output instance env
                   | Py.Raise _ => []
                   end
            -> (forall e, x <> Yolo11l.InstanceError instance e) /\
               x <> Yolo11l.Traceback)
    by (intros x; apply yolo11l_said_no_error).
  unfold Detection.run_instance, Yolo11l.run_single_instance.
  destruct (Detection.app_init instance _ _ _ _ m) as [m' constructed].
  cbn [snd]. cbn zeta.
  change (_ ← gst; _ ← Yolo11l.app_init instance total env;
          Yolo11l.app_run env)
    with (gst ≫= fun _ => Yolo11l.app_init instance total env
              ≫= fun _ => Yolo11l.app_run env).
  set (said := Detection.Starting instance :: _) in *.
  set (ysaid := Yolo11l.Starting instance :: _) in *.
  split; [|split; [|split; [|split]]];
    [| | | |split; [|split; [|split]]].
  - intros e. destruct (constructed ≫= Detection.run fw) as [[]|e1];
      [cbn; split; [discriminate | intros [H _]; discriminate H]|].
    destruct (Py.isinstance_Exception e1) eqn:E1; cbn; split.
    + discriminate.
    + intros [[= ->] H]. congruence.
    + intros [= ->]. now split.
    + intros [[= ->] _]. reflexivity.
  - intros e. destruct (constructed ≫= Detection.run fw) as [[]|e1];
      [|destruct (Py.isinstance_Exception e1) eqn:E1]; cbn [fst snd];
      split.
    + intros H. now destruct (proj1 (Hd _ H) e).
    + intros [H _]. discriminate H.
    + intros H. apply elem_of_app in H as [H | H];
        [now destruct (proj1 (Hd _ H) e)|].
      apply elem_of_cons in H as [[= ->] | H]; [now split|].
      apply list_elem_of_singleton in H. discriminate H.
    + intros [[= ->] _]. apply elem_of_app. right. left.
    + intros H. now destruct (proj1 (Hd _ H) e).
    + intros [[= ->] H]. congruence.
  - destruct (constructed ≫= Detection.run fw) as [[]|e1];
      [|destruct (Py.isinstance_Exception e1) eqn:E1]; cbn [fst snd];
      split.
    + intros H. now destruct (proj2 (Hd _ H)).
    + intros (e & H & _). discriminate H.
    + intros _. eauto.
    + intros _. apply elem_of_app. right. right. left.
    + intros H. now destruct (proj2 (Hd _ H)).
    + intros (e & [= ->] & H). congruence.
  - destruct (constructed ≫= Detection.run fw) as [[]|[]]; cbn; tauto.
  - intros e.
    destruct (gst ≫= _) as [[]|e1];
      [cbn; split; [discriminate | intros [H _]; discriminate H]|].
    destruct (Py.isinstance_Exception e1) eqn:E1; cbn; split.
    + discriminate.
    + intros [[= ->] H]. congruence.
    + intros [= ->]. now split.
    + intros [[= ->] _]. reflexivity.
  - intros e. destruct (gst ≫= _) as [[]|e1];
      [|destruct (Py.isinstance_Exception e1) eqn:E1]; cbn [fst snd];
      split.
    + intros H. now destruct (proj1 (Hy _ H) e).
    + intros [H _]. discriminate H.
    + intros H. apply elem_of_app in H as [H | H];
        [now destruct (proj1 (Hy _ H) e)|].
      apply elem_of_cons in H as [[= ->] | H]; [now split|].
      apply list_elem_of_singleton in H. discriminate H.
    + intros [[= ->] _]. apply elem_of_app. right. left.
    + intros H. now destruct (proj1 (Hy _ H) e).
    + intros [[= ->] H]. congruence.
  - destruct (gst ≫= _) as [[]|e1];
      [|destruct (Py.isinstance_Exception e1) eqn:E1]; cbn [fst snd];
      split.
    + intros H. now destruct (proj2 (Hy _ H)).
    + intros (e & H & _). discriminate H.
    + intros _. eauto.
    + intros _. apply elem_of_app. right. right. left.
    + intros H. now destruct (proj2 (Hy _ H)).
    + intros (e & [= ->] & H). congruence.
  - destruct (gst ≫= _) as [[]|[]]; cbn; tauto.
Qed.

(** ** The interrupt handler of [multi_instance_yolo11l.py] *)





(** ** [multi_instance_detection_old.py]: parameters, pipelines, [run] *)

(** X20.  [setup_parameters] fails only when no architecture is
    detected, with a [ValueError].  A missing model never makes it
    fail: when neither the YOLOv11l file nor the default model is found
    the application is set up with the path of the missing YOLOv11l
    file.  A missing post-processing library leaves [post_process_so]
    at [None]. *)
Theorem old_setup_parameters (env : DetectionOld.Environment) :
  (DetectionOld.detected_arch env = None <->
   DetectionOld.setup_parameters env = Py.Raise Py.ValueError) /\
  (forall e, DetectionOld.setup_parameters env = Py.Raise e ->
     e = Py.ValueError /\ DetectionOld.detected_arch env = None) /\
  (forall a, DetectionOld.detected_arch env = Some a ->
     exists app,
       DetectionOld.setup_parameters env = Py.Ok (a, app) /\
       DetectionOld.num_instances app = 4 /\
       (DetectionOld.yolo11_exists env = true ->
        DetectionOld.hef_path app = Detection.yolo11_path) /\
       (forall path, DetectionOld.yolo11_exists env = false ->
          DetectionOld.default_model env = Py.Ok path ->
          DetectionOld.hef_path app = path) /\
       (forall e, DetectionOld.yolo11_exists env = false ->
          DetectionOld.default_model env = Py.Raise e ->
          DetectionOld.hef_path app = Detection.yolo11_path) /\
       (forall e, DetectionOld.postprocess_so env = Py.Raise e ->
          DetectionOld.post_process_so app = None)).
Proof.
  unfold DetectionOld.setup_parameters.
  destruct (DetectionOld.detected_arch env) as [a|]; cbn.
  - split; [split; discriminate|]. split; [discriminate|].
    intros a' [= <-]. eexists. split; [reflexivity|]. cbn.
    split; [reflexivity|].
    repeat split; intros; repeat match goal with
                                 | H : _ = _ |- _ => rewrite H
                                 end; reflexivity.
  - split; [now split|]. split; [|discriminate].
    intros e [= <-]. now split.
Qed.

Lemma named_inj (prefix : string) (i j : nat) :
  prefix +:+ pretty i = prefix +:+ pretty j -> i = j.
Proof.
  intros H. apply append_inj_l in H. now apply (inj pretty).
Qed.

(** X21.  The two ways the old script builds pipelines agree, and no
    element name is used for two instances.  The pipeline string of one
    instance has the same queue, the same inference element and the
    same sink as that instance's branch of the combined pipeline; only
    instance 0 has a source of its own, every other instance reads from
    the tee; and the queue and inference names of the old script, like
    the source and inference names of the multi-process script, differ
    between any two instances. *)
Theorem pipelines_agree_names_unique
    (self : DetectionOld.MultiInstanceHailoApp)
    (yapp : nat -> Yolo11l.MultiInstanceDetectionApp) :
  (forall i, Yolo11l.app_instance_id (yapp i) = i) ->
  (forall i,
     let parts := DetectionOld.create_pipeline_parts self i in
     let b := DetectionOld.branch self i in
     DetectionOld.instance_queue parts = DetectionOld.queue_to_inference b /\
     DetectionOld.instance_inference parts
       = DetectionOld.inference_pipeline b /\
     DetectionOld.instance_display parts = DetectionOld.display_pipeline b /\
     (DetectionOld.instance_source parts = DetectionOld.InputTee <-> i <> 0))
  /\
  (forall i j, i <> j ->
     let bi := DetectionOld.branch self i in
     let bj := DetectionOld.branch self j in
     let pi := Yolo11l.pipeline_parts (yapp i) in
     let pj := Yolo11l.pipeline_parts (yapp j) in
     DetectionOld.queue_to_inference bi <> DetectionOld.queue_to_inference bj
     /\
     Hailo.inference_name (DetectionOld.inference_pipeline bi)
       <> Hailo.inference_name (DetectionOld.inference_pipeline bj) /\
     DetectionOld.display_pipeline bi <> DetectionOld.display_pipeline bj /\
     Hailo.source_name (Yolo11l.source_pipeline pi)
       <> Hailo.source_name (Yolo11l.source_pipeline pj) /\
     Hailo.inference_name (Yolo11l.inference_pipeline pi)
       <> Hailo.inference_name (Yolo11l.inference_pipeline pj) /\
     Yolo11l.display_pipeline pi <> Yolo11l.display_pipeline pj).
Proof.
  intros Hid. split.
  - intros i. cbn. repeat split; try reflexivity.
    + destruct (Nat.eqb_spec i 0); [discriminate | trivial].
    + intros Hne. destruct (Nat.eqb_spec i 0); [contradiction | reflexivity].
  - intros i j Hne. cbn. rewrite !Hid.
    repeat split; try (intros H; apply named_inj in H; contradiction).
    + destruct (Nat.eqb_spec i 0), (Nat.eqb_spec j 0);
        try discriminate; [lia|].
      intros [= H]. apply named_inj in H. contradiction.
    + destruct (Nat.eqb_spec i 0), (Nat.eqb_spec j 0);
        try discriminate; [lia|].
      intros [= H]. apply named_inj in H. contradiction.
Qed.

Lemma pipelines_agree_names_unique_witness :
  "queue_to_inference_1" <> "queue_to_inference_2".
Proof.
  pose (yapp := fun i =>
          {| Yolo11l.app_instance_id := i; Yolo11l.total_instances := 4;
             Yolo11l.video_width := 640; Yolo11l.video_height := 640;
             Yolo11l.batch_size := 1;
             Yolo11l.hef_path := Detection.yolo11_path;
             Yolo11l.arch := "hailo8";
             Yolo11l.video_source := "/dev/video0";
             Yolo11l.post_process_so := None;
             Yolo11l.post_function_name := "filter";
             Yolo11l.labels_json := None;
             Yolo11l.thresholds_str := "";
             Yolo11l.frame_rate := 30; Yolo11l.sync := true;
             Yolo11l.video_sink := "autovideosink";
             Yolo11l.show_fps := true |}).
  pose (old := {| DetectionOld.num_instances := 4;
                  DetectionOld.hef_path := Detection.yolo11_path;
                  DetectionOld.post_process_so := None;
                  DetectionOld.post_function_name := "filter";
                  DetectionOld.batch_size := 1;
                  DetectionOld.video_width := 640;
                  DetectionOld.video_height := 640;
                  DetectionOld.frame_rate := 30;
                  DetectionOld.thresholds_str := "";
                  DetectionOld.video_source := "/dev/video0" |}).
  destruct (pipelines_agree_names_unique old yapp) as [_ H];
    [reflexivity|].
  destruct (H 1 2) as [Hq _]; [lia | exact Hq].
Defined.

(** X22.  [run] of the old script sets the pipeline to [NULL] exactly
    when it returns normally, that is when the pipeline was built and
    started and the main loop returned or was interrupted from the
    keyboard.  When starting fails, or the main loop ends with any
    other exception, [run] raises with the pipeline left as it was: it
    has no clean-up on that path.  The main loop runs only after the
    pipeline has been set to [PLAYING] without failure, and an error
    line is printed exactly for the exceptions deriving from
    [Exception], which are raised again. *)
Theorem old_run_cleanup (g : DetectionOld.Gst) :
  let acts := (DetectionOld.run g).1 in
  let out := (DetectionOld.run g).2 in
  let built := exists u, DetectionOld.parse_launch g = Py.Ok u in
  (DetectionOld.SetState DetectionOld.NULL ∈ acts <-> out = Py.Ok tt) /\
  (out = Py.Ok tt <->
   built /\ DetectionOld.playing_fails g = false /\
   (DetectionOld.main_loop_run g = Py.Ok tt \/
    DetectionOld.main_loop_run g = Py.Raise Py.KeyboardInterrupt)) /\
  (DetectionOld.SetState DetectionOld.PLAYING ∈ acts <-> built) /\
  (DetectionOld.RunMainLoop ∈ acts <->
   built /\ DetectionOld.playing_fails g = false) /\
  (built -> DetectionOld.playing_fails g = true ->
   out = Py.Raise Py.RuntimeError) /\
  (forall e, DetectionOld.Say (DetectionOld.ErrorRunning e) ∈ acts <->
     out = Py.Raise e /\ Py.isinstance_Exception e = true).
Proof.
  cbn zeta. unfold DetectionOld.run, DetectionOld.run_body.
  assert (Hin : forall (a : DetectionOld.Action) l,
            a ∈ l <-> In a l) by (intros; apply list_elem_of_In).
  destruct (DetectionOld.parse_launch g) as [[]|pe];
    [destruct (DetectionOld.playing_fails g);
     [|destruct (DetectionOld.main_loop_run g) as [[]|[]]]
    |destruct pe];
    cbn; rewrite ?Hin; cbn;
    repeat split; intros;
    repeat match goal with
           | H : _ /\ _ |- _ => destruct H
           | H : _ \/ _ |- _ => destruct H
           | H : exists _, _ |- _ => destruct H
           | H : _ ∈ _ |- _ => rewrite Hin in H; cbn in H
           | H : DetectionOld.Say _ = DetectionOld.Say _ |- _ =>
               injection H as <-
           | H : Py.Raise _ = Py.Raise _ |- _ => injection H as <-
           end;
    try discriminate; try contradiction; try congruence;
    eauto 10; try tauto; try (rewrite Hin; cbn; tauto).
Qed.

(** X23.  [main] of the old script ends normally whatever goes wrong,
    short of a [SystemExit]: every [Exception] and every
    [KeyboardInterrupt] that reaches it is turned into a printed line.
    The warning about a missing model does not stop it, the pipeline is
    built exactly when GStreamer initialises and an architecture is
    detected, an exception reported by [run] is reported a second time
    by [main], and a [Ctrl+C] during the main loop is handled inside
    [run]: [main] then prints no line of its own. *)
Theorem old_main_contains (model_exists : bool) (gst_init : Py.result unit)
    (env : DetectionOld.Environment) (g : DetectionOld.Gst) :
  let acts := (DetectionOld.main model_exists gst_init env g).1 in
  let out := (DetectionOld.main model_exists gst_init env g).2 in
  (out = Py.Ok tt \/ out = Py.Raise Py.SystemExit) /\
  (DetectionOld.Say DetectionOld.ModelNotFound ∈ acts <->
   model_exists = false) /\
  (DetectionOld.ParseLaunch ∈ acts <->
   (exists u, gst_init = Py.Ok u) /\
   DetectionOld.detected_arch env <> None) /\
  (forall e, DetectionOld.Say (DetectionOld.ApplicationError e) ∈ acts ->
     Py.isinstance_Exception e = true /\
     DetectionOld.Say DetectionOld.Traceback ∈ acts /\ out = Py.Ok tt) /\
  (forall e, DetectionOld.Say (DetectionOld.ErrorRunning e) ∈ acts ->
     DetectionOld.Say (DetectionOld.ApplicationError e) ∈ acts) /\
  (DetectionOld.RunMainLoop ∈ acts ->
   DetectionOld.main_loop_run g = Py.Raise Py.KeyboardInterrupt ->
   DetectionOld.Say DetectionOld.StoppingPipeline ∈ acts /\
   DetectionOld.SetState DetectionOld.NULL ∈ acts /\
   (DetectionOld.Say DetectionOld.StoppedByUser ∉ acts) /\
   out = Py.Ok tt).
Proof.
  cbn zeta.
  unfold DetectionOld.main, DetectionOld.setup_parameters,
    DetectionOld.run, DetectionOld.run_body.
  assert (Hin : forall (a : DetectionOld.Action) l,
            a ∈ l <-> In a l) by (intros; apply list_elem_of_In).
  destruct model_exists;
    (destruct gst_init as [[]|ge];
     [destruct (DetectionOld.detected_arch env) as [a|];
      [destruct (DetectionOld.parse_launch g) as [[]|pe];
       [destruct (DetectionOld.playing_fails g);
        [|destruct (DetectionOld.main_loop_run g) as [[]|[]]]
       |destruct pe]
      |]
     |destruct ge]);
    cbn; rewrite ?Hin; cbn;
    repeat split; intros;
    repeat match goal with
           | H : _ /\ _ |- _ => destruct H
           | H : _ \/ _ |- _ => destruct H
           | H : exists _, _ |- _ => destruct H
           | H : _ ∈ _ |- _ => rewrite Hin in H; cbn in H
           | H : DetectionOld.Say _ = DetectionOld.Say _ |- _ =>
               injection H as <-
           | H : Py.Raise _ = Py.Raise _ |- _ => injection H as <-
           end;
    try discriminate; try contradiction; try congruence;
    eauto 10; try tauto;
    try (rewrite Hin; cbn; tauto);
    try (rewrite Hin; cbn; intuition discriminate).
Qed.

(** ** The join loop of [multi_instance_yolo11l.py] *)

Lemma all_joined_when (processes : list bool) :
  (forall i, i < length processes -> processes !! i = Some false) ->
  Yolo11l.all_joined processes = true.
Proof.
  intros H. unfold Yolo11l.all_joined. apply forallb_forall.
  intros b Hb. apply list_elem_of_In, list_elem_of_lookup in Hb as [i Hi].
  pose proof (lookup_lt_Some _ _ _ Hi) as Hlt.
  rewrite (H i Hlt) in Hi. now injection Hi as <-.
Qed.

Lemma yolo11l_all_end (es : list Yolo11l.Event) (s : Yolo11l.Supervisor) :
  (Yolo11l.main_running s = true ->
   Yolo11l.all_joined (Yolo11l.processes s) = false) ->
  (forall i, i < length (Yolo11l.processes s) ->
     Yolo11l.processes s !! i = Some false \/
     exists o, Yolo11l.TargetEnds i o ∈ es) ->
  Yolo11l.main_running (Yolo11l.run_events s es) = false.
Proof.
  revert s. induction es as [|e es IH]; intros s Hinv Hcover.
  - cbn. destruct (Yolo11l.main_running s) eqn:Er; [|reflexivity].
    rewrite all_joined_when in Hinv; [now discriminate Hinv|].
    intros i Hi. destruct (Hcover i Hi) as [H | [o H]]; [exact H|].
    now apply elem_of_nil in H.
  - unfold Yolo11l.run_events. cbn [fold_left].
    fold (Yolo11l.run_events (Yolo11l.step s e) es).
    destruct (Yolo11l.main_running s) eqn:Er.
    + unfold Yolo11l.step. rewrite Er. destruct e as [j o|].
      * apply IH; cbn [Yolo11l.processes Yolo11l.main_running].
        -- now intros ->%negb_true_iff.
        -- rewrite length_insert. intros i Hi.
           destruct (decide (i = j)) as [->|Hne];
             [left; now apply list_lookup_insert_eq|].
           rewrite list_lookup_insert_ne by congruence.
           destruct (Hcover i Hi) as [H | [o' H]]; [now left|right].
           apply elem_of_cons in H as [H | H]; [congruence | eauto].
      * now rewrite yolo11l_stopped_stays.
    + unfold Yolo11l.step. rewrite Er.
      now rewrite yolo11l_stopped_stays.
Qed.

(** X24.  [main] of the multi-process script joins its workers and
    then returns: once every launched instance has ended, however it
    ended and in whatever order, the main process is no longer running,
    without any [Ctrl+C]; whatever happens afterwards changes nothing. *)
Theorem yolo11l_main_returns_when_all_end (n : nat)
    (es : list Yolo11l.Event) :
  0 < n ->
  (forall i, i < n -> exists o, Yolo11l.TargetEnds i o ∈ es) ->
  Yolo11l.main_running (Yolo11l.run_events (Yolo11l.started n) es) = false
  /\
  (forall later,
     Yolo11l.run_events (Yolo11l.started n) (es ++ later)
     = Yolo11l.run_events (Yolo11l.started n) es).
Proof.
  intros Hn Hall.
  assert (Hstop : Yolo11l.main_running
                    (Yolo11l.run_events (Yolo11l.started n) es) = false).
  { apply yolo11l_all_end; cbn [Yolo11l.started Yolo11l.processes].
    - intros _. destruct n as [|n]; [lia | reflexivity].
    - rewrite length_replicate. intros i Hi. right. now apply Hall. }
  split; [exact Hstop|].
  intros later. unfold Yolo11l.run_events at 1. rewrite fold_left_app.
  now apply yolo11l_stopped_stays.
Qed.

Lemma yolo11l_main_returns_when_all_end_witness :
  Yolo11l.main_running
    (Yolo11l.run_events (Yolo11l.started 2)
       [Yolo11l.TargetEnds 1 (Py.Ok tt);
        Yolo11l.TargetEnds 0 (Py.Raise Py.SystemExit)]) = false.
Proof.
  apply (yolo11l_main_returns_when_all_end 2
           [Yolo11l.TargetEnds 1 (Py.Ok tt);
            Yolo11l.TargetEnds 0 (Py.Raise Py.SystemExit)]); [lia|].
  intros i Hi.
  destruct i as [|[|i]]; [| |lia].
  - exists (Py.Raise Py.SystemExit). right. left.
  - exists (Py.Ok tt). left.
Defined.

(** ** The batch estimator on arbitrary clock readings *)

Lemma yolo11l_records_counter (ts : list Q)
    (s : Yolo11l.MultiInstanceCallback) :
  (0 <= Yolo11l.fps_frame_count s < 30)%Z ->
  exists s',
    yolo11l_records ts s = Py.Ok s' /\
    Yolo11l.fps_frame_count s'
      = ((Yolo11l.fps_frame_count s + Py.len ts) mod 30)%Z /\
    ((Yolo11l.fps_frame_count s + Py.len ts < 30)%Z ->
     Yolo11l.current_fps s' = Yolo11l.current_fps s /\
     Yolo11l.last_fps_time s' = Yolo11l.last_fps_time s).
Proof.
  unfold Py.len. revert s. induction ts as [|t ts IH]; intros s Hs.
  - exists s. split; [reflexivity|]. cbn [length].
    rewrite Z.add_0_r, Z.mod_small by lia. now split.
  - cbn [yolo11l_records]. rewrite yolo11l_calculate_fps_closed.
    cbn zeta.
    destruct (30 <=? Yolo11l.fps_frame_count s + 1)%Z eqn:E;
      cbn [mbind result_bind Py.bind];
      [apply Z.leb_le in E | apply Z.leb_gt in E].
    + edestruct IH as (s' & Hrun & Hc & _); [|exists s'; split;
        [exact Hrun|]].
      * yolo11l_fields. lia.
      * rewrite Hc. yolo11l_fields.
        split; [|cbn [length]; lia].
        replace (Yolo11l.fps_frame_count s
                 + Z.of_nat (length (t :: ts)))%Z
          with (Z.of_nat (length ts) + 1 * 30)%Z by (cbn [length]; lia).
        now rewrite Z.mod_add, Z.add_0_l by lia.
    + edestruct IH as (s' & Hrun & Hc & Hkeep); [|exists s'; split;
        [exact Hrun|]].
      * yolo11l_fields. lia.
      * rewrite Hc. yolo11l_fields. split.
        -- f_equal. cbn [length]. lia.
        -- intros Hlt. apply Hkeep. cbn [length] in Hlt. lia.
Qed.

(** X25.  The rate of [multi_instance_yolo11l.py] is refreshed on every
    thirtieth frame only, whatever the clock reads.  After any frames,
    the batch counter is the number of frames modulo 30.  A frame that
    does not complete a batch of 30 leaves the stored rate and the start
    of the batch as they are, so the rate is 0.0 for the first 29 frames.
    The frame that completes a batch starts a new one at its own
    reading, and sets the rate to 30 over the duration of the batch,
    unless that duration is not positive: then the old rate stays. *)
Theorem batch_rate_refreshed_every_30 (ts : list Q) (t : Q)
    (id : nat) (t0 t1 : Q) :
  exists s s',
    yolo11l_records ts (Yolo11l.init id t0 t1) = Py.Ok s /\
    Yolo11l.calculate_fps t s = Py.Ok (Yolo11l.current_fps s', s') /\
    Yolo11l.fps_frame_count s = Z.of_nat (length ts mod 30) /\
    (length ts mod 30 <> 29 ->
     Yolo11l.current_fps s' = Yolo11l.current_fps s /\
     Yolo11l.last_fps_time s' = Yolo11l.last_fps_time s) /\
    (length ts < 29 -> Yolo11l.current_fps s' = 0%Q) /\
    (length ts mod 30 = 29 ->
     Yolo11l.fps_frame_count s' = 0%Z /\
     Yolo11l.last_fps_time s' = t /\
     ((Yolo11l.last_fps_time s < t)%Q ->
      Yolo11l.current_fps s' = (30 / (t - Yolo11l.last_fps_time s))%Q) /\
     ((t <= Yolo11l.last_fps_time s)%Q ->
      Yolo11l.current_fps s' = Yolo11l.current_fps s)).
Proof.
  destruct (yolo11l_records_counter ts (Yolo11l.init id t0 t1))
    as (s & Hrun & Hc & Hkeep); [cbn; lia|].
  assert (Hcount : Yolo11l.fps_frame_count s = Z.of_nat (length ts mod 30)).
  { rewrite Hc. unfold Py.len. cbn [Yolo11l.init Yolo11l.fps_frame_count].
    rewrite Z.add_0_l. change 30%Z with (Z.of_nat 30).
    now rewrite <- Nat2Z.inj_mod. }
  pose proof (Nat.mod_upper_bound (length ts) 30 ltac:(lia)) as Hub.
  pose proof (yolo11l_calculate_fps_closed t s) as Hcalc.
  cbn zeta in Hcalc. rewrite Hcount in Hcalc.
  destruct (30 <=? Z.of_nat (length ts mod 30) + 1)%Z eqn:E;
    [apply Z.leb_le in E | apply Z.leb_gt in E].
  - assert (Hm : length ts mod 30 = 29) by lia.
    match type of Hcalc with _ = Py.Ok (_, ?u) => exists s, u end.
    split; [exact Hrun|].
    split; [rewrite Hcalc; reflexivity|].
    split; [exact Hcount|]. yolo11l_fields.
    split; [intros Hne; contradiction|].
    split.
    { intros Hlt. rewrite Nat.mod_small in Hm by lia. lia. }
    intros _. split; [reflexivity|]. split; [reflexivity|].
    rewrite Hm. split.
    + intros Hgo. replace (Py.gt _ 0) with true; [reflexivity|].
      symmetry. apply gt_true. apply (proj1 (Qlt_minus_iff _ _)), Hgo.
    + intros Hback. replace (Py.gt _ 0) with false; [reflexivity|].
      symmetry. apply gt_false.
      apply (Qplus_le_l _ _ (Yolo11l.last_fps_time s)).
      ring_simplify. exact Hback.
  - match type of Hcalc with _ = Py.Ok (_, ?u) => exists s, u end.
    split; [exact Hrun|].
    split; [rewrite Hcalc; reflexivity|].
    split; [exact Hcount|]. yolo11l_fields.
    split; [now split|]. split; [|intros Hm; lia].
    intros Hlt. apply Hkeep. unfold Py.len. cbn. lia.
Qed.

(** ** From the launch to the dashboard *)

Lemma launch_memory (fws : list Detection.Framework) :
  let m0 := fold_left Detection.perform
              (imap (fun i fw => Detection.Construct i fw) fws)
              Detection.empty_memory in
  length (Detection.heap m0) = length fws /\
  (forall i, i < length fws -> is_Some (Detection.heap m0 !! i)) /\
  (forall i ud, Detection.heap m0 !! i = Some ud ->
     Detection.get_count ud = 0%Z /\ Detection.total_detections ud = 0%Z) /\
  (forall i, Detection.instance_callbacks m0 !! i
             = if decide (i < length fws) then Some i else None).
Proof.
  cbn zeta. induction fws as [|fw fws IH] using rev_ind.
  - cbn. split; [reflexivity|]. split; [intros i Hi; lia|].
    split; [intros i ud H; discriminate H|].
    intros i. rewrite lookup_empty. now destruct (decide (i < 0)); [lia|].
  - rewrite imap_app, fold_left_app. cbn [imap fold_left Detection.perform].
    rewrite run_instance_memory, app_init_memory.
    cbn [Detection.heap Detection.instance_callbacks].
    destruct IH as (Hlen & Hsome & Hzero & Hreg).
    rewrite !length_app, Hlen, Nat.add_0_r. cbn [length].
    split; [reflexivity|]. split; [|split].
    + intros i Hi. destruct (decide (i < length fws)) as [Hlt|Hge].
      * destruct (Hsome i Hlt) as [ud Hud]. exists ud.
        now apply lookup_app_l_Some.
      * eexists. assert (i = length fws) as -> by lia.
        rewrite <- Hlen. apply list_lookup_middle. reflexivity.
    + intros i ud Hud. apply lookup_app_Some in Hud as [Hud | [Hge Hud]].
      * now apply (Hzero i).
      * apply list_lookup_singleton_Some in Hud as [_ <-]. now split.
    + intros i. destruct (decide (i = length fws)) as [->|Hne].
      * rewrite lookup_insert_eq.
        destruct (decide (_ < _)); [reflexivity | lia].
      * rewrite lookup_insert_ne, Hreg by congruence.
        destruct (decide (i < length fws)), (decide (i < length fws + 1));
          (reflexivity || lia).
Qed.

Lemma probes_registry
    (ps : list (Detection.YOLOv11lDetectionApp * Hailo.Invocation))
    (m : Detection.Memory) :
  Detection.instance_callbacks
    (fold_left Detection.perform
       (map (fun p => Detection.Probe p.1 (Hailo.at_fps p.2)
                        (Hailo.at_status p.2) (Hailo.probe_buffer p.2)) ps)
       m)
  = Detection.instance_callbacks m.
Proof.
  revert m. induction ps as [|[app c] ps IH]; intros m; [reflexivity|].
  cbn [map fold_left Detection.perform fst snd].
  rewrite IH. apply probe_registry.
Qed.

Lemma sum_indicator (k : nat) (a : Z) (start n : nat) :
  foldr Z.add 0%Z
    (map (fun i => if decide (k = i) then a else 0%Z) (seq start n))
  = if decide (start <= k < start + n) then a else 0%Z.
Proof.
  revert start. induction n as [|n IH]; intros start; cbn [seq map foldr].
  - destruct (decide _); [lia | reflexivity].
  - rewrite IH.
    destruct (decide (k = start)), (decide (S start <= k < S start + n)),
      (decide (start <= k < start + S n)); lia.
Qed.

Lemma sum_pointwise {A} (f g : A -> Z) (l : list A) :
  foldr Z.add 0%Z (map (fun i => (f i + g i)%Z) l)
  = (foldr Z.add 0%Z (map f l) + foldr Z.add 0%Z (map g l))%Z.
Proof.
  induction l as [|i l IH]; [reflexivity|]. cbn [map foldr]. lia.
Qed.

Lemma sum_by_key {A} (w : A -> Z) (key : A -> nat) (ps : list A) (n : nat) :
  (forall p, p ∈ ps -> key p < n) ->
  foldr Z.add 0%Z
    (map (fun i => foldr Z.add 0%Z
                     (map w (filter (fun p => key p = i) ps)))
       (seq 0 n))
  = foldr Z.add 0%Z (map w ps).
Proof.
  induction ps as [|p ps IH]; intros Hkey.
  - cbn. induction (seq 0 n) as [|i l IHl]; [reflexivity|].
    cbn [map foldr]. now rewrite IHl.
  - cbn [map foldr]. rewrite <- IH by (intros q Hq; apply Hkey; now right).
    assert (Hp : key p < n) by (apply Hkey; left).
    transitivity
      (foldr Z.add 0%Z
         (map (fun i => ((if decide (key p = i) then w p else 0)
                         + foldr Z.add 0
                             (map w (filter (fun q => key q = i) ps)))%Z)
            (seq 0 n))).
    + f_equal. apply map_ext. intros i.
      destruct (decide (key p = i)) as [He|Hne].
      * rewrite filter_cons_True by exact He. reflexivity.
      * rewrite filter_cons_False by exact Hne. reflexivity.
    + rewrite sum_pointwise, sum_indicator.
      destruct (decide _); [reflexivity | lia].
Qed.

Lemma len_as_sum {A} (l : list A) :
  Py.len l = foldr Z.add 0%Z (map (fun _ => 1%Z) l).
Proof.
  unfold Py.len. induction l as [|x l IH]; [reflexivity|].
  cbn [length map foldr]. lia.
Qed.

Lemma seq_sorted (start n : nat) : StronglySorted Nat.le (seq start n).
Proof.
  revert start. induction n as [|n IH]; intros start; constructor.
  - apply IH.
  - apply List.Forall_forall. intros x Hx. apply in_seq in Hx.
    unfold Nat.le. lia.
Qed.

Lemma sorted_keys_seq {V} (d : gmap nat V) (n : nat) :
  (forall i, is_Some (d !! i) <-> i < n) ->
  Detection.sorted_keys d = seq 0 n.
Proof.
  intros Hd. apply (StronglySorted_unique Nat.le).
  - unfold Detection.sorted_keys.
    apply StronglySorted_merge_sort; [apply _|].
    intros x y. unfold Nat.le. lia.
  - apply seq_sorted.
  - apply NoDup_Permutation.
    + rewrite sorted_keys_perm. apply NoDup_fst_map_to_list.
    + apply NoDup_seq.
    + intros i. rewrite sorted_keys_elem, Hd, elem_of_seq. lia.
Qed.

(** X26.  From the launch to the dashboard.  After [main] has
    constructed its instances in order, whether or not their framework
    constructors succeeded, and the pipelines have invoked the probe
    callbacks of those applications any number of times in any
    interleaving, a pass of the dashboard reports as many instances as
    were launched, a total frame count equal to the number of callback
    invocations, and a detection total equal to the number of detections
    in all the buffers the callbacks were given. *)
Theorem dashboard_counts_every_frame (fws : list Detection.Framework)
    (ps : list (Detection.YOLOv11lDetectionApp * Hailo.Invocation))
    (now : nat -> Q) :
  let m0 := fold_left Detection.perform
              (imap (fun i fw => Detection.Construct i fw) fws)
              Detection.empty_memory in
  let m := fold_left Detection.perform
             (map (fun p => Detection.Probe p.1 (Hailo.at_fps p.2)
                              (Hailo.at_status p.2)
                              (Hailo.probe_buffer p.2)) ps) m0 in
  (forall p, p ∈ ps -> Detection.user_data p.1 < length fws) ->
  exists d,
    Detection.dashboard_pass now (Detection.snapshot m) = Py.Ok d /\
    Detection.instances d = Py.len fws /\
    map Detection.line_instance (Detection.per_instance d)
      = seq 0 (length fws) /\
    Detection.frames d = Py.len ps /\
    Detection.detections d
      = foldr Z.add 0%Z (map (fun p => Hailo.detections_in p.2) ps).
Proof.
  intros m0 m Hps.
  destruct (launch_memory fws) as (Hlen & Hsome & Hzero & Hreg).
  fold m0 in Hlen, Hsome, Hzero, Hreg.
  assert (Hregm : Detection.instance_callbacks m
                  = Detection.instance_callbacks m0)
    by apply probes_registry.
  assert (Hentry : forall i, i < length fws ->
            exists ud,
              Detection.snapshot m !! i = Some ud /\
              Detection.get_count ud
                = foldr Z.add 0%Z
                    (map (fun _ => 1%Z)
                       (filter (fun p => Detection.user_data p.1 = i) ps)) /\
              Detection.total_detections ud
                = foldr Z.add 0%Z
                    (map (fun p => Hailo.detections_in p.2)
                       (filter (fun p => Detection.user_data p.1 = i) ps))).
  { intros i Hi. destruct (Hsome i Hi) as [ud0 Hud0].
    destruct (probes_heap ps m0 i ud0 Hud0) as (ud & Hud & Hc & Ht).
    destruct (Hzero i ud0 Hud0) as [Hc0 Ht0].
    exists ud. rewrite snapshot_lookup. unfold Detection.entry.
    rewrite Hregm, Hreg, decide_True by exact Hi. cbn.
    split; [exact Hud|]. rewrite Hc, Ht, Hc0, Ht0, len_as_sum.
    split; lia. }
  assert (Hkeys : forall i, is_Some (Detection.snapshot m !! i)
                            <-> i < length fws).
  { intros i. split.
    - rewrite snapshot_lookup. unfold Detection.entry.
      rewrite Hregm, Hreg.
      destruct (decide (i < length fws)); [trivial|].
      cbn. intros [x Hx]. discriminate Hx.
    - intros Hi. destruct (Hentry i Hi) as (ud & Hud & _). eauto. }
  pose proof (sorted_keys_seq _ _ Hkeys) as Hsorted.
  rewrite dashboard_pass_closed. cbn zeta. eexists.
  split; [reflexivity|].
  cbn [Detection.instances Detection.per_instance Detection.frames
       Detection.detections].
  split; [|split; [|split]].
  - rewrite <- sorted_keys_length, Hsorted, length_seq. reflexivity.
  - rewrite <- Hsorted. apply rows_instances.
    intros i. apply sorted_keys_elem.
  - unfold Board.sum_frames.
    rewrite (rows_project now _ Detection.line_frames Detection.get_count)
      by (reflexivity || intros i; apply sorted_keys_elem).
    rewrite fold_left_Zadd, Z.add_0_l, Hsorted, len_as_sum.
    rewrite <- (sum_by_key (fun _ => 1%Z)
                  (fun p => Detection.user_data p.1) ps (length fws) Hps).
    f_equal. apply map_ext_in. intros i Hi. apply in_seq in Hi.
    destruct (Hentry i) as (ud & -> & Hc & _); [lia|]. exact Hc.
  - unfold Board.sum_detections.
    rewrite (rows_project now _ Detection.line_detections
               Detection.total_detections)
      by (reflexivity || intros i; apply sorted_keys_elem).
    rewrite fold_left_Zadd, Z.add_0_l, Hsorted.
    rewrite <- (sum_by_key (fun p => Hailo.detections_in p.2)
                  (fun p => Detection.user_data p.1) ps (length fws) Hps).
    f_equal. apply map_ext_in. intros i Hi. apply in_seq in Hi.
    destruct (Hentry i) as (ud & -> & _ & Ht); [lia|]. exact Ht.
Qed.

Lemma dashboard_counts_every_frame_witness :
  let fw := {| Detection.clock0 := 0; Detection.clock1 := 0;
               Detection.super_init := Py.Ok "default.hef";
               Detection.yolo11_exists := true;
               Detection.run := fun _ => Py.Ok tt |} in
  let broken := {| Detection.clock0 := 1; Detection.clock1 := 1;
                   Detection.super_init := Py.Raise Py.RuntimeError;
                   Detection.yolo11_exists := true;
                   Detection.run := fun _ => Py.Ok tt |} in
  let app := {| Detection.app_instance_id := 0; Detection.user_data := 0;
                Detection.hef_path := Detection.yolo11_path;
                Detection.batch_size := 1;
                Detection.thresholds_str := "" |} in
  let frame := {| Hailo.at_fps := 2; Hailo.at_status := 2;
                  Hailo.probe_buffer := None |} in
  exists d,
    Detection.dashboard_pass (fun _ => 10%Q)
      (Detection.snapshot
         (fold_left Detection.perform
            (map (fun p => Detection.Probe p.1 (Hailo.at_fps p.2)
                             (Hailo.at_status p.2) (Hailo.probe_buffer p.2))
               [(app, frame); (app, frame); (app, frame)])
            (fold_left Detection.perform
               (imap (fun i fw => Detection.Construct i fw) [fw; broken])
               Detection.empty_memory)))
    = Py.Ok d /\
    Detection.instances d = 2%Z /\
    Detection.frames d = 3%Z.
Proof.
  intros fw broken app frame.
  destruct (dashboard_counts_every_frame [fw; broken]
              [(app, frame); (app, frame); (app, frame)] (fun _ => 10%Q))
    as (d & Hd & Hn & _ & Hf & _).
  - intros p Hp.
    repeat (apply elem_of_cons in Hp as [-> | Hp]; [cbn; lia|]).
    now apply elem_of_nil in Hp.
  - exists d. split; [exact Hd|]. split; [exact Hn | exact Hf].
Defined.
